(** * Maha Aastha chatbot backend: identifier detection, intent
      classification, the dialogue engine and the ratings ledger

    A shallow embedding of [fastapp.py] and of the part of [database.py]
    that the dialogue engine calls.  Python [str] values are sequences of
    Unicode code points; the [re] patterns of the source are kept as
    regular-expression syntax trees and run by a backtracking matcher with
    Python's priorities (leftmost start, ordered alternation, greedy
    repetition).  Module-level dictionaries ([USER_SESSION_STATE],
    [CHAT_HISTORY], [RATINGS_DATA], [SYSTEM_STATUS]) are fields of an
    explicit [world]; handlers are computations in a state-and-exception
    monad over it.  A response that a handler builds itself is encoded
    where it is built, and that can raise inside the handler; a handler
    that awaits the store can be run in two halves, with other requests
    served in between.  Logging is not modelled. *)

From Stdlib Require Import ZArith List Bool Lia String Ascii DecimalString.
From stdpp Require Import base option list gmap.

Local Open Scope Z_scope.

(** ** Text *)

(** A Python [str]: its code points, in order. *)
Abbreviation str := (list Z).

Definition byte_values (s : string) : list Z :=
  map (fun a => Z.of_N (N_of_ascii a)) (list_ascii_of_string s).

(** String literals of this file are UTF-8; [utf8_decode] recovers the code
    points the Python literal denotes. *)
Fixpoint utf8_decode (bs : list Z) : str :=
  match bs with
  | [] => []
  | b0 :: t0 =>
    if b0 <? 0x80 then b0 :: utf8_decode t0
    else match t0 with
    | [] => []
    | b1 :: t1 =>
      if b0 <? 0xE0 then
        Z.lor (Z.shiftl (Z.land b0 0x1F) 6) (Z.land b1 0x3F) :: utf8_decode t1
      else match t1 with
      | [] => []
      | b2 :: t2 =>
        if b0 <? 0xF0 then
          Z.lor (Z.shiftl (Z.land b0 0x0F) 12)
            (Z.lor (Z.shiftl (Z.land b1 0x3F) 6) (Z.land b2 0x3F))
          :: utf8_decode t2
        else match t2 with
        | [] => []
        | b3 :: t3 =>
          Z.lor (Z.shiftl (Z.land b0 0x07) 18)
            (Z.lor (Z.shiftl (Z.land b1 0x3F) 12)
               (Z.lor (Z.shiftl (Z.land b2 0x3F) 6) (Z.land b3 0x3F)))
          :: utf8_decode t3
        end
      end
    end
  end.

Definition u (s : string) : str := utf8_decode (byte_values s).

(** [s.encode('utf-8')]: surrogates and values outside the code space have
    no encoding ([UnicodeEncodeError]). *)
Definition utf8_encode_char (c : Z) : option (list Z) :=
  if c <? 0 then None
  else if c <? 0x80 then Some [c]
  else if c <? 0x800 then
    Some [Z.lor 0xC0 (Z.shiftr c 6); Z.lor 0x80 (Z.land c 0x3F)]
  else if (0xD800 <=? c) && (c <=? 0xDFFF) then None
  else if c <? 0x10000 then
    Some [Z.lor 0xE0 (Z.shiftr c 12);
          Z.lor 0x80 (Z.land (Z.shiftr c 6) 0x3F);
          Z.lor 0x80 (Z.land c 0x3F)]
  else if c <? 0x110000 then
    Some [Z.lor 0xF0 (Z.shiftr c 18);
          Z.lor 0x80 (Z.land (Z.shiftr c 12) 0x3F);
          Z.lor 0x80 (Z.land (Z.shiftr c 6) 0x3F);
          Z.lor 0x80 (Z.land c 0x3F)]
  else None.

Fixpoint utf8_encode (s : str) : option (list Z) :=
  match s with
  | [] => Some []
  | c :: t =>
    match utf8_encode_char c, utf8_encode t with
    | Some bs, Some bt => Some (bs ++ bt)
    | _, _ => None
    end
  end.

Definition str_eqb (a b : str) : bool := bool_decide (a = b).

Fixpoint startswith (s p : str) : bool :=
  match p, s with
  | [], _ => true
  | c :: p', d :: s' => (c =? d) && startswith s' p'
  | _ :: _, [] => false
  end.

(** [p in s] *)
Fixpoint contains (p s : str) : bool :=
  startswith s p || match s with [] => false | _ :: t => contains p t end.

(** [c in chars] for a one-character [c] *)
Definition char_in (c : Z) (chars : str) : bool := existsb (Z.eqb c) chars.

Definition LF : Z := 10.
Definition CR : Z := 13.
Definition DQUOTE : Z := 34.
Definition nl : str := [LF].
Definition dq : str := [DQUOTE].

(** [str(n)] for an [int] *)
Definition str_of_int (n : Z) : str :=
  byte_values (NilZero.string_of_int (Z.to_int n)).

(** ** The Unicode character database

    [str.lower], [str.strip] and the [re] classes [\d], [\s], [\w] read
    CPython's Unicode tables, which belong to the interpreter and not to the
    program.  The program is modelled over any such tables. *)
Class UnicodeData := {
  isdecimal : Z -> bool;      (* [\d], [str.isdecimal] *)
  isspace : Z -> bool;        (* [\s], [str.isspace], [str.strip] *)
  isalnum : Z -> bool;        (* [str.isalnum]; [\w] adds the underscore *)
  tolower : Z -> Z;           (* one-to-one lowercase, used by [re.IGNORECASE] *)
  iscased : Z -> bool;        (* [_sre.unicode_iscased] *)
  lower : str -> str;         (* [str.lower] *)
  isdecimal_ascii :           (* the ASCII digits are decimal digits *)
    forall c, 48 <= c <= 57 -> isdecimal c = true
}.


(** ** Exceptions *)

Inductive exn :=
| IndexError (msg : str)
| KeyError (key : str)
| UnicodeEncodeError
| ExternalError (what : str).     (* raised by the database driver or the file system *)

Inductive result (A : Type) :=
| Ok (a : A)
| Raise (e : exn).
Arguments Ok {A} a.
Arguments Raise {A} e.

Definition rbind {A B} (m : result A) (f : A -> result B) : result B :=
  match m with Ok a => f a | Raise e => Raise e end.

(** ** Regular expressions: the fragment of [re] syntax the program uses *)

Inductive set_item :=
| SChar (c : Z)            (* a character listed in the brackets *)
| SRange (lo hi : Z)       (* lo-hi *)
| SDigit                   (* \d *)
| SSpace.                  (* \s *)

Inductive atom :=
| AChar (c : Z)                                   (* a literal character *)
| ASet (negated : bool) (items : list set_item).  (* [...] and [^...] *)

Inductive regex :=
| Eps
| One (a : atom)
| Rep (lo : nat) (hi : option nat) (a : atom)   (* a*, a+, a{lo,}, a{n}: greedy *)
| Cat (r1 r2 : regex)
| Alt (r1 r2 : regex)                           (* r1|r2, r1 tried first *)
| Opt (r : regex)                               (* r?, greedy *)
| Group (n : nat) (r : regex)                   (* the n-th pair of parentheses *)
| Bol                                           (* ^ *)
| Eol                                           (* $ *)
| WordB.                                        (* \b *)

Declare Scope regex_scope.
Delimit Scope regex_scope with re.
Bind Scope regex_scope with regex.
Infix "⋅" := Cat (at level 40, left associativity) : regex_scope.
Infix "∥" := Alt (at level 50, left associativity) : regex_scope.

(** A run of literal characters. *)
Definition lit (s : string) : regex :=
  fold_right (fun c r => Cat (One (AChar c)) r) Eps (u s).

Definition digit : atom := ASet false [SDigit].          (* \d *)
Definition nondigit : atom := ASet true [SDigit].        (* \D *)
Definition space : atom := ASet false [SSpace].          (* \s *)
Definition star (a : atom) : regex := Rep 0 None a.
Definition plus (a : atom) : regex := Rep 1 None a.
Definition exactly (n : nat) (a : atom) : regex := Rep n (Some n) a.
Definition at_least (n : nat) (a : atom) : regex := Rep n None a.

Fixpoint ngroups (r : regex) : nat :=
  match r with
  | Cat r1 r2 | Alt r1 r2 => (ngroups r1 + ngroups r2)%nat
  | Opt r' => ngroups r'
  | Group _ r' => S (ngroups r')
  | _ => O
  end.

(** [re._casefix._EXTRA_CASES]: lowercase characters that share an uppercase
    with other lowercase characters. *)
Definition EXTRA_CASES : list (Z * list Z) :=
  [(0x0069, [0x0131]); (0x0073, [0x017F]); (0x00B5, [0x03BC]);
   (0x0131, [0x0069]); (0x017F, [0x0073]); (0x0345, [0x03B9; 0x1FBE]);
   (0x0390, [0x1FD3]); (0x03B0, [0x1FE3]); (0x03B2, [0x03D0]);
   (0x03B5, [0x03F5]); (0x03B8, [0x03D1]); (0x03B9, [0x0345; 0x1FBE]);
   (0x03BA, [0x03F0]); (0x03BC, [0x00B5]); (0x03C0, [0x03D6]);
   (0x03C1, [0x03F1]); (0x03C2, [0x03C3]); (0x03C3, [0x03C2]);
   (0x03C6, [0x03D5]); (0x03D0, [0x03B2]); (0x03D1, [0x03B8]);
   (0x03D5, [0x03C6]); (0x03D6, [0x03C0]); (0x03F0, [0x03BA]);
   (0x03F1, [0x03C1]); (0x03F5, [0x03B5]); (0x0432, [0x1C80]);
   (0x0434, [0x1C81]); (0x043E, [0x1C82]); (0x0441, [0x1C83]);
   (0x0442, [0x1C84; 0x1C85]); (0x044A, [0x1C86]); (0x0463, [0x1C87]);
   (0x1C80, [0x0432]); (0x1C81, [0x0434]); (0x1C82, [0x043E]);
   (0x1C83, [0x0441]); (0x1C84, [0x0442; 0x1C85]); (0x1C85, [0x0442; 0x1C84]);
   (0x1C86, [0x044A]); (0x1C87, [0x0463]); (0x1C88, [0xA64B]);
   (0x1E61, [0x1E9B]); (0x1E9B, [0x1E61]); (0x1FBE, [0x0345; 0x03B9]);
   (0x1FD3, [0x0390]); (0x1FE3, [0x03B0]); (0xA64B, [0x1C88]);
   (0xFB05, [0xFB06]); (0xFB06, [0xFB05])].

Fixpoint extra_cases (tbl : list (Z * list Z)) (lo : Z) : list Z :=
  match tbl with
  | [] => []
  | (k, v) :: tbl' => if k =? lo then v else extra_cases tbl' lo
  end.

(** A match object: the span, the matched text, the groups that took part,
    and the number of groups of the pattern. *)
Record Match := {
  m_start : nat;
  m_end : nat;
  m_group0 : str;
  m_marks : list (nat * str);
  m_ngroups : nat
}.

Fixpoint mark_lookup (n : nat) (marks : list (nat * str)) : option str :=
  match marks with
  | [] => None
  | (i, s) :: marks' => if Nat.eqb i n then Some s else mark_lookup n marks'
  end.

(** [m.group(i)]: the whole match for [0], [None] for a group that did not
    take part, [IndexError] for a group the pattern does not have. *)
Definition group (m : Match) (i : nat) : result (option str) :=
  match i with
  | O => Ok (Some (m_group0 m))
  | S _ =>
    if Nat.leb i (m_ngroups m) then Ok (mark_lookup i (m_marks m))
    else Raise (IndexError (u "no such group"))
  end.

Definition found {A} (o : option A) : bool :=
  match o with Some _ => true | None => false end.

(** Truth value of an [Optional[str]]. *)
Definition truthy (o : option str) : bool :=
  match o with
  | Some (_ :: _) => true
  | _ => false
  end.

(** The matcher's position in the subject. *)
Record cursor := {
  pos : nat;
  prev : option Z;             (* the character before the position *)
  rest : str;                  (* the subject from the position on *)
  marks : list (nat * str)
}.

Definition range_chars (lo hi : Z) : list Z :=
  map (fun i => lo + Z.of_nat i) (seq 0 (Z.to_nat (hi - lo + 1))).

Section Matcher.
Context `{UCD : UnicodeData}.

Fixpoint lstrip (s : str) : str :=
  match s with
  | c :: t => if isspace c then lstrip t else s
  | [] => []
  end.
Definition rstrip (s : str) : str := reverse (lstrip (reverse s)).
(** [s.strip()] *)
Definition strip (s : str) : str := rstrip (lstrip s).

(** [\w] *)
Definition is_word (c : Z) : bool := isalnum c || (c =? 95).

Definition word_opt (o : option Z) : bool :=
  match o with Some c => is_word c | None => false end.

Definition item_chars (i : set_item) : list Z :=
  match i with
  | SChar c => [c]
  | SRange lo hi => range_chars lo hi
  | SDigit | SSpace => []
  end.

Definition item_category (i : set_item) (c : Z) : bool :=
  match i with
  | SDigit => isdecimal c
  | SSpace => isspace c
  | SChar _ | SRange _ _ => false
  end.

Definition item_matches (i : set_item) (c : Z) : bool :=
  match i with
  | SChar x => c =? x
  | SRange lo hi => (lo <=? c) && (c <=? hi)
  | SDigit => isdecimal c
  | SSpace => isspace c
  end.

(** The folded form of a listed character under [re.IGNORECASE]: its
    lowercase and the extra cases of that lowercase. *)
Definition folded (x : Z) : list Z :=
  tolower x :: extra_cases EXTRA_CASES (tolower x).

(** Does the atom accept the character?  With [ic] the atom was compiled
    under [re.IGNORECASE]: a cased literal compares lowercase forms, a set
    with a cased member is folded and tested on the lowercase of the
    character, other atoms are compared as they are. *)
Definition atom_matches (ic : bool) (a : atom) (c : Z) : bool :=
  match a with
  | AChar x =>
    if ic && iscased x then existsb (Z.eqb (tolower c)) (folded x)
    else c =? x
  | ASet negated items =>
    xorb negated
      (if ic then
         let v := if existsb (fun i => existsb iscased (item_chars i)) items
                  then tolower c else c in
         existsb (fun i => existsb (fun x => existsb (Z.eqb v) (folded x))
                             (item_chars i)
                           || item_category i v) items
       else existsb (fun i => item_matches i c) items)
  end.

Definition step (c : Z) (t : str) (cur : cursor) : cursor :=
  {| pos := S (pos cur); prev := Some c; rest := t; marks := marks cur |}.

(** Greedy repetition of one atom: take as many characters as allowed, give
    them back one at a time until the continuation succeeds. *)
Fixpoint rep_atom (ic : bool) (a : atom) (lo : nat) (hi : option nat)
    (p : nat) (pv : option Z) (s : str) (ms : list (nat * str))
    (k : cursor -> option cursor) : option cursor :=
  let stop :=
    match lo with
    | O => k {| pos := p; prev := pv; rest := s; marks := ms |}
    | S _ => None
    end in
  match hi with
  | Some O => stop
  | _ =>
    match s with
    | c :: t =>
      if atom_matches ic a c then
        match rep_atom ic a (Nat.pred lo) (Nat.pred <$> hi) (S p) (Some c) t ms k with
        | Some r => Some r
        | None => stop
        end
      else stop
    | [] => stop
    end
  end.

Definition set_mark (n : nat) (s : str) (cur : cursor) : cursor :=
  {| pos := pos cur; prev := prev cur; rest := rest cur;
     marks := (n, s) :: marks cur |}.

(** The backtracking matcher, in continuation-passing style: [k] is the
    remainder of the pattern. *)
Fixpoint rmatch (ic : bool) (r : regex) (cur : cursor)
    (k : cursor -> option cursor) : option cursor :=
  match r with
  | Eps => k cur
  | One a =>
    match rest cur with
    | c :: t => if atom_matches ic a c then k (step c t cur) else None
    | [] => None
    end
  | Rep lo hi a => rep_atom ic a lo hi (pos cur) (prev cur) (rest cur) (marks cur) k
  | Cat r1 r2 => rmatch ic r1 cur (fun cur' => rmatch ic r2 cur' k)
  | Alt r1 r2 =>
    match rmatch ic r1 cur k with
    | Some c => Some c
    | None => rmatch ic r2 cur k
    end
  | Opt r' =>
    match rmatch ic r' cur k with
    | Some c => Some c
    | None => k cur
    end
  | Group n r' =>
    rmatch ic r' cur
      (fun cur' => k (set_mark n (take (pos cur' - pos cur) (rest cur)) cur'))
  | Bol => match pos cur with O => k cur | S _ => None end
  | Eol =>
    match rest cur with
    | [] => k cur
    | [c] => if c =? LF then k cur else None
    | _ => None
    end
  | WordB =>
    if xorb (word_opt (prev cur)) (word_opt (head (rest cur))) then k cur
    else None
  end.

(** One attempt at a fixed start position. *)
Definition match_at (ic : bool) (r : regex) (p : nat) (pv : option Z)
    (s : str) : option Match :=
  match rmatch ic r {| pos := p; prev := pv; rest := s; marks := [] |} Some with
  | Some c =>
    Some {| m_start := p; m_end := pos c;
            m_group0 := take (pos c - p) s;
            m_marks := marks c; m_ngroups := ngroups r |}
  | None => None
  end.

(** [re.match(r, s)] *)
Definition re_match (ic : bool) (r : regex) (s : str) : option Match :=
  match_at ic r 0 None s.

Fixpoint search_from (ic : bool) (r : regex) (p : nat) (pv : option Z)
    (s : str) : option Match :=
  match match_at ic r p pv s with
  | Some m => Some m
  | None =>
    match s with
    | [] => None
    | c :: t => search_from ic r (S p) (Some c) t
    end
  end.

(** [re.search(r, s)] *)
Definition re_search (ic : bool) (r : regex) (s : str) : option Match :=
  search_from ic r 0 None s.

(** [re.finditer(r, s)]: the matches from left to right, none overlapping;
    [skip] counts the characters of the last match still to pass. *)
Fixpoint finditer_from (ic : bool) (r : regex) (p : nat) (pv : option Z)
    (s : str) (skip : nat) : list Match :=
  match skip with
  | S n =>
    match s with
    | [] => []
    | c :: t => finditer_from ic r (S p) (Some c) t n
    end
  | O =>
    match match_at ic r p pv s with
    | Some m =>
      m :: match s with
           | [] => []
           | c :: t => finditer_from ic r (S p) (Some c) t (Nat.pred (m_end m - p))
           end
    | None =>
      match s with
      | [] => []
      | c :: t => finditer_from ic r (S p) (Some c) t O
      end
    end
  end.

Definition re_finditer (ic : bool) (r : regex) (s : str) : list Match :=
  finditer_from ic r 0 None s 0.

(** [re.sub(r, '', s)]: the subject without the matched spans. *)
Fixpoint sub_empty_from (ic : bool) (r : regex) (p : nat) (pv : option Z)
    (s : str) (skip : nat) : str :=
  match s with
  | [] => []
  | c :: t =>
    match skip with
    | S n => sub_empty_from ic r (S p) (Some c) t n
    | O =>
      match match_at ic r p pv s with
      | Some m =>
        match (m_end m - p)%nat with
        | O => c :: sub_empty_from ic r (S p) (Some c) t O
        | S n => sub_empty_from ic r (S p) (Some c) t n
        end
      | None => c :: sub_empty_from ic r (S p) (Some c) t O
      end
    end
  end.

Definition re_sub_empty (ic : bool) (r : regex) (s : str) : str :=
  sub_empty_from ic r 0 None s 0.

End Matcher.

(** ** fastapp.py: intent and identifier detection *)

Definition chr1 (s : string) : Z := hd 0 (u s).
Definition chars (s : string) : list set_item := map SChar (u s).

(** [[a-zA-Z0-9]] and [[0-9a-zA-Z]] *)
Definition alnum_az09 : atom :=
  ASet false [SRange (chr1 "a") (chr1 "z"); SRange (chr1 "A") (chr1 "Z");
              SRange (chr1 "0") (chr1 "9")].
Definition alnum_09az : atom :=
  ASet false [SRange (chr1 "0") (chr1 "9"); SRange (chr1 "a") (chr1 "z");
              SRange (chr1 "A") (chr1 "Z")].
Definition d09 : atom := ASet false [SRange (chr1 "0") (chr1 "9")].    (* [0-9] *)
Definition d69 : atom := ASet false [SRange (chr1 "6") (chr1 "9")].    (* [6-9] *)

Open Scope regex_scope.

(** The pattern list of [detect_greeting], in source order. *)
Definition greeting_patterns : list (regex * str) :=
  [ (WordB ⋅ lit "good" ⋅ star space ⋅ lit "morning" ⋅ WordB
     ∥ WordB ⋅ lit "शुभ" ⋅ star space ⋅ lit "सकाळ" ⋅ WordB,
     u "good_morning");
    (WordB ⋅ lit "good" ⋅ star space ⋅ lit "afternoon" ⋅ WordB
     ∥ WordB ⋅ lit "शुभ" ⋅ star space ⋅ lit "दुपार" ⋅ WordB,
     u "good_afternoon");
    (WordB ⋅ lit "good" ⋅ star space ⋅ lit "evening" ⋅ WordB
     ∥ WordB ⋅ lit "शुभ" ⋅ star space ⋅ lit "संध्याकाळ" ⋅ WordB,
     u "good_evening");
    (WordB ⋅ lit "hello" ⋅ WordB
     ∥ WordB ⋅ lit "he" ⋅ plus (AChar (chr1 "y")) ⋅ WordB
     ∥ WordB ⋅ lit "hi" ⋅ plus (AChar (chr1 "i")) ⋅ WordB
     ∥ WordB ⋅ lit "hi" ⋅ WordB
     ∥ WordB ⋅ lit "नमस्ते" ⋅ WordB
     ∥ WordB ⋅ lit "नमस्कार" ⋅ WordB
     ∥ WordB ⋅ lit "हॅलो" ⋅ WordB
     ∥ WordB ⋅ lit "हेलो" ⋅ WordB
     ∥ WordB ⋅ lit "हाय" ⋅ WordB,
     u "hello");
    (WordB ⋅ lit "good" ⋅ star space ⋅ lit "night" ⋅ WordB
     ∥ WordB ⋅ lit "शुभ" ⋅ star space ⋅ lit "रात्री" ⋅ WordB,
     u "good_night") ].

(** [r"[!.,🙂🙏✨⭐️]+"] *)
Definition greeting_noise : regex := plus (ASet false (chars "!.,🙂🙏✨⭐️")).

(** The three pattern lists of ticket detection and validation
    (all used with [re.IGNORECASE]) and of mobile detection. *)
Definition ticket_patterns : list regex :=
  [ WordB ⋅ Group 1 (lit "TKT-" ⋅ plus alnum_az09) ⋅ WordB;
    WordB ⋅ Group 1 (lit "TKT" ⋅ plus alnum_09az) ⋅ WordB;
    WordB ⋅ Group 1 (at_least 6 d09) ⋅ WordB ].

Definition valid_patterns : list regex :=
  [ Bol ⋅ lit "TKT-" ⋅ at_least 6 alnum_az09 ⋅ Eol;
    Bol ⋅ lit "TKT" ⋅ at_least 6 alnum_09az ⋅ Eol;
    Bol ⋅ at_least 6 d09 ⋅ Eol ].

Definition mobile_patterns : list regex :=
  [ WordB
    ⋅ Opt (Group 1 (lit "+91" ⋅ Opt (One (ASet false [SSpace; SChar (chr1 "-")]))))
    ⋅ Group 2 (One d69 ⋅ exactly 9 digit) ⋅ WordB;
    WordB ⋅ Group 1 (One d69 ⋅ exactly 9 digit) ⋅ WordB;
    WordB ⋅ Group 1 (lit "0" ⋅ exactly 10 digit) ⋅ WordB ].

(** [r'[^\d+\s]'] *)
Definition mobile_noise : regex :=
  One (ASet true [SDigit; SChar (chr1 "+"); SSpace]).

Definition yes_patterns_en : list regex :=
  [ WordB ⋅ lit "yes" ⋅ WordB; WordB ⋅ lit "y" ⋅ WordB;
    WordB ⋅ lit "yeah" ⋅ WordB; WordB ⋅ lit "yep" ⋅ WordB ].
Definition no_patterns_en : list regex :=
  [ WordB ⋅ lit "no" ⋅ WordB; WordB ⋅ lit "n" ⋅ WordB; WordB ⋅ lit "nope" ⋅ WordB ].
Definition yes_patterns_mr : list regex :=
  [ WordB ⋅ lit "होय" ⋅ WordB; WordB ⋅ lit "हो" ⋅ WordB ].
Definition no_patterns_mr : list regex :=
  [ WordB ⋅ lit "नाही" ⋅ WordB; WordB ⋅ lit "ना" ⋅ WordB ].

Close Scope regex_scope.

Inductive language := en | mr.

Inductive identifier_type := ticket_id_type | mobile_number_type.

Inductive yes_no := yes | no | unknown.

Section Detection.
Context `{UCD : UnicodeData}.

(** [detect_greeting]: the first pattern of the list that is found decides. *)
Fixpoint first_greeting (ps : list (regex * str)) (t : str) : bool * str :=
  match ps with
  | [] => (false, [])
  | (r, key) :: ps' =>
    match re_search false r t with
    | Some _ => (true, key)
    | None => first_greeting ps' t
    end
  end.

Definition detect_greeting (text : str) : bool * str :=
  let t := lower (strip text) in
  let t := re_sub_empty false greeting_noise t in
  first_greeting greeting_patterns t.

(** [detect_ticket_id] *)
Fixpoint first_group1 (ps : list regex) (text : str) : result (option str) :=
  match ps with
  | [] => Ok None
  | r :: ps' =>
    match re_search true r text with
    | Some m => group m 1
    | None => first_group1 ps' text
    end
  end.

Definition detect_ticket_id (text : str) : result (option str) :=
  first_group1 ticket_patterns text.

(** [validate_ticket_id_format] *)
Definition validate_ticket_id_format (ticket_id : str) : bool :=
  existsb (fun r => found (re_match true r (strip ticket_id)))
    valid_patterns.

(** The body of the inner loop of [detect_mobile_number]: the candidate a
    match yields.  [match.group(1) and match.group(2)] evaluates [group(2)]
    only when [group(1)] is a non-empty string. *)
Definition mobile_of_match (m : Match) : result str :=
  rbind (group m 1) (fun g1 =>
  rbind (if truthy g1 then group m 2 else Ok g1) (fun both =>
  if truthy both then
    rbind (group m 2) (fun g2 => Ok (default [] g2))
  else
    rbind (group m 1) (fun g1' =>
    if truthy g1' then Ok (default [] g1')
    else rbind (group m 0) (fun g0 => Ok (drop 1 (default [] g0)))))).

Fixpoint first_mobile (ms : list Match) : result (option str) :=
  match ms with
  | [] => Ok None
  | m :: ms' =>
    rbind (mobile_of_match m) (fun mobile =>
    if (length mobile =? 10)%nat && char_in (hd 0 mobile) (u "6789")
    then Ok (Some mobile)
    else first_mobile ms')
  end.

Fixpoint mobile_by_patterns (ps : list regex) (clean_text : str)
    : result (option str) :=
  match ps with
  | [] => Ok None
  | r :: ps' =>
    rbind (first_mobile (re_finditer false r clean_text)) (fun hit =>
    match hit with
    | Some mobile => Ok (Some mobile)
    | None => mobile_by_patterns ps' clean_text
    end)
  end.

Definition detect_mobile_number (text : str) : result (option str) :=
  let clean_text := re_sub_empty false mobile_noise text in
  mobile_by_patterns mobile_patterns clean_text.

(** [validate_mobile_number_format] *)
Definition validate_mobile_number_format (mobile_number : str) : bool :=
  let digits_only := re_sub_empty false (One nondigit) mobile_number in
  if (length digits_only =? 10)%nat && char_in (hd 0 digits_only) (u "6789")
  then true
  else if (length digits_only =? 12)%nat && startswith digits_only (u "91")
          && char_in (nth 2 digits_only 0) (u "6789")
  then true
  else if (length digits_only =? 11)%nat && startswith digits_only (u "0")
          && char_in (nth 1 digits_only 0) (u "6789")
  then true
  else false.

(** [detect_ticket_id_or_mobile]: the pair [(identifier, type)], or
    [(None, None)]. *)
Definition detect_ticket_id_or_mobile (text : str)
    : result (option str * option identifier_type) :=
  rbind (detect_ticket_id text) (fun ticket_id =>
  if truthy ticket_id && validate_ticket_id_format (default [] ticket_id)
  then Ok (ticket_id, Some ticket_id_type)
  else
    rbind (detect_mobile_number text) (fun mobile_number =>
    if truthy mobile_number
       && validate_mobile_number_format (default [] mobile_number)
    then Ok (mobile_number, Some mobile_number_type)
    else Ok (None, None))).

(** [detect_exact_status_question] *)
Definition status_patterns : list str :=
  [ u "आपण महा आस्था तक्रार निवारण प्रणालीमध्ये नोंदवलेल्या तिकीटची स्थिती तपासू इच्छिता का";
    u "तिकीटची स्थिती तपासू इच्छिता का";
    u "स्थिती तपासू इच्छिता का";
    u "तिकीटची स्थिती";
    u "स्थिती तपासा" ].

Definition detect_exact_status_question (text : str) (lang : language) : bool :=
  let text_lower := strip (lower text) in
  match lang with
  | en =>
    contains (u "would you like to check the status of your ticket") text_lower
    || contains (u "check status") text_lower
  | mr => existsb (fun pattern => contains pattern text) status_patterns
  end.

(** [detect_yes_no_response] *)
Definition detect_yes_no_response (text : str) (lang : language) : yes_no :=
  let text := lower (strip text) in
  if existsb (fun r => found (re_search false r text))
       (yes_patterns_en ++ yes_patterns_mr) then yes
  else if existsb (fun r => found (re_search false r text))
       (no_patterns_en ++ no_patterns_mr) then no
  else unknown.

End Detection.

(** ** The character tables used for evaluation

    The tables of CPython 3.11 (Unicode 14), in full: every test and every
    mapping below agrees with the interpreter on each code point. *)

Definition in_ranges (rs : list (Z * Z)) (c : Z) : bool :=
  existsb (fun r => (fst r <=? c) && (c <=? snd r)) rs.

Definition decimal_ranges : list (Z * Z) :=
  [(0x30, 0x39); (0x660, 0x669); (0x6F0, 0x6F9); (0x7C0, 0x7C9);
   (0x966, 0x96F); (0x9E6, 0x9EF); (0xA66, 0xA6F); (0xAE6, 0xAEF);
   (0xB66, 0xB6F); (0xBE6, 0xBEF); (0xC66, 0xC6F); (0xCE6, 0xCEF);
   (0xD66, 0xD6F); (0xDE6, 0xDEF); (0xE50, 0xE59); (0xED0, 0xED9);
   (0xF20, 0xF29); (0x1040, 0x1049); (0x1090, 0x1099); (0x17E0, 0x17E9);
   (0x1810, 0x1819); (0x1946, 0x194F); (0x19D0, 0x19D9); (0x1A80, 0x1A89);
   (0x1A90, 0x1A99); (0x1B50, 0x1B59); (0x1BB0, 0x1BB9); (0x1C40, 0x1C49);
   (0x1C50, 0x1C59); (0xA620, 0xA629); (0xA8D0, 0xA8D9); (0xA900, 0xA909);
   (0xA9D0, 0xA9D9); (0xA9F0, 0xA9F9); (0xAA50, 0xAA59); (0xABF0, 0xABF9);
   (0xFF10, 0xFF19); (0x104A0, 0x104A9); (0x10D30, 0x10D39);
   (0x11066, 0x1106F); (0x110F0, 0x110F9); (0x11136, 0x1113F);
   (0x111D0, 0x111D9); (0x112F0, 0x112F9); (0x11450, 0x11459);
   (0x114D0, 0x114D9); (0x11650, 0x11659); (0x116C0, 0x116C9);
   (0x11730, 0x11739); (0x118E0, 0x118E9); (0x11950, 0x11959);
   (0x11C50, 0x11C59); (0x11D50, 0x11D59); (0x11DA0, 0x11DA9);
   (0x16A60, 0x16A69); (0x16AC0, 0x16AC9); (0x16B50, 0x16B59);
   (0x1D7CE, 0x1D7FF); (0x1E140, 0x1E149); (0x1E2F0, 0x1E2F9);
   (0x1E950, 0x1E959); (0x1FBF0, 0x1FBF9)].

Definition space_ranges : list (Z * Z) :=
  [(0x9, 0xD); (0x1C, 0x20); (0x85, 0x85); (0xA0, 0xA0); (0x1680, 0x1680);
   (0x2000, 0x200A); (0x2028, 0x2029); (0x202F, 0x202F); (0x205F, 0x205F);
   (0x3000, 0x3000)].

(** [str.isalnum] *)
Definition alnum_ranges : list (Z * Z) :=
  [(0x30, 0x39); (0x41, 0x5A); (0x61, 0x7A); (0xAA, 0xAA); (0xB2, 0xB3);
   (0xB5, 0xB5); (0xB9, 0xBA); (0xBC, 0xBE); (0xC0, 0xD6); (0xD8, 0xF6);
   (0xF8, 0x2C1); (0x2C6, 0x2D1); (0x2E0, 0x2E4); (0x2EC, 0x2EC);
   (0x2EE, 0x2EE); (0x370, 0x374); (0x376, 0x377); (0x37A, 0x37D);
   (0x37F, 0x37F); (0x386, 0x386); (0x388, 0x38A); (0x38C, 0x38C);
   (0x38E, 0x3A1); (0x3A3, 0x3F5); (0x3F7, 0x481); (0x48A, 0x52F);
   (0x531, 0x556); (0x559, 0x559); (0x560, 0x588); (0x5D0, 0x5EA);
   (0x5EF, 0x5F2); (0x620, 0x64A); (0x660, 0x669); (0x66E, 0x66F);
   (0x671, 0x6D3); (0x6D5, 0x6D5); (0x6E5, 0x6E6); (0x6EE, 0x6FC);
   (0x6FF, 0x6FF); (0x710, 0x710); (0x712, 0x72F); (0x74D, 0x7A5);
   (0x7B1, 0x7B1); (0x7C0, 0x7EA); (0x7F4, 0x7F5); (0x7FA, 0x7FA);
   (0x800, 0x815); (0x81A, 0x81A); (0x824, 0x824); (0x828, 0x828);
   (0x840, 0x858); (0x860, 0x86A); (0x870, 0x887); (0x889, 0x88E);
   (0x8A0, 0x8C9); (0x904, 0x939); (0x93D, 0x93D); (0x950, 0x950);
   (0x958, 0x961); (0x966, 0x96F); (0x971, 0x980); (0x985, 0x98C);
   (0x98F, 0x990); (0x993, 0x9A8); (0x9AA, 0x9B0); (0x9B2, 0x9B2);
   (0x9B6, 0x9B9); (0x9BD, 0x9BD); (0x9CE, 0x9CE); (0x9DC, 0x9DD);
   (0x9DF, 0x9E1); (0x9E6, 0x9F1); (0x9F4, 0x9F9); (0x9FC, 0x9FC);
   (0xA05, 0xA0A); (0xA0F, 0xA10); (0xA13, 0xA28); (0xA2A, 0xA30);
   (0xA32, 0xA33); (0xA35, 0xA36); (0xA38, 0xA39); (0xA59, 0xA5C);
   (0xA5E, 0xA5E); (0xA66, 0xA6F); (0xA72, 0xA74); (0xA85, 0xA8D);
   (0xA8F, 0xA91); (0xA93, 0xAA8); (0xAAA, 0xAB0); (0xAB2, 0xAB3);
   (0xAB5, 0xAB9); (0xABD, 0xABD); (0xAD0, 0xAD0); (0xAE0, 0xAE1);
   (0xAE6, 0xAEF); (0xAF9, 0xAF9); (0xB05, 0xB0C); (0xB0F, 0xB10);
   (0xB13, 0xB28); (0xB2A, 0xB30); (0xB32, 0xB33); (0xB35, 0xB39);
   (0xB3D, 0xB3D); (0xB5C, 0xB5D); (0xB5F, 0xB61); (0xB66, 0xB6F);
   (0xB71, 0xB77); (0xB83, 0xB83); (0xB85, 0xB8A); (0xB8E, 0xB90);
   (0xB92, 0xB95); (0xB99, 0xB9A); (0xB9C, 0xB9C); (0xB9E, 0xB9F);
   (0xBA3, 0xBA4); (0xBA8, 0xBAA); (0xBAE, 0xBB9); (0xBD0, 0xBD0);
   (0xBE6, 0xBF2); (0xC05, 0xC0C); (0xC0E, 0xC10); (0xC12, 0xC28);
   (0xC2A, 0xC39); (0xC3D, 0xC3D); (0xC58, 0xC5A); (0xC5D, 0xC5D);
   (0xC60, 0xC61); (0xC66, 0xC6F); (0xC78, 0xC7E); (0xC80, 0xC80);
   (0xC85, 0xC8C); (0xC8E, 0xC90); (0xC92, 0xCA8); (0xCAA, 0xCB3);
   (0xCB5, 0xCB9); (0xCBD, 0xCBD); (0xCDD, 0xCDE); (0xCE0, 0xCE1);
   (0xCE6, 0xCEF); (0xCF1, 0xCF2); (0xD04, 0xD0C); (0xD0E, 0xD10);
   (0xD12, 0xD3A); (0xD3D, 0xD3D); (0xD4E, 0xD4E); (0xD54, 0xD56);
   (0xD58, 0xD61); (0xD66, 0xD78); (0xD7A, 0xD7F); (0xD85, 0xD96);
   (0xD9A, 0xDB1); (0xDB3, 0xDBB); (0xDBD, 0xDBD); (0xDC0, 0xDC6);
   (0xDE6, 0xDEF); (0xE01, 0xE30); (0xE32, 0xE33); (0xE40, 0xE46);
   (0xE50, 0xE59); (0xE81, 0xE82); (0xE84, 0xE84); (0xE86, 0xE8A);
   (0xE8C, 0xEA3); (0xEA5, 0xEA5); (0xEA7, 0xEB0); (0xEB2, 0xEB3);
   (0xEBD, 0xEBD); (0xEC0, 0xEC4); (0xEC6, 0xEC6); (0xED0, 0xED9);
   (0xEDC, 0xEDF); (0xF00, 0xF00); (0xF20, 0xF33); (0xF40, 0xF47);
   (0xF49, 0xF6C); (0xF88, 0xF8C); (0x1000, 0x102A); (0x103F, 0x1049);
   (0x1050, 0x1055); (0x105A, 0x105D); (0x1061, 0x1061); (0x1065, 0x1066);
   (0x106E, 0x1070); (0x1075, 0x1081); (0x108E, 0x108E); (0x1090, 0x1099);
   (0x10A0, 0x10C5); (0x10C7, 0x10C7); (0x10CD, 0x10CD); (0x10D0, 0x10FA);
   (0x10FC, 0x1248); (0x124A, 0x124D); (0x1250, 0x1256); (0x1258, 0x1258);
   (0x125A, 0x125D); (0x1260, 0x1288); (0x128A, 0x128D); (0x1290, 0x12B0);
   (0x12B2, 0x12B5); (0x12B8, 0x12BE); (0x12C0, 0x12C0); (0x12C2, 0x12C5);
   (0x12C8, 0x12D6); (0x12D8, 0x1310); (0x1312, 0x1315); (0x1318, 0x135A);
   (0x1369, 0x137C); (0x1380, 0x138F); (0x13A0, 0x13F5); (0x13F8, 0x13FD);
   (0x1401, 0x166C); (0x166F, 0x167F); (0x1681, 0x169A); (0x16A0, 0x16EA);
   (0x16EE, 0x16F8); (0x1700, 0x1711); (0x171F, 0x1731); (0x1740, 0x1751);
   (0x1760, 0x176C); (0x176E, 0x1770); (0x1780, 0x17B3); (0x17D7, 0x17D7);
   (0x17DC, 0x17DC); (0x17E0, 0x17E9); (0x17F0, 0x17F9); (0x1810, 0x1819);
   (0x1820, 0x1878); (0x1880, 0x1884); (0x1887, 0x18A8); (0x18AA, 0x18AA);
   (0x18B0, 0x18F5); (0x1900, 0x191E); (0x1946, 0x196D); (0x1970, 0x1974);
   (0x1980, 0x19AB); (0x19B0, 0x19C9); (0x19D0, 0x19DA); (0x1A00, 0x1A16);
   (0x1A20, 0x1A54); (0x1A80, 0x1A89); (0x1A90, 0x1A99); (0x1AA7, 0x1AA7);
   (0x1B05, 0x1B33); (0x1B45, 0x1B4C); (0x1B50, 0x1B59); (0x1B83, 0x1BA0);
   (0x1BAE, 0x1BE5); (0x1C00, 0x1C23); (0x1C40, 0x1C49); (0x1C4D, 0x1C7D);
   (0x1C80, 0x1C88); (0x1C90, 0x1CBA); (0x1CBD, 0x1CBF); (0x1CE9, 0x1CEC);
   (0x1CEE, 0x1CF3); (0x1CF5, 0x1CF6); (0x1CFA, 0x1CFA); (0x1D00, 0x1DBF);
   (0x1E00, 0x1F15); (0x1F18, 0x1F1D); (0x1F20, 0x1F45); (0x1F48, 0x1F4D);
   (0x1F50, 0x1F57); (0x1F59, 0x1F59); (0x1F5B, 0x1F5B); (0x1F5D, 0x1F5D);
   (0x1F5F, 0x1F7D); (0x1F80, 0x1FB4); (0x1FB6, 0x1FBC); (0x1FBE, 0x1FBE);
   (0x1FC2, 0x1FC4); (0x1FC6, 0x1FCC); (0x1FD0, 0x1FD3); (0x1FD6, 0x1FDB);
   (0x1FE0, 0x1FEC); (0x1FF2, 0x1FF4); (0x1FF6, 0x1FFC); (0x2070, 0x2071);
   (0x2074, 0x2079); (0x207F, 0x2089); (0x2090, 0x209C); (0x2102, 0x2102);
   (0x2107, 0x2107); (0x210A, 0x2113); (0x2115, 0x2115); (0x2119, 0x211D);
   (0x2124, 0x2124); (0x2126, 0x2126); (0x2128, 0x2128); (0x212A, 0x212D);
   (0x212F, 0x2139); (0x213C, 0x213F); (0x2145, 0x2149); (0x214E, 0x214E);
   (0x2150, 0x2189); (0x2460, 0x249B); (0x24EA, 0x24FF); (0x2776, 0x2793);
   (0x2C00, 0x2CE4); (0x2CEB, 0x2CEE); (0x2CF2, 0x2CF3); (0x2CFD, 0x2CFD);
   (0x2D00, 0x2D25); (0x2D27, 0x2D27); (0x2D2D, 0x2D2D); (0x2D30, 0x2D67);
   (0x2D6F, 0x2D6F); (0x2D80, 0x2D96); (0x2DA0, 0x2DA6); (0x2DA8, 0x2DAE);
   (0x2DB0, 0x2DB6); (0x2DB8, 0x2DBE); (0x2DC0, 0x2DC6); (0x2DC8, 0x2DCE);
   (0x2DD0, 0x2DD6); (0x2DD8, 0x2DDE); (0x2E2F, 0x2E2F); (0x3005, 0x3007);
   (0x3021, 0x3029); (0x3031, 0x3035); (0x3038, 0x303C); (0x3041, 0x3096);
   (0x309D, 0x309F); (0x30A1, 0x30FA); (0x30FC, 0x30FF); (0x3105, 0x312F);
   (0x3131, 0x318E); (0x3192, 0x3195); (0x31A0, 0x31BF); (0x31F0, 0x31FF);
   (0x3220, 0x3229); (0x3248, 0x324F); (0x3251, 0x325F); (0x3280, 0x3289);
   (0x32B1, 0x32BF); (0x3400, 0x4DBF); (0x4E00, 0xA48C); (0xA4D0, 0xA4FD);
   (0xA500, 0xA60C); (0xA610, 0xA62B); (0xA640, 0xA66E); (0xA67F, 0xA69D);
   (0xA6A0, 0xA6EF); (0xA717, 0xA71F); (0xA722, 0xA788); (0xA78B, 0xA7CA);
   (0xA7D0, 0xA7D1); (0xA7D3, 0xA7D3); (0xA7D5, 0xA7D9); (0xA7F2, 0xA801);
   (0xA803, 0xA805); (0xA807, 0xA80A); (0xA80C, 0xA822); (0xA830, 0xA835);
   (0xA840, 0xA873); (0xA882, 0xA8B3); (0xA8D0, 0xA8D9); (0xA8F2, 0xA8F7);
   (0xA8FB, 0xA8FB); (0xA8FD, 0xA8FE); (0xA900, 0xA925); (0xA930, 0xA946);
   (0xA960, 0xA97C); (0xA984, 0xA9B2); (0xA9CF, 0xA9D9); (0xA9E0, 0xA9E4);
   (0xA9E6, 0xA9FE); (0xAA00, 0xAA28); (0xAA40, 0xAA42); (0xAA44, 0xAA4B);
   (0xAA50, 0xAA59); (0xAA60, 0xAA76); (0xAA7A, 0xAA7A); (0xAA7E, 0xAAAF);
   (0xAAB1, 0xAAB1); (0xAAB5, 0xAAB6); (0xAAB9, 0xAABD); (0xAAC0, 0xAAC0);
   (0xAAC2, 0xAAC2); (0xAADB, 0xAADD); (0xAAE0, 0xAAEA); (0xAAF2, 0xAAF4);
   (0xAB01, 0xAB06); (0xAB09, 0xAB0E); (0xAB11, 0xAB16); (0xAB20, 0xAB26);
   (0xAB28, 0xAB2E); (0xAB30, 0xAB5A); (0xAB5C, 0xAB69); (0xAB70, 0xABE2);
   (0xABF0, 0xABF9); (0xAC00, 0xD7A3); (0xD7B0, 0xD7C6); (0xD7CB, 0xD7FB);
   (0xF900, 0xFA6D); (0xFA70, 0xFAD9); (0xFB00, 0xFB06); (0xFB13, 0xFB17);
   (0xFB1D, 0xFB1D); (0xFB1F, 0xFB28); (0xFB2A, 0xFB36); (0xFB38, 0xFB3C);
   (0xFB3E, 0xFB3E); (0xFB40, 0xFB41); (0xFB43, 0xFB44); (0xFB46, 0xFBB1);
   (0xFBD3, 0xFD3D); (0xFD50, 0xFD8F); (0xFD92, 0xFDC7); (0xFDF0, 0xFDFB);
   (0xFE70, 0xFE74); (0xFE76, 0xFEFC); (0xFF10, 0xFF19); (0xFF21, 0xFF3A);
   (0xFF41, 0xFF5A); (0xFF66, 0xFFBE); (0xFFC2, 0xFFC7); (0xFFCA, 0xFFCF);
   (0xFFD2, 0xFFD7); (0xFFDA, 0xFFDC); (0x10000, 0x1000B);
   (0x1000D, 0x10026); (0x10028, 0x1003A); (0x1003C, 0x1003D);
   (0x1003F, 0x1004D); (0x10050, 0x1005D); (0x10080, 0x100FA);
   (0x10107, 0x10133); (0x10140, 0x10178); (0x1018A, 0x1018B);
   (0x10280, 0x1029C); (0x102A0, 0x102D0); (0x102E1, 0x102FB);
   (0x10300, 0x10323); (0x1032D, 0x1034A); (0x10350, 0x10375);
   (0x10380, 0x1039D); (0x103A0, 0x103C3); (0x103C8, 0x103CF);
   (0x103D1, 0x103D5); (0x10400, 0x1049D); (0x104A0, 0x104A9);
   (0x104B0, 0x104D3); (0x104D8, 0x104FB); (0x10500, 0x10527);
   (0x10530, 0x10563); (0x10570, 0x1057A); (0x1057C, 0x1058A);
   (0x1058C, 0x10592); (0x10594, 0x10595); (0x10597, 0x105A1);
   (0x105A3, 0x105B1); (0x105B3, 0x105B9); (0x105BB, 0x105BC);
   (0x10600, 0x10736); (0x10740, 0x10755); (0x10760, 0x10767);
   (0x10780, 0x10785); (0x10787, 0x107B0); (0x107B2, 0x107BA);
   (0x10800, 0x10805); (0x10808, 0x10808); (0x1080A, 0x10835);
   (0x10837, 0x10838); (0x1083C, 0x1083C); (0x1083F, 0x10855);
   (0x10858, 0x10876); (0x10879, 0x1089E); (0x108A7, 0x108AF);
   (0x108E0, 0x108F2); (0x108F4, 0x108F5); (0x108FB, 0x1091B);
   (0x10920, 0x10939); (0x10980, 0x109B7); (0x109BC, 0x109CF);
   (0x109D2, 0x10A00); (0x10A10, 0x10A13); (0x10A15, 0x10A17);
   (0x10A19, 0x10A35); (0x10A40, 0x10A48); (0x10A60, 0x10A7E);
   (0x10A80, 0x10A9F); (0x10AC0, 0x10AC7); (0x10AC9, 0x10AE4);
   (0x10AEB, 0x10AEF); (0x10B00, 0x10B35); (0x10B40, 0x10B55);
   (0x10B58, 0x10B72); (0x10B78, 0x10B91); (0x10BA9, 0x10BAF);
   (0x10C00, 0x10C48); (0x10C80, 0x10CB2); (0x10CC0, 0x10CF2);
   (0x10CFA, 0x10D23); (0x10D30, 0x10D39); (0x10E60, 0x10E7E);
   (0x10E80, 0x10EA9); (0x10EB0, 0x10EB1); (0x10F00, 0x10F27);
   (0x10F30, 0x10F45); (0x10F51, 0x10F54); (0x10F70, 0x10F81);
   (0x10FB0, 0x10FCB); (0x10FE0, 0x10FF6); (0x11003, 0x11037);
   (0x11052, 0x1106F); (0x11071, 0x11072); (0x11075, 0x11075);
   (0x11083, 0x110AF); (0x110D0, 0x110E8); (0x110F0, 0x110F9);
   (0x11103, 0x11126); (0x11136, 0x1113F); (0x11144, 0x11144);
   (0x11147, 0x11147); (0x11150, 0x11172); (0x11176, 0x11176);
   (0x11183, 0x111B2); (0x111C1, 0x111C4); (0x111D0, 0x111DA);
   (0x111DC, 0x111DC); (0x111E1, 0x111F4); (0x11200, 0x11211);
   (0x11213, 0x1122B); (0x11280, 0x11286); (0x11288, 0x11288);
   (0x1128A, 0x1128D); (0x1128F, 0x1129D); (0x1129F, 0x112A8);
   (0x112B0, 0x112DE); (0x112F0, 0x112F9); (0x11305, 0x1130C);
   (0x1130F, 0x11310); (0x11313, 0x11328); (0x1132A, 0x11330);
   (0x11332, 0x11333); (0x11335, 0x11339); (0x1133D, 0x1133D);
   (0x11350, 0x11350); (0x1135D, 0x11361); (0x11400, 0x11434);
   (0x11447, 0x1144A); (0x11450, 0x11459); (0x1145F, 0x11461);
   (0x11480, 0x114AF); (0x114C4, 0x114C5); (0x114C7, 0x114C7);
   (0x114D0, 0x114D9); (0x11580, 0x115AE); (0x115D8, 0x115DB);
   (0x11600, 0x1162F); (0x11644, 0x11644); (0x11650, 0x11659);
   (0x11680, 0x116AA); (0x116B8, 0x116B8); (0x116C0, 0x116C9);
   (0x11700, 0x1171A); (0x11730, 0x1173B); (0x11740, 0x11746);
   (0x11800, 0x1182B); (0x118A0, 0x118F2); (0x118FF, 0x11906);
   (0x11909, 0x11909); (0x1190C, 0x11913); (0x11915, 0x11916);
   (0x11918, 0x1192F); (0x1193F, 0x1193F); (0x11941, 0x11941);
   (0x11950, 0x11959); (0x119A0, 0x119A7); (0x119AA, 0x119D0);
   (0x119E1, 0x119E1); (0x119E3, 0x119E3); (0x11A00, 0x11A00);
   (0x11A0B, 0x11A32); (0x11A3A, 0x11A3A); (0x11A50, 0x11A50);
   (0x11A5C, 0x11A89); (0x11A9D, 0x11A9D); (0x11AB0, 0x11AF8);
   (0x11C00, 0x11C08); (0x11C0A, 0x11C2E); (0x11C40, 0x11C40);
   (0x11C50, 0x11C6C); (0x11C72, 0x11C8F); (0x11D00, 0x11D06);
   (0x11D08, 0x11D09); (0x11D0B, 0x11D30); (0x11D46, 0x11D46);
   (0x11D50, 0x11D59); (0x11D60, 0x11D65); (0x11D67, 0x11D68);
   (0x11D6A, 0x11D89); (0x11D98, 0x11D98); (0x11DA0, 0x11DA9);
   (0x11EE0, 0x11EF2); (0x11FB0, 0x11FB0); (0x11FC0, 0x11FD4);
   (0x12000, 0x12399); (0x12400, 0x1246E); (0x12480, 0x12543);
   (0x12F90, 0x12FF0); (0x13000, 0x1342E); (0x14400, 0x14646);
   (0x16800, 0x16A38); (0x16A40, 0x16A5E); (0x16A60, 0x16A69);
   (0x16A70, 0x16ABE); (0x16AC0, 0x16AC9); (0x16AD0, 0x16AED);
   (0x16B00, 0x16B2F); (0x16B40, 0x16B43); (0x16B50, 0x16B59);
   (0x16B5B, 0x16B61); (0x16B63, 0x16B77); (0x16B7D, 0x16B8F);
   (0x16E40, 0x16E96); (0x16F00, 0x16F4A); (0x16F50, 0x16F50);
   (0x16F93, 0x16F9F); (0x16FE0, 0x16FE1); (0x16FE3, 0x16FE3);
   (0x17000, 0x187F7); (0x18800, 0x18CD5); (0x18D00, 0x18D08);
   (0x1AFF0, 0x1AFF3); (0x1AFF5, 0x1AFFB); (0x1AFFD, 0x1AFFE);
   (0x1B000, 0x1B122); (0x1B150, 0x1B152); (0x1B164, 0x1B167);
   (0x1B170, 0x1B2FB); (0x1BC00, 0x1BC6A); (0x1BC70, 0x1BC7C);
   (0x1BC80, 0x1BC88); (0x1BC90, 0x1BC99); (0x1D2E0, 0x1D2F3);
   (0x1D360, 0x1D378); (0x1D400, 0x1D454); (0x1D456, 0x1D49C);
   (0x1D49E, 0x1D49F); (0x1D4A2, 0x1D4A2); (0x1D4A5, 0x1D4A6);
   (0x1D4A9, 0x1D4AC); (0x1D4AE, 0x1D4B9); (0x1D4BB, 0x1D4BB);
   (0x1D4BD, 0x1D4C3); (0x1D4C5, 0x1D505); (0x1D507, 0x1D50A);
   (0x1D50D, 0x1D514); (0x1D516, 0x1D51C); (0x1D51E, 0x1D539);
   (0x1D53B, 0x1D53E); (0x1D540, 0x1D544); (0x1D546, 0x1D546);
   (0x1D54A, 0x1D550); (0x1D552, 0x1D6A5); (0x1D6A8, 0x1D6C0);
   (0x1D6C2, 0x1D6DA); (0x1D6DC, 0x1D6FA); (0x1D6FC, 0x1D714);
   (0x1D716, 0x1D734); (0x1D736, 0x1D74E); (0x1D750, 0x1D76E);
   (0x1D770, 0x1D788); (0x1D78A, 0x1D7A8); (0x1D7AA, 0x1D7C2);
   (0x1D7C4, 0x1D7CB); (0x1D7CE, 0x1D7FF); (0x1DF00, 0x1DF1E);
   (0x1E100, 0x1E12C); (0x1E137, 0x1E13D); (0x1E140, 0x1E149);
   (0x1E14E, 0x1E14E); (0x1E290, 0x1E2AD); (0x1E2C0, 0x1E2EB);
   (0x1E2F0, 0x1E2F9); (0x1E7E0, 0x1E7E6); (0x1E7E8, 0x1E7EB);
   (0x1E7ED, 0x1E7EE); (0x1E7F0, 0x1E7FE); (0x1E800, 0x1E8C4);
   (0x1E8C7, 0x1E8CF); (0x1E900, 0x1E943); (0x1E94B, 0x1E94B);
   (0x1E950, 0x1E959); (0x1EC71, 0x1ECAB); (0x1ECAD, 0x1ECAF);
   (0x1ECB1, 0x1ECB4); (0x1ED01, 0x1ED2D); (0x1ED2F, 0x1ED3D);
   (0x1EE00, 0x1EE03); (0x1EE05, 0x1EE1F); (0x1EE21, 0x1EE22);
   (0x1EE24, 0x1EE24); (0x1EE27, 0x1EE27); (0x1EE29, 0x1EE32);
   (0x1EE34, 0x1EE37); (0x1EE39, 0x1EE39); (0x1EE3B, 0x1EE3B);
   (0x1EE42, 0x1EE42); (0x1EE47, 0x1EE47); (0x1EE49, 0x1EE49);
   (0x1EE4B, 0x1EE4B); (0x1EE4D, 0x1EE4F); (0x1EE51, 0x1EE52);
   (0x1EE54, 0x1EE54); (0x1EE57, 0x1EE57); (0x1EE59, 0x1EE59);
   (0x1EE5B, 0x1EE5B); (0x1EE5D, 0x1EE5D); (0x1EE5F, 0x1EE5F);
   (0x1EE61, 0x1EE62); (0x1EE64, 0x1EE64); (0x1EE67, 0x1EE6A);
   (0x1EE6C, 0x1EE72); (0x1EE74, 0x1EE77); (0x1EE79, 0x1EE7C);
   (0x1EE7E, 0x1EE7E); (0x1EE80, 0x1EE89); (0x1EE8B, 0x1EE9B);
   (0x1EEA1, 0x1EEA3); (0x1EEA5, 0x1EEA9); (0x1EEAB, 0x1EEBB);
   (0x1F100, 0x1F10C); (0x1FBF0, 0x1FBF9); (0x20000, 0x2A6DF);
   (0x2A700, 0x2B738); (0x2B740, 0x2B81D); (0x2B820, 0x2CEA1);
   (0x2CEB0, 0x2EBE0); (0x2F800, 0x2FA1D); (0x30000, 0x3134A)].

(** [_sre.unicode_iscased]: the lowercase or the uppercase of the character
    is another character. *)
Definition cased_ranges : list (Z * Z) :=
  [(0x41, 0x5A); (0x61, 0x7A); (0xB5, 0xB5); (0xC0, 0xD6); (0xD8, 0xF6);
   (0xF8, 0x137); (0x139, 0x18C); (0x18E, 0x19A); (0x19C, 0x1A9);
   (0x1AC, 0x1B9); (0x1BC, 0x1BD); (0x1BF, 0x1BF); (0x1C4, 0x220);
   (0x222, 0x233); (0x23A, 0x254); (0x256, 0x257); (0x259, 0x259);
   (0x25B, 0x25C); (0x260, 0x261); (0x263, 0x263); (0x265, 0x266);
   (0x268, 0x26C); (0x26F, 0x26F); (0x271, 0x272); (0x275, 0x275);
   (0x27D, 0x27D); (0x280, 0x280); (0x282, 0x283); (0x287, 0x28C);
   (0x292, 0x292); (0x29D, 0x29E); (0x345, 0x345); (0x370, 0x373);
   (0x376, 0x377); (0x37B, 0x37D); (0x37F, 0x37F); (0x386, 0x386);
   (0x388, 0x38A); (0x38C, 0x38C); (0x38E, 0x3A1); (0x3A3, 0x3D1);
   (0x3D5, 0x3F5); (0x3F7, 0x3FB); (0x3FD, 0x481); (0x48A, 0x52F);
   (0x531, 0x556); (0x561, 0x587); (0x10A0, 0x10C5); (0x10C7, 0x10C7);
   (0x10CD, 0x10CD); (0x10D0, 0x10FA); (0x10FD, 0x10FF); (0x13A0, 0x13F5);
   (0x13F8, 0x13FD); (0x1C80, 0x1C88); (0x1C90, 0x1CBA); (0x1CBD, 0x1CBF);
   (0x1D79, 0x1D79); (0x1D7D, 0x1D7D); (0x1D8E, 0x1D8E); (0x1E00, 0x1E9B);
   (0x1E9E, 0x1E9E); (0x1EA0, 0x1F15); (0x1F18, 0x1F1D); (0x1F20, 0x1F45);
   (0x1F48, 0x1F4D); (0x1F50, 0x1F57); (0x1F59, 0x1F59); (0x1F5B, 0x1F5B);
   (0x1F5D, 0x1F5D); (0x1F5F, 0x1F7D); (0x1F80, 0x1FB4); (0x1FB6, 0x1FBC);
   (0x1FBE, 0x1FBE); (0x1FC2, 0x1FC4); (0x1FC6, 0x1FCC); (0x1FD0, 0x1FD3);
   (0x1FD6, 0x1FDB); (0x1FE0, 0x1FEC); (0x1FF2, 0x1FF4); (0x1FF6, 0x1FFC);
   (0x2126, 0x2126); (0x212A, 0x212B); (0x2132, 0x2132); (0x214E, 0x214E);
   (0x2160, 0x217F); (0x2183, 0x2184); (0x24B6, 0x24E9); (0x2C00, 0x2C70);
   (0x2C72, 0x2C73); (0x2C75, 0x2C76); (0x2C7E, 0x2CE3); (0x2CEB, 0x2CEE);
   (0x2CF2, 0x2CF3); (0x2D00, 0x2D25); (0x2D27, 0x2D27); (0x2D2D, 0x2D2D);
   (0xA640, 0xA66D); (0xA680, 0xA69B); (0xA722, 0xA72F); (0xA732, 0xA76F);
   (0xA779, 0xA787); (0xA78B, 0xA78D); (0xA790, 0xA794); (0xA796, 0xA7AE);
   (0xA7B0, 0xA7CA); (0xA7D0, 0xA7D1); (0xA7D6, 0xA7D9); (0xA7F5, 0xA7F6);
   (0xAB53, 0xAB53); (0xAB70, 0xABBF); (0xFB00, 0xFB06); (0xFB13, 0xFB17);
   (0xFF21, 0xFF3A); (0xFF41, 0xFF5A); (0x10400, 0x1044F);
   (0x104B0, 0x104D3); (0x104D8, 0x104FB); (0x10570, 0x1057A);
   (0x1057C, 0x1058A); (0x1058C, 0x10592); (0x10594, 0x10595);
   (0x10597, 0x105A1); (0x105A3, 0x105B1); (0x105B3, 0x105B9);
   (0x105BB, 0x105BC); (0x10C80, 0x10CB2); (0x10CC0, 0x10CF2);
   (0x118A0, 0x118DF); (0x16E40, 0x16E7F); (0x1E900, 0x1E943)].

(** [_sre.unicode_tolower], the lowercase of one character: [(first, last,
    delta, step)] stands for the characters [first], [first + step], ...,
    [last], whose lowercase is [delta] further. *)
Definition lower_runs : list (Z * Z * Z * Z) :=
  [(0x41, 0x5A, 32, 1); (0xC0, 0xD6, 32, 1); (0xD8, 0xDE, 32, 1);
   (0x100, 0x12E, 1, 2); (0x130, 0x130, -199, 1); (0x132, 0x136, 1, 2);
   (0x139, 0x147, 1, 2); (0x14A, 0x176, 1, 2); (0x178, 0x178, -121, 1);
   (0x179, 0x17D, 1, 2); (0x181, 0x181, 210, 1); (0x182, 0x184, 1, 2);
   (0x186, 0x186, 206, 1); (0x187, 0x187, 1, 1); (0x189, 0x18A, 205, 1);
   (0x18B, 0x18B, 1, 1); (0x18E, 0x18E, 79, 1); (0x18F, 0x18F, 202, 1);
   (0x190, 0x190, 203, 1); (0x191, 0x191, 1, 1); (0x193, 0x193, 205, 1);
   (0x194, 0x194, 207, 1); (0x196, 0x196, 211, 1); (0x197, 0x197, 209, 1);
   (0x198, 0x198, 1, 1); (0x19C, 0x19C, 211, 1); (0x19D, 0x19D, 213, 1);
   (0x19F, 0x19F, 214, 1); (0x1A0, 0x1A4, 1, 2); (0x1A6, 0x1A6, 218, 1);
   (0x1A7, 0x1A7, 1, 1); (0x1A9, 0x1A9, 218, 1); (0x1AC, 0x1AC, 1, 1);
   (0x1AE, 0x1AE, 218, 1); (0x1AF, 0x1AF, 1, 1); (0x1B1, 0x1B2, 217, 1);
   (0x1B3, 0x1B5, 1, 2); (0x1B7, 0x1B7, 219, 1); (0x1B8, 0x1B8, 1, 1);
   (0x1BC, 0x1BC, 1, 1); (0x1C4, 0x1C4, 2, 1); (0x1C5, 0x1C5, 1, 1);
   (0x1C7, 0x1C7, 2, 1); (0x1C8, 0x1C8, 1, 1); (0x1CA, 0x1CA, 2, 1);
   (0x1CB, 0x1DB, 1, 2); (0x1DE, 0x1EE, 1, 2); (0x1F1, 0x1F1, 2, 1);
   (0x1F2, 0x1F4, 1, 2); (0x1F6, 0x1F6, -97, 1); (0x1F7, 0x1F7, -56, 1);
   (0x1F8, 0x21E, 1, 2); (0x220, 0x220, -130, 1); (0x222, 0x232, 1, 2);
   (0x23A, 0x23A, 10795, 1); (0x23B, 0x23B, 1, 1); (0x23D, 0x23D, -163, 1);
   (0x23E, 0x23E, 10792, 1); (0x241, 0x241, 1, 1); (0x243, 0x243, -195, 1);
   (0x244, 0x244, 69, 1); (0x245, 0x245, 71, 1); (0x246, 0x24E, 1, 2);
   (0x370, 0x372, 1, 2); (0x376, 0x376, 1, 1); (0x37F, 0x37F, 116, 1);
   (0x386, 0x386, 38, 1); (0x388, 0x38A, 37, 1); (0x38C, 0x38C, 64, 1);
   (0x38E, 0x38F, 63, 1); (0x391, 0x3A1, 32, 1); (0x3A3, 0x3AB, 32, 1);
   (0x3CF, 0x3CF, 8, 1); (0x3D8, 0x3EE, 1, 2); (0x3F4, 0x3F4, -60, 1);
   (0x3F7, 0x3F7, 1, 1); (0x3F9, 0x3F9, -7, 1); (0x3FA, 0x3FA, 1, 1);
   (0x3FD, 0x3FF, -130, 1); (0x400, 0x40F, 80, 1); (0x410, 0x42F, 32, 1);
   (0x460, 0x480, 1, 2); (0x48A, 0x4BE, 1, 2); (0x4C0, 0x4C0, 15, 1);
   (0x4C1, 0x4CD, 1, 2); (0x4D0, 0x52E, 1, 2); (0x531, 0x556, 48, 1);
   (0x10A0, 0x10C5, 7264, 1); (0x10C7, 0x10C7, 7264, 1);
   (0x10CD, 0x10CD, 7264, 1); (0x13A0, 0x13EF, 38864, 1);
   (0x13F0, 0x13F5, 8, 1); (0x1C90, 0x1CBA, -3008, 1);
   (0x1CBD, 0x1CBF, -3008, 1); (0x1E00, 0x1E94, 1, 2);
   (0x1E9E, 0x1E9E, -7615, 1); (0x1EA0, 0x1EFE, 1, 2);
   (0x1F08, 0x1F0F, -8, 1); (0x1F18, 0x1F1D, -8, 1); (0x1F28, 0x1F2F, -8, 1);
   (0x1F38, 0x1F3F, -8, 1); (0x1F48, 0x1F4D, -8, 1); (0x1F59, 0x1F5F, -8, 2);
   (0x1F68, 0x1F6F, -8, 1); (0x1F88, 0x1F8F, -8, 1); (0x1F98, 0x1F9F, -8, 1);
   (0x1FA8, 0x1FAF, -8, 1); (0x1FB8, 0x1FB9, -8, 1);
   (0x1FBA, 0x1FBB, -74, 1); (0x1FBC, 0x1FBC, -9, 1);
   (0x1FC8, 0x1FCB, -86, 1); (0x1FCC, 0x1FCC, -9, 1);
   (0x1FD8, 0x1FD9, -8, 1); (0x1FDA, 0x1FDB, -100, 1);
   (0x1FE8, 0x1FE9, -8, 1); (0x1FEA, 0x1FEB, -112, 1);
   (0x1FEC, 0x1FEC, -7, 1); (0x1FF8, 0x1FF9, -128, 1);
   (0x1FFA, 0x1FFB, -126, 1); (0x1FFC, 0x1FFC, -9, 1);
   (0x2126, 0x2126, -7517, 1); (0x212A, 0x212A, -8383, 1);
   (0x212B, 0x212B, -8262, 1); (0x2132, 0x2132, 28, 1);
   (0x2160, 0x216F, 16, 1); (0x2183, 0x2183, 1, 1); (0x24B6, 0x24CF, 26, 1);
   (0x2C00, 0x2C2F, 48, 1); (0x2C60, 0x2C60, 1, 1);
   (0x2C62, 0x2C62, -10743, 1); (0x2C63, 0x2C63, -3814, 1);
   (0x2C64, 0x2C64, -10727, 1); (0x2C67, 0x2C6B, 1, 2);
   (0x2C6D, 0x2C6D, -10780, 1); (0x2C6E, 0x2C6E, -10749, 1);
   (0x2C6F, 0x2C6F, -10783, 1); (0x2C70, 0x2C70, -10782, 1);
   (0x2C72, 0x2C72, 1, 1); (0x2C75, 0x2C75, 1, 1);
   (0x2C7E, 0x2C7F, -10815, 1); (0x2C80, 0x2CE2, 1, 2);
   (0x2CEB, 0x2CED, 1, 2); (0x2CF2, 0x2CF2, 1, 1); (0xA640, 0xA66C, 1, 2);
   (0xA680, 0xA69A, 1, 2); (0xA722, 0xA72E, 1, 2); (0xA732, 0xA76E, 1, 2);
   (0xA779, 0xA77B, 1, 2); (0xA77D, 0xA77D, -35332, 1);
   (0xA77E, 0xA786, 1, 2); (0xA78B, 0xA78B, 1, 1);
   (0xA78D, 0xA78D, -42280, 1); (0xA790, 0xA792, 1, 2);
   (0xA796, 0xA7A8, 1, 2); (0xA7AA, 0xA7AA, -42308, 1);
   (0xA7AB, 0xA7AB, -42319, 1); (0xA7AC, 0xA7AC, -42315, 1);
   (0xA7AD, 0xA7AD, -42305, 1); (0xA7AE, 0xA7AE, -42308, 1);
   (0xA7B0, 0xA7B0, -42258, 1); (0xA7B1, 0xA7B1, -42282, 1);
   (0xA7B2, 0xA7B2, -42261, 1); (0xA7B3, 0xA7B3, 928, 1);
   (0xA7B4, 0xA7C2, 1, 2); (0xA7C4, 0xA7C4, -48, 1);
   (0xA7C5, 0xA7C5, -42307, 1); (0xA7C6, 0xA7C6, -35384, 1);
   (0xA7C7, 0xA7C9, 1, 2); (0xA7D0, 0xA7D0, 1, 1); (0xA7D6, 0xA7D8, 1, 2);
   (0xA7F5, 0xA7F5, 1, 1); (0xFF21, 0xFF3A, 32, 1);
   (0x10400, 0x10427, 40, 1); (0x104B0, 0x104D3, 40, 1);
   (0x10570, 0x1057A, 39, 1); (0x1057C, 0x1058A, 39, 1);
   (0x1058C, 0x10592, 39, 1); (0x10594, 0x10595, 39, 1);
   (0x10C80, 0x10CB2, 64, 1); (0x118A0, 0x118BF, 32, 1);
   (0x16E40, 0x16E5F, 32, 1); (0x1E900, 0x1E921, 34, 1)].

Fixpoint run_lower (runs : list (Z * Z * Z * Z)) (c : Z) : Z :=
  match runs with
  | [] => c
  | (first, last, delta, step) :: runs =>
    if (first <=? c) && (c <=? last) && ((c - first) mod step =? 0)
    then c + delta
    else run_lower runs c
  end.

Definition cpython_tolower (c : Z) : Z := run_lower lower_runs c.

(** The characters [str.lower] skips when it looks for the letters around a
    capital sigma (the property Case_Ignorable). *)
Definition case_ignorable_ranges : list (Z * Z) :=
  [(0x27, 0x27); (0x2E, 0x2E); (0x3A, 0x3A); (0x5E, 0x5E); (0x60, 0x60);
   (0xA8, 0xA8); (0xAD, 0xAD); (0xAF, 0xAF); (0xB4, 0xB4); (0xB7, 0xB8);
   (0x2B0, 0x36F); (0x374, 0x375); (0x37A, 0x37A); (0x384, 0x385);
   (0x387, 0x387); (0x483, 0x489); (0x559, 0x559); (0x55F, 0x55F);
   (0x591, 0x5BD); (0x5BF, 0x5BF); (0x5C1, 0x5C2); (0x5C4, 0x5C5);
   (0x5C7, 0x5C7); (0x5F4, 0x5F4); (0x600, 0x605); (0x610, 0x61A);
   (0x61C, 0x61C); (0x640, 0x640); (0x64B, 0x65F); (0x670, 0x670);
   (0x6D6, 0x6DD); (0x6DF, 0x6E8); (0x6EA, 0x6ED); (0x70F, 0x70F);
   (0x711, 0x711); (0x730, 0x74A); (0x7A6, 0x7B0); (0x7EB, 0x7F5);
   (0x7FA, 0x7FA); (0x7FD, 0x7FD); (0x816, 0x82D); (0x859, 0x85B);
   (0x888, 0x888); (0x890, 0x891); (0x898, 0x89F); (0x8C9, 0x902);
   (0x93A, 0x93A); (0x93C, 0x93C); (0x941, 0x948); (0x94D, 0x94D);
   (0x951, 0x957); (0x962, 0x963); (0x971, 0x971); (0x981, 0x981);
   (0x9BC, 0x9BC); (0x9C1, 0x9C4); (0x9CD, 0x9CD); (0x9E2, 0x9E3);
   (0x9FE, 0x9FE); (0xA01, 0xA02); (0xA3C, 0xA3C); (0xA41, 0xA42);
   (0xA47, 0xA48); (0xA4B, 0xA4D); (0xA51, 0xA51); (0xA70, 0xA71);
   (0xA75, 0xA75); (0xA81, 0xA82); (0xABC, 0xABC); (0xAC1, 0xAC5);
   (0xAC7, 0xAC8); (0xACD, 0xACD); (0xAE2, 0xAE3); (0xAFA, 0xAFF);
   (0xB01, 0xB01); (0xB3C, 0xB3C); (0xB3F, 0xB3F); (0xB41, 0xB44);
   (0xB4D, 0xB4D); (0xB55, 0xB56); (0xB62, 0xB63); (0xB82, 0xB82);
   (0xBC0, 0xBC0); (0xBCD, 0xBCD); (0xC00, 0xC00); (0xC04, 0xC04);
   (0xC3C, 0xC3C); (0xC3E, 0xC40); (0xC46, 0xC48); (0xC4A, 0xC4D);
   (0xC55, 0xC56); (0xC62, 0xC63); (0xC81, 0xC81); (0xCBC, 0xCBC);
   (0xCBF, 0xCBF); (0xCC6, 0xCC6); (0xCCC, 0xCCD); (0xCE2, 0xCE3);
   (0xD00, 0xD01); (0xD3B, 0xD3C); (0xD41, 0xD44); (0xD4D, 0xD4D);
   (0xD62, 0xD63); (0xD81, 0xD81); (0xDCA, 0xDCA); (0xDD2, 0xDD4);
   (0xDD6, 0xDD6); (0xE31, 0xE31); (0xE34, 0xE3A); (0xE46, 0xE4E);
   (0xEB1, 0xEB1); (0xEB4, 0xEBC); (0xEC6, 0xEC6); (0xEC8, 0xECD);
   (0xF18, 0xF19); (0xF35, 0xF35); (0xF37, 0xF37); (0xF39, 0xF39);
   (0xF71, 0xF7E); (0xF80, 0xF84); (0xF86, 0xF87); (0xF8D, 0xF97);
   (0xF99, 0xFBC); (0xFC6, 0xFC6); (0x102D, 0x1030); (0x1032, 0x1037);
   (0x1039, 0x103A); (0x103D, 0x103E); (0x1058, 0x1059); (0x105E, 0x1060);
   (0x1071, 0x1074); (0x1082, 0x1082); (0x1085, 0x1086); (0x108D, 0x108D);
   (0x109D, 0x109D); (0x10FC, 0x10FC); (0x135D, 0x135F); (0x1712, 0x1714);
   (0x1732, 0x1733); (0x1752, 0x1753); (0x1772, 0x1773); (0x17B4, 0x17B5);
   (0x17B7, 0x17BD); (0x17C6, 0x17C6); (0x17C9, 0x17D3); (0x17D7, 0x17D7);
   (0x17DD, 0x17DD); (0x180B, 0x180F); (0x1843, 0x1843); (0x1885, 0x1886);
   (0x18A9, 0x18A9); (0x1920, 0x1922); (0x1927, 0x1928); (0x1932, 0x1932);
   (0x1939, 0x193B); (0x1A17, 0x1A18); (0x1A1B, 0x1A1B); (0x1A56, 0x1A56);
   (0x1A58, 0x1A5E); (0x1A60, 0x1A60); (0x1A62, 0x1A62); (0x1A65, 0x1A6C);
   (0x1A73, 0x1A7C); (0x1A7F, 0x1A7F); (0x1AA7, 0x1AA7); (0x1AB0, 0x1ACE);
   (0x1B00, 0x1B03); (0x1B34, 0x1B34); (0x1B36, 0x1B3A); (0x1B3C, 0x1B3C);
   (0x1B42, 0x1B42); (0x1B6B, 0x1B73); (0x1B80, 0x1B81); (0x1BA2, 0x1BA5);
   (0x1BA8, 0x1BA9); (0x1BAB, 0x1BAD); (0x1BE6, 0x1BE6); (0x1BE8, 0x1BE9);
   (0x1BED, 0x1BED); (0x1BEF, 0x1BF1); (0x1C2C, 0x1C33); (0x1C36, 0x1C37);
   (0x1C78, 0x1C7D); (0x1CD0, 0x1CD2); (0x1CD4, 0x1CE0); (0x1CE2, 0x1CE8);
   (0x1CED, 0x1CED); (0x1CF4, 0x1CF4); (0x1CF8, 0x1CF9); (0x1D2C, 0x1D6A);
   (0x1D78, 0x1D78); (0x1D9B, 0x1DFF); (0x1FBD, 0x1FBD); (0x1FBF, 0x1FC1);
   (0x1FCD, 0x1FCF); (0x1FDD, 0x1FDF); (0x1FED, 0x1FEF); (0x1FFD, 0x1FFE);
   (0x200B, 0x200F); (0x2018, 0x2019); (0x2024, 0x2024); (0x2027, 0x2027);
   (0x202A, 0x202E); (0x2060, 0x2064); (0x2066, 0x206F); (0x2071, 0x2071);
   (0x207F, 0x207F); (0x2090, 0x209C); (0x20D0, 0x20F0); (0x2C7C, 0x2C7D);
   (0x2CEF, 0x2CF1); (0x2D6F, 0x2D6F); (0x2D7F, 0x2D7F); (0x2DE0, 0x2DFF);
   (0x2E2F, 0x2E2F); (0x3005, 0x3005); (0x302A, 0x302D); (0x3031, 0x3035);
   (0x303B, 0x303B); (0x3099, 0x309E); (0x30FC, 0x30FE); (0xA015, 0xA015);
   (0xA4F8, 0xA4FD); (0xA60C, 0xA60C); (0xA66F, 0xA672); (0xA674, 0xA67D);
   (0xA67F, 0xA67F); (0xA69C, 0xA69F); (0xA6F0, 0xA6F1); (0xA700, 0xA721);
   (0xA770, 0xA770); (0xA788, 0xA78A); (0xA7F2, 0xA7F4); (0xA7F8, 0xA7F9);
   (0xA802, 0xA802); (0xA806, 0xA806); (0xA80B, 0xA80B); (0xA825, 0xA826);
   (0xA82C, 0xA82C); (0xA8C4, 0xA8C5); (0xA8E0, 0xA8F1); (0xA8FF, 0xA8FF);
   (0xA926, 0xA92D); (0xA947, 0xA951); (0xA980, 0xA982); (0xA9B3, 0xA9B3);
   (0xA9B6, 0xA9B9); (0xA9BC, 0xA9BD); (0xA9CF, 0xA9CF); (0xA9E5, 0xA9E6);
   (0xAA29, 0xAA2E); (0xAA31, 0xAA32); (0xAA35, 0xAA36); (0xAA43, 0xAA43);
   (0xAA4C, 0xAA4C); (0xAA70, 0xAA70); (0xAA7C, 0xAA7C); (0xAAB0, 0xAAB0);
   (0xAAB2, 0xAAB4); (0xAAB7, 0xAAB8); (0xAABE, 0xAABF); (0xAAC1, 0xAAC1);
   (0xAADD, 0xAADD); (0xAAEC, 0xAAED); (0xAAF3, 0xAAF4); (0xAAF6, 0xAAF6);
   (0xAB5B, 0xAB5F); (0xAB69, 0xAB6B); (0xABE5, 0xABE5); (0xABE8, 0xABE8);
   (0xABED, 0xABED); (0xFB1E, 0xFB1E); (0xFBB2, 0xFBC2); (0xFE00, 0xFE0F);
   (0xFE13, 0xFE13); (0xFE20, 0xFE2F); (0xFE52, 0xFE52); (0xFE55, 0xFE55);
   (0xFEFF, 0xFEFF); (0xFF07, 0xFF07); (0xFF0E, 0xFF0E); (0xFF1A, 0xFF1A);
   (0xFF3E, 0xFF3E); (0xFF40, 0xFF40); (0xFF70, 0xFF70); (0xFF9E, 0xFF9F);
   (0xFFE3, 0xFFE3); (0xFFF9, 0xFFFB); (0x101FD, 0x101FD);
   (0x102E0, 0x102E0); (0x10376, 0x1037A); (0x10780, 0x10785);
   (0x10787, 0x107B0); (0x107B2, 0x107BA); (0x10A01, 0x10A03);
   (0x10A05, 0x10A06); (0x10A0C, 0x10A0F); (0x10A38, 0x10A3A);
   (0x10A3F, 0x10A3F); (0x10AE5, 0x10AE6); (0x10D24, 0x10D27);
   (0x10EAB, 0x10EAC); (0x10F46, 0x10F50); (0x10F82, 0x10F85);
   (0x11001, 0x11001); (0x11038, 0x11046); (0x11070, 0x11070);
   (0x11073, 0x11074); (0x1107F, 0x11081); (0x110B3, 0x110B6);
   (0x110B9, 0x110BA); (0x110BD, 0x110BD); (0x110C2, 0x110C2);
   (0x110CD, 0x110CD); (0x11100, 0x11102); (0x11127, 0x1112B);
   (0x1112D, 0x11134); (0x11173, 0x11173); (0x11180, 0x11181);
   (0x111B6, 0x111BE); (0x111C9, 0x111CC); (0x111CF, 0x111CF);
   (0x1122F, 0x11231); (0x11234, 0x11234); (0x11236, 0x11237);
   (0x1123E, 0x1123E); (0x112DF, 0x112DF); (0x112E3, 0x112EA);
   (0x11300, 0x11301); (0x1133B, 0x1133C); (0x11340, 0x11340);
   (0x11366, 0x1136C); (0x11370, 0x11374); (0x11438, 0x1143F);
   (0x11442, 0x11444); (0x11446, 0x11446); (0x1145E, 0x1145E);
   (0x114B3, 0x114B8); (0x114BA, 0x114BA); (0x114BF, 0x114C0);
   (0x114C2, 0x114C3); (0x115B2, 0x115B5); (0x115BC, 0x115BD);
   (0x115BF, 0x115C0); (0x115DC, 0x115DD); (0x11633, 0x1163A);
   (0x1163D, 0x1163D); (0x1163F, 0x11640); (0x116AB, 0x116AB);
   (0x116AD, 0x116AD); (0x116B0, 0x116B5); (0x116B7, 0x116B7);
   (0x1171D, 0x1171F); (0x11722, 0x11725); (0x11727, 0x1172B);
   (0x1182F, 0x11837); (0x11839, 0x1183A); (0x1193B, 0x1193C);
   (0x1193E, 0x1193E); (0x11943, 0x11943); (0x119D4, 0x119D7);
   (0x119DA, 0x119DB); (0x119E0, 0x119E0); (0x11A01, 0x11A0A);
   (0x11A33, 0x11A38); (0x11A3B, 0x11A3E); (0x11A47, 0x11A47);
   (0x11A51, 0x11A56); (0x11A59, 0x11A5B); (0x11A8A, 0x11A96);
   (0x11A98, 0x11A99); (0x11C30, 0x11C36); (0x11C38, 0x11C3D);
   (0x11C3F, 0x11C3F); (0x11C92, 0x11CA7); (0x11CAA, 0x11CB0);
   (0x11CB2, 0x11CB3); (0x11CB5, 0x11CB6); (0x11D31, 0x11D36);
   (0x11D3A, 0x11D3A); (0x11D3C, 0x11D3D); (0x11D3F, 0x11D45);
   (0x11D47, 0x11D47); (0x11D90, 0x11D91); (0x11D95, 0x11D95);
   (0x11D97, 0x11D97); (0x11EF3, 0x11EF4); (0x13430, 0x13438);
   (0x16AF0, 0x16AF4); (0x16B30, 0x16B36); (0x16B40, 0x16B43);
   (0x16F4F, 0x16F4F); (0x16F8F, 0x16F9F); (0x16FE0, 0x16FE1);
   (0x16FE3, 0x16FE4); (0x1AFF0, 0x1AFF3); (0x1AFF5, 0x1AFFB);
   (0x1AFFD, 0x1AFFE); (0x1BC9D, 0x1BC9E); (0x1BCA0, 0x1BCA3);
   (0x1CF00, 0x1CF2D); (0x1CF30, 0x1CF46); (0x1D167, 0x1D169);
   (0x1D173, 0x1D182); (0x1D185, 0x1D18B); (0x1D1AA, 0x1D1AD);
   (0x1D242, 0x1D244); (0x1DA00, 0x1DA36); (0x1DA3B, 0x1DA6C);
   (0x1DA75, 0x1DA75); (0x1DA84, 0x1DA84); (0x1DA9B, 0x1DA9F);
   (0x1DAA1, 0x1DAAF); (0x1E000, 0x1E006); (0x1E008, 0x1E018);
   (0x1E01B, 0x1E021); (0x1E023, 0x1E024); (0x1E026, 0x1E02A);
   (0x1E130, 0x1E13D); (0x1E2AE, 0x1E2AE); (0x1E2EC, 0x1E2EF);
   (0x1E8D0, 0x1E8D6); (0x1E944, 0x1E94B); (0x1F3FB, 0x1F3FF);
   (0xE0001, 0xE0001); (0xE0020, 0xE007F); (0xE0100, 0xE01EF)].

(** The characters it then takes for a cased letter (the property Cased,
    on the characters that are not skipped). *)
Definition cased_letter_ranges : list (Z * Z) :=
  [(0x41, 0x5A); (0x61, 0x7A); (0xAA, 0xAA); (0xB5, 0xB5); (0xBA, 0xBA);
   (0xC0, 0xD6); (0xD8, 0xF6); (0xF8, 0x1BA); (0x1BC, 0x1BF); (0x1C4, 0x293);
   (0x295, 0x2AF); (0x370, 0x373); (0x376, 0x377); (0x37B, 0x37D);
   (0x37F, 0x37F); (0x386, 0x386); (0x388, 0x38A); (0x38C, 0x38C);
   (0x38E, 0x3A1); (0x3A3, 0x3F5); (0x3F7, 0x481); (0x48A, 0x52F);
   (0x531, 0x556); (0x560, 0x588); (0x10A0, 0x10C5); (0x10C7, 0x10C7);
   (0x10CD, 0x10CD); (0x10D0, 0x10FA); (0x10FD, 0x10FF); (0x13A0, 0x13F5);
   (0x13F8, 0x13FD); (0x1C80, 0x1C88); (0x1C90, 0x1CBA); (0x1CBD, 0x1CBF);
   (0x1D00, 0x1D2B); (0x1D6B, 0x1D77); (0x1D79, 0x1D9A); (0x1E00, 0x1F15);
   (0x1F18, 0x1F1D); (0x1F20, 0x1F45); (0x1F48, 0x1F4D); (0x1F50, 0x1F57);
   (0x1F59, 0x1F59); (0x1F5B, 0x1F5B); (0x1F5D, 0x1F5D); (0x1F5F, 0x1F7D);
   (0x1F80, 0x1FB4); (0x1FB6, 0x1FBC); (0x1FBE, 0x1FBE); (0x1FC2, 0x1FC4);
   (0x1FC6, 0x1FCC); (0x1FD0, 0x1FD3); (0x1FD6, 0x1FDB); (0x1FE0, 0x1FEC);
   (0x1FF2, 0x1FF4); (0x1FF6, 0x1FFC); (0x2102, 0x2102); (0x2107, 0x2107);
   (0x210A, 0x2113); (0x2115, 0x2115); (0x2119, 0x211D); (0x2124, 0x2124);
   (0x2126, 0x2126); (0x2128, 0x2128); (0x212A, 0x212D); (0x212F, 0x2134);
   (0x2139, 0x2139); (0x213C, 0x213F); (0x2145, 0x2149); (0x214E, 0x214E);
   (0x2160, 0x217F); (0x2183, 0x2184); (0x24B6, 0x24E9); (0x2C00, 0x2C7B);
   (0x2C7E, 0x2CE4); (0x2CEB, 0x2CEE); (0x2CF2, 0x2CF3); (0x2D00, 0x2D25);
   (0x2D27, 0x2D27); (0x2D2D, 0x2D2D); (0xA640, 0xA66D); (0xA680, 0xA69B);
   (0xA722, 0xA76F); (0xA771, 0xA787); (0xA78B, 0xA78E); (0xA790, 0xA7CA);
   (0xA7D0, 0xA7D1); (0xA7D3, 0xA7D3); (0xA7D5, 0xA7D9); (0xA7F5, 0xA7F6);
   (0xA7FA, 0xA7FA); (0xAB30, 0xAB5A); (0xAB60, 0xAB68); (0xAB70, 0xABBF);
   (0xFB00, 0xFB06); (0xFB13, 0xFB17); (0xFF21, 0xFF3A); (0xFF41, 0xFF5A);
   (0x10400, 0x1044F); (0x104B0, 0x104D3); (0x104D8, 0x104FB);
   (0x10570, 0x1057A); (0x1057C, 0x1058A); (0x1058C, 0x10592);
   (0x10594, 0x10595); (0x10597, 0x105A1); (0x105A3, 0x105B1);
   (0x105B3, 0x105B9); (0x105BB, 0x105BC); (0x10C80, 0x10CB2);
   (0x10CC0, 0x10CF2); (0x118A0, 0x118DF); (0x16E40, 0x16E7F);
   (0x1D400, 0x1D454); (0x1D456, 0x1D49C); (0x1D49E, 0x1D49F);
   (0x1D4A2, 0x1D4A2); (0x1D4A5, 0x1D4A6); (0x1D4A9, 0x1D4AC);
   (0x1D4AE, 0x1D4B9); (0x1D4BB, 0x1D4BB); (0x1D4BD, 0x1D4C3);
   (0x1D4C5, 0x1D505); (0x1D507, 0x1D50A); (0x1D50D, 0x1D514);
   (0x1D516, 0x1D51C); (0x1D51E, 0x1D539); (0x1D53B, 0x1D53E);
   (0x1D540, 0x1D544); (0x1D546, 0x1D546); (0x1D54A, 0x1D550);
   (0x1D552, 0x1D6A5); (0x1D6A8, 0x1D6C0); (0x1D6C2, 0x1D6DA);
   (0x1D6DC, 0x1D6FA); (0x1D6FC, 0x1D714); (0x1D716, 0x1D734);
   (0x1D736, 0x1D74E); (0x1D750, 0x1D76E); (0x1D770, 0x1D788);
   (0x1D78A, 0x1D7A8); (0x1D7AA, 0x1D7C2); (0x1D7C4, 0x1D7CB);
   (0x1DF00, 0x1DF09); (0x1DF0B, 0x1DF1E); (0x1E900, 0x1E943);
   (0x1F130, 0x1F149); (0x1F150, 0x1F169); (0x1F170, 0x1F189)].

(** [str.lower] maps each character to its lowercase, with two exceptions:
    the lowercase of U+0130 is two characters, and a capital sigma becomes
    a final sigma when a cased letter stands before it and none after it,
    characters that are skipped apart. *)
Fixpoint first_letter (s : str) : option Z :=
  match s with
  | [] => None
  | c :: s => if in_ranges case_ignorable_ranges c then first_letter s else Some c
  end.

(** [before] holds the characters before the sigma, the nearest first. *)
Definition final_sigma (before after : str) : bool :=
  match first_letter before with
  | Some c =>
    in_ranges cased_letter_ranges c
    && match first_letter after with
       | Some d => negb (in_ranges cased_letter_ranges d)
       | None => true
       end
  | None => false
  end.

Fixpoint lower_from (before s : str) : str :=
  match s with
  | [] => []
  | c :: s =>
    (if c =? 0x3A3 then [if final_sigma before s then 0x3C2 else 0x3C3]
     else if c =? 0x130 then [0x69; 0x307]
     else [cpython_tolower c])
    ++ lower_from (c :: before) s
  end.

Definition cpython_lower (s : str) : str := lower_from [] s.

Lemma decimal_ranges_ascii c :
  48 <= c <= 57 -> in_ranges decimal_ranges c = true.
Proof.
  intros [Hlo Hhi]. unfold in_ranges, decimal_ranges. cbn [existsb fst snd].
  apply Z.leb_le in Hlo. apply Z.leb_le in Hhi.
  change 0x30 with 48. change 0x39 with 57. rewrite Hlo, Hhi. reflexivity.
Qed.

#[export] Instance cpython_ucd : UnicodeData := {|
  isdecimal := in_ranges decimal_ranges;
  isspace := in_ranges space_ranges;
  isalnum := fun c => in_ranges alnum_ranges c || in_ranges decimal_ranges c;
  tolower := cpython_tolower;
  iscased := in_ranges cased_ranges;
  lower := cpython_lower;
  isdecimal_ascii := decimal_ranges_ascii
|}.


(** ** fastapp.py: language resources *)

Definition SUPPORTED_LANGUAGES : list str := [u "en"; u "mr"].

Definition language_code (l : language) : str :=
  match l with en => u "en" | mr => u "mr" end.

Definition parse_language (code : str) : option language :=
  if str_eqb code (u "en") then Some en
  else if str_eqb code (u "mr") then Some mr
  else None.

(** [RATING_LABELS[language][rating]]; [None] stands for the [KeyError] of a
    missing key. *)
Definition RATING_LABELS (code : str) (rating : Z) : option str :=
  match parse_language code with
  | Some en =>
    match rating with
    | 1 => Some (u "Poor") | 2 => Some (u "Fair") | 3 => Some (u "Good")
    | 4 => Some (u "Very Good") | 5 => Some (u "Excellent")
    | _ => None
    end
  | Some mr =>
    match rating with
    | 1 => Some (u "खराब") | 2 => Some (u "सामान्य") | 3 => Some (u "चांगले")
    | 4 => Some (u "खूप चांगले") | 5 => Some (u "उत्कृष्ट")
    | _ => None
    end
  | None => None
  end.

Definition rating_label (l : language) (rating : Z) : str :=
  default [] (RATING_LABELS (language_code l) rating).

Record knowledge_base := {
  welcome_message : str;
  initial_question : str;
  check_existing_question : str;
  status_check_question : str;
  ticket_id_prompt : str;
  kb_feedback_question : str;
  rating_question : str;
  kb_rating_request : str;
  invalid_rating : str;
  rating_thank_you : str;
  ticket_not_found : str;
  database_error : str;
  invalid_ticket_id : str;
  options_yes : str;
  options_no : str;
  yes_response_intro : str;
  yes_response_link : str;
  no_response : str;
  help_text : str;
  track_ticket_help : str
}.

Definition KB_en : knowledge_base := {|
  welcome_message := u "Welcome to Maha Aastha Grievance Redressal System AI-ChatBot.";
  initial_question := u "Would you like to register a Ticket on the Maha Aastha Grievance Redressal System?";
  check_existing_question := u "Has a Ticket already been registered on the Maha Aastha Grievance Redressal System?";
  status_check_question := u "Would you like to check the status of the ticket which you have registered on the Maha Aastha Grievance Redressal System?";
  ticket_id_prompt := u "Please enter your Ticket ID (For example: " ++ dq ++ u "TKT-12345678" ++ dq ++ u ")";
  kb_feedback_question := u "Would you like to provide feedback regarding the resolution of your ticket addressed through the Maha Aastha Grievance Redressal System?";
  rating_question := u "Please rate your experience with the Maha Aastha Grievance Redressal System:";
  kb_rating_request := u "Rate from 1 (Poor) to 5 (Excellent)";
  invalid_rating := u "The information you have entered is invalid. Please try again.";
  rating_thank_you := u "Thank you for your feedback. Your rating has been recorded.";
  ticket_not_found := u "Sorry, no ticket found with the provided ID. Please check your Ticket ID and try again.";
  database_error := u "Unable to fetch ticket information at the moment. Please try again later.";
  invalid_ticket_id := u "Please provide a valid Ticket ID in the correct format (For example: " ++ dq ++ u "TKT-12345678" ++ dq ++ u ")";
  options_yes := u "YES";
  options_no := u "NO";
  yes_response_intro := u "You can register your Ticket on the Maha Aastha Grievance Redressal System through below link:";
  yes_response_link := u "#grievance";
  no_response := u "Thank you for using the Maha Aastha Grievance Redressal System.";
  help_text := u "Please type 'YES' or 'NO' to proceed with your query.";
  track_ticket_help := u "You can also track your ticket status at: #view-ticket"
|}.

Definition KB_mr : knowledge_base := {|
  welcome_message := u "नमस्कार, महा आस्था तक्रार निवारण प्रणाली एआय-चॅटबॉटमध्ये आपले स्वागत आहे.";
  initial_question := u "महा आस्था तक्रार निवारण प्रणालीमध्ये आपण तिकीट नोंदवू इच्छिता का?";
  check_existing_question := u "महा आस्था तक्रार निवारण प्रणालीमध्ये नोंदविण्यात आलेली तिकीट आहे का?";
  status_check_question := u "आपण महा आस्था तक्रार निवारण प्रणालीमध्ये नोंदवलेल्या तिकीटची स्थिती तपासू इच्छिता का?";
  ticket_id_prompt := u "कृपया आपला तिकीट क्रमांक प्रविष्ट करा (उदाहरणार्थ: " ++ dq ++ u "TKT-12345678" ++ dq ++ u ")";
  kb_feedback_question := u "महा आस्था तक्रार निवारण प्रणालीद्वारे सोडविण्यात आलेल्या आपल्या तिकीटच्या निराकरणाबाबत अभिप्राय द्यायला इच्छिता का?";
  rating_question := u "कृपया महा आस्था तक्रार निवारण प्रणालीच्या अनुभवाला रेटिंग द्या:";
  kb_rating_request := u "१ (खराब) ते ५ (उत्कृष्ट) पर्यंत रेटिंग द्या";
  invalid_rating := u "आपण दिलेली माहिती अवैध आहे. कृपया पुन्हा प्रयत्न करा.";
  rating_thank_you := u "आपल्या अभिप्रायाबद्दल धन्यवाद. आपले रेटिंग नोंदवले गेले आहे.";
  ticket_not_found := u "माफ करा, दिलेल्या क्रमांकाशी कोणतीही तिकीट आढळली नाही. कृपया आपला तिकीट क्रमांक तपासा आणि पुन्हा प्रयत्न करा.";
  database_error := u "सध्या तिकीट माहिती मिळवता येत नाही. कृपया नंतर प्रयत्न करा.";
  invalid_ticket_id := u "कृपया योग्य तिकीट क्रमांक प्रदान करा (उदाहरणार्थ: " ++ dq ++ u "TKT-12345678" ++ dq ++ u ")";
  options_yes := u "होय";
  options_no := u "नाही";
  yes_response_intro := u "आपण महा आस्था तक्रार निवारण प्रणालीमध्ये आपली तिकीट खालील लिंकद्वारे नोंदवू शकता:";
  yes_response_link := u "#grievance";
  no_response := u "महा आस्था तक्रार निवारण प्रणालीचा वापर केल्याबद्दल आपले धन्यवाद.";
  help_text := u "कृपया 'होय' किंवा 'नाही' टाइप करून आपल्या प्रश्नासह पुढे जा.";
  track_ticket_help := u "आपण आपल्या तिकीटची स्थिती येथे देखील तपासू शकता: #view-ticket"
|}.

Definition MAHA_AASTHA_KNOWLEDGE_BASE (l : language) : knowledge_base :=
  match l with en => KB_en | mr => KB_mr end.

(** [greeting_reply]: the reply table is indexed by language, then by key;
    an unknown key falls back to the English hello. *)
Definition greeting_replies (l : language) : list (str * str) :=
  let KB := MAHA_AASTHA_KNOWLEDGE_BASE l in
  match l with
  | en =>
    [ (u "good_morning", u "Good Morning! " ++ welcome_message KB);
      (u "good_afternoon", u "Good Afternoon! " ++ welcome_message KB);
      (u "good_evening", u "Good Evening! " ++ welcome_message KB);
      (u "good_night", u "Good Night! " ++ welcome_message KB);
      (u "hello", u "Hello! " ++ welcome_message KB) ]
  | mr =>
    [ (u "good_morning", u "शुभ सकाळ! " ++ welcome_message KB);
      (u "good_afternoon", u "शुभ दुपार! " ++ welcome_message KB);
      (u "good_evening", u "शुभ संध्याकाळ! " ++ welcome_message KB);
      (u "good_night", u "शुभ रात्री! " ++ welcome_message KB);
      (u "hello", welcome_message KB) ]
  end.

Fixpoint dict_get (key : str) (d : list (str * str)) : option str :=
  match d with
  | [] => None
  | (k, v) :: d' => if str_eqb k key then Some v else dict_get key d'
  end.

Definition greeting_reply (l : language) (key : str) : str :=
  default (u "Hello! " ++ welcome_message (MAHA_AASTHA_KNOWLEDGE_BASE l))
    (dict_get key (greeting_replies l)).

(** ** Dates *)

Record datetime := {
  year : Z; month : Z; day : Z; hour : Z; minute : Z; second : Z
}.

Definition pad2 (n : Z) : str :=
  if n <? 10 then u "0" ++ str_of_int n else str_of_int n.

Definition month_abbr (m : Z) : str :=
  nth (Z.to_nat (m - 1))
    [u "Jan"; u "Feb"; u "Mar"; u "Apr"; u "May"; u "Jun";
     u "Jul"; u "Aug"; u "Sep"; u "Oct"; u "Nov"; u "Dec"] [].

(** [d.strftime("%d-%b-%Y")] *)
Definition strftime_d_b_Y (d : datetime) : str :=
  pad2 (day d) ++ u "-" ++ month_abbr (month d) ++ u "-" ++ str_of_int (year d).

(** [d.strftime("%Y-%m-%d %H:%M:%S")] *)
Definition strftime_Ymd_HMS (d : datetime) : str :=
  str_of_int (year d) ++ u "-" ++ pad2 (month d) ++ u "-" ++ pad2 (day d)
  ++ u " " ++ pad2 (hour d) ++ u ":" ++ pad2 (minute d) ++ u ":" ++ pad2 (second d).

(** [d.strftime("%H:%M:%S")] *)
Definition strftime_HMS (d : datetime) : str :=
  pad2 (hour d) ++ u ":" ++ pad2 (minute d) ++ u ":" ++ pad2 (second d).

(** ** database.py: the ticket store *)

(** A row of [public.grievancess] as [get_ticket_status] selects it; a
    [None] field is SQL [NULL]. *)
Record TicketRow := {
  row_id : Z;
  ticket : option str;
  employee_id : option str;
  employee_name : option str;
  mobile_number : option str;
  official_email : option str;
  designation : option str;
  department : option str;
  office_name : option str;
  district_name : option str;
  user_role : option str;
  priority : option str;
  issue_timestamp : option datetime;
  issue_category : option str;
  issue_sub_category : option str;
  issue_related : option str;
  issue_section : option str;
  issue_sub_section : option str;
  subject : option str;
  description : option str;
  status : option str;
  created_at : option datetime;
  updated_at : option datetime
}.

Definition set_status (v : option str) (r : TicketRow) : TicketRow :=
  {| row_id := row_id r; ticket := ticket r; employee_id := employee_id r;
     employee_name := employee_name r; mobile_number := mobile_number r;
     official_email := official_email r; designation := designation r;
     department := department r; office_name := office_name r;
     district_name := district_name r; user_role := user_role r;
     priority := priority r; issue_timestamp := issue_timestamp r;
     issue_category := issue_category r;
     issue_sub_category := issue_sub_category r;
     issue_related := issue_related r; issue_section := issue_section r;
     issue_sub_section := issue_sub_section r; subject := subject r;
     description := description r; status := v;
     created_at := created_at r; updated_at := updated_at r |}.

(** The database server is outside the program: a connection answers the
    status query, given its two parameters, with a row, with no row, or by
    raising; acquiring a connection from the pool can raise as well. *)
Record Connection := {
  fetchrow : str -> str -> result (option TicketRow)
}.

Record Pool := {
  acquire : result Connection
}.

Record DatabaseManager := {
  pool : option Pool
}.

Definition status_map : list (str * str) :=
  [ (u "Open", u "Open"); (u "In Progress", u "In Progress");
    (u "Resolved", u "Resolved"); (u "Closed", u "Closed");
    (u "Pending", u "Pending") ].

(** ** fastapp.py: module state *)

Inductive stage :=
| initial
| awaiting_response
| registration_info
| waiting_for_ticket_id
| status_shown
| feedback_question
| rating_request
| completed.

#[export] Instance stage_eq_dec : EqDecision stage.
Proof. solve_decision. Defined.

Record session_state := {
  session_stage : stage;
  session_language : language
}.

Record chat_entry := {
  chat_user : str;
  chat_assistant : str;
  chat_language : str;
  chat_timestamp : str;
  chat_session_id : str;
  chat_created_at : Z
}.

Record rating_entry := {
  r_timestamp : str;
  r_session_id : str;
  r_rating : Z;
  r_Feedback : str;
  r_language : str;
  r_ticket_id : str
}.

Record system_status := {
  total_queries : Z;
  successful_queries : Z;
  failed_queries : Z;
  last_error : option exn          (* the exception whose [str()] is stored *)
}.

(** The mutable state a request handler can reach.  [lookups] is not a
    variable of the program: it records, latest first, the identifiers
    [DatabaseManager.get_ticket_status] was called with. *)
Record world := {
  USER_SESSION_STATE : gmap str session_state;
  CHAT_HISTORY : gmap str (list chat_entry);
  RATINGS_DATA : list rating_entry;
  SYSTEM_STATUS : system_status;
  db_manager : DatabaseManager;
  lookups : list str
}.

Definition with_sessions (f : gmap str session_state -> gmap str session_state)
    (w : world) : world :=
  {| USER_SESSION_STATE := f (USER_SESSION_STATE w);
     CHAT_HISTORY := CHAT_HISTORY w; RATINGS_DATA := RATINGS_DATA w;
     SYSTEM_STATUS := SYSTEM_STATUS w; db_manager := db_manager w;
     lookups := lookups w |}.

Definition with_history (f : gmap str (list chat_entry) -> gmap str (list chat_entry))
    (w : world) : world :=
  {| USER_SESSION_STATE := USER_SESSION_STATE w;
     CHAT_HISTORY := f (CHAT_HISTORY w); RATINGS_DATA := RATINGS_DATA w;
     SYSTEM_STATUS := SYSTEM_STATUS w; db_manager := db_manager w;
     lookups := lookups w |}.

Definition with_ratings (f : list rating_entry -> list rating_entry)
    (w : world) : world :=
  {| USER_SESSION_STATE := USER_SESSION_STATE w;
     CHAT_HISTORY := CHAT_HISTORY w; RATINGS_DATA := f (RATINGS_DATA w);
     SYSTEM_STATUS := SYSTEM_STATUS w; db_manager := db_manager w;
     lookups := lookups w |}.

Definition with_status (f : system_status -> system_status) (w : world) : world :=
  {| USER_SESSION_STATE := USER_SESSION_STATE w;
     CHAT_HISTORY := CHAT_HISTORY w; RATINGS_DATA := RATINGS_DATA w;
     SYSTEM_STATUS := f (SYSTEM_STATUS w); db_manager := db_manager w;
     lookups := lookups w |}.

Definition with_lookup (identifier : str) (w : world) : world :=
  {| USER_SESSION_STATE := USER_SESSION_STATE w;
     CHAT_HISTORY := CHAT_HISTORY w; RATINGS_DATA := RATINGS_DATA w;
     SYSTEM_STATUS := SYSTEM_STATUS w; db_manager := db_manager w;
     lookups := identifier :: lookups w |}.

(** ** Handlers: state and exceptions *)

Definition M (A : Type) : Type := world -> result A * world.

Definition ret {A} (a : A) : M A := fun w => (Ok a, w).

Definition bind {A B} (m : M A) (f : A -> M B) : M B :=
  fun w =>
    match m w with
    | (Ok a, w') => f a w'
    | (Raise e, w') => (Raise e, w')
    end.

Definition raise {A} (e : exn) : M A := fun w => (Raise e, w).

(** [try: m  except Exception as e: h e]; what [m] wrote before raising
    stays written. *)
Definition try_except {A} (m : M A) (h : exn -> M A) : M A :=
  fun w =>
    match m w with
    | (Ok a, w') => (Ok a, w')
    | (Raise e, w') => h e w'
    end.

Definition lift {A} (r : result A) : M A := fun w => (r, w).
Definition get : M world := fun w => (Ok w, w).
Definition modify (f : world -> world) : M unit := fun w => (Ok tt, f w).

Notation "x <- m ;; k" := (bind m (fun x => k))
  (at level 100, m at next level, right associativity).
Notation "m ;;; k" := (bind m (fun _ => k))
  (at level 100, right associativity).

Section Engine.
Context `{UCD : UnicodeData}.

(** [status_map.get(current_status, current_status)] *)
Definition map_status (current_status : option str) : option str :=
  match current_status with
  | Some k => Some (default k (dict_get k status_map))
  | None => None
  end.

(** [DatabaseManager.get_ticket_status]: every failure inside the [try] is
    answered with [None]. *)
Definition DatabaseManager_get_ticket_status (identifier : str)
    : M (option TicketRow) :=
  modify (with_lookup identifier) ;;;
  w <- get ;;
  match pool (db_manager w) with
  | None => ret None
  | Some p =>
    try_except
      (let identifier := strip identifier in
       connection <- lift (acquire p) ;;
       result <- lift (fetchrow connection identifier
                         (u "%" ++ identifier ++ u "%")) ;;
       match result with
       | None => ret None
       | Some row => ret (Some (set_status (map_status (status row)) row))
       end)
      (fun _ => ret None)
  end.

(** The module-level wrapper [get_ticket_status] of database.py. *)
Definition get_ticket_status (identifier : str) : M (option TicketRow) :=
  DatabaseManager_get_ticket_status identifier.

(** How an f-string prints an optional text: [None] prints as "None". *)
Definition fmt (o : option str) : str := default (u "None") o.

(** [format_simple_ticket_status] *)
Definition format_simple_ticket_status (ticket_data : option TicketRow)
    (l : language) : str :=
  match ticket_data with
  | None =>
    match l with en => u "Ticket not found" | mr => u "तिकीट आढळले नाही" end
  | Some row =>
    let created_date :=
      match created_at row with
      | Some d => strftime_d_b_Y d
      | None => u "Not available"
      end in
    let updated_date := strftime_d_b_Y <$> updated_at row in
    match l with
    | en =>
      u "The current status of your Ticket is as follows:" ++ nl
      ++ u "Ticket ID: " ++ fmt (ticket row) ++ nl
      ++ u "Status: " ++ fmt (status row) ++ nl
      ++ u "Created: " ++ created_date ++ nl
      ++ u "Employee Name: " ++ fmt (employee_name row) ++ nl
      ++ u "Category: " ++ fmt (issue_category row)
      ++ (if truthy (district_name row)
          then nl ++ u "District: " ++ fmt (district_name row) else [])
      ++ (if truthy (office_name row)
          then nl ++ u "Office: " ++ fmt (office_name row) else [])
      ++ (if truthy (subject row)
          then nl ++ u "Subject: " ++ fmt (subject row) else [])
      ++ (if truthy updated_date
          then nl ++ u "Last Updated: " ++ fmt updated_date else [])
    | mr =>
      u "आपल्या तिकीटची सद्यस्थिती खालीलप्रमाणे आहे:" ++ nl
      ++ u "तिकीट क्रमांक: " ++ fmt (ticket row) ++ nl
      ++ u "स्थिती: " ++ fmt (status row) ++ nl
      ++ u "दाखल दिनांक: " ++ created_date ++ nl
      ++ u "कर्मचारी नाव: " ++ fmt (employee_name row) ++ nl
      ++ u "श्रेणी: " ++ fmt (issue_category row)
      ++ (if truthy (district_name row)
          then nl ++ u "जिल्हा: " ++ fmt (district_name row) else [])
      ++ (if truthy (office_name row)
          then nl ++ u "कार्यालय: " ++ fmt (office_name row) else [])
      ++ (if truthy (subject row)
          then nl ++ u "विषय: " ++ fmt (subject row) else [])
      ++ (if truthy updated_date
          then nl ++ u "शेवटचा अद्यतन: " ++ fmt updated_date else [])
    end
  end.

(** [get_initial_response_with_status_option] *)
Definition get_initial_response_with_status_option (l : language) : str :=
  let kb := MAHA_AASTHA_KNOWLEDGE_BASE l in
  match l with
  | mr =>
    welcome_message kb ++ nl
    ++ u "प्रश्न क्र. १: " ++ initial_question kb ++ nl
    ++ u "उत्तर १ - " ++ dq ++ options_yes kb ++ dq ++ nl
    ++ u "उत्तर २ - " ++ dq ++ options_no kb ++ dq ++ nl
    ++ u "प्रश्न क्र. २: " ++ status_check_question kb ++ nl
    ++ u "उत्तर - " ++ dq ++ u "स्थिती तपासा" ++ dq
    ++ u " किंवा आपला तिकीट क्रमांक टाइप करा" ++ nl
    ++ u "उदाहरण: TKT-12345678"
  | en =>
    welcome_message kb ++ nl
    ++ u "Question 1: " ++ initial_question kb ++ nl
    ++ u "Answer 1: " ++ dq ++ options_yes kb ++ dq ++ nl
    ++ u "Answer 2: " ++ dq ++ options_no kb ++ dq ++ nl
    ++ u "Question 2: " ++ status_check_question kb ++ nl
    ++ u "Answer: Type " ++ dq ++ u "Check Status" ++ dq
    ++ u " or enter your Ticket ID" ++ nl
    ++ u "Example: TKT-12345678"
  end.

(** [get_feedback_question] *)
Definition get_feedback_question (l : language) : str :=
  let kb := MAHA_AASTHA_KNOWLEDGE_BASE l in
  match l with
  | mr =>
    u "प्रश्न क्र. २.२: " ++ kb_feedback_question kb ++ nl
    ++ u "उत्तर १ - " ++ dq ++ options_yes kb ++ dq ++ nl
    ++ u "उत्तर २ - " ++ dq ++ options_no kb ++ dq
  | en =>
    u "Question 2.2: " ++ kb_feedback_question kb ++ nl
    ++ u "Answer 1: " ++ dq ++ options_yes kb ++ dq ++ nl
    ++ u "Answer 2: " ++ dq ++ options_no kb ++ dq
  end.

(** [get_rating_request] *)
Definition get_rating_request (l : language) : str :=
  let kb := MAHA_AASTHA_KNOWLEDGE_BASE l in
  match l with
  | mr =>
    rating_question kb ++ nl ++ kb_rating_request kb ++ nl
    ++ u "१ - " ++ rating_label mr 1 ++ nl
    ++ u "२ - " ++ rating_label mr 2 ++ nl
    ++ u "३ - " ++ rating_label mr 3 ++ nl
    ++ u "४ - " ++ rating_label mr 4 ++ nl
    ++ u "५ - " ++ rating_label mr 5
  | en =>
    rating_question kb ++ nl ++ kb_rating_request kb ++ nl
    ++ u "1 - " ++ rating_label en 1 ++ nl
    ++ u "2 - " ++ rating_label en 2 ++ nl
    ++ u "3 - " ++ rating_label en 3 ++ nl
    ++ u "4 - " ++ rating_label en 4 ++ nl
    ++ u "5 - " ++ rating_label en 5
  end.

(** The reply for a ticket that was found; the source builds it with the
    same statements in each of its three lookup branches. *)
Definition status_response (row : TicketRow) (identifier : str)
    (identifier_type : option identifier_type) (l : language) : str :=
  format_simple_ticket_status (Some row) l
  ++ match identifier_type with
     | Some mobile_number_type =>
       match l with
       | mr => nl ++ nl ++ u "📱 मोबाइल नंबरद्वारे शोधले गेले: " ++ identifier
       | en => nl ++ nl ++ u "📱 Found using mobile number: " ++ identifier
       end
     | _ => []
     end
  ++ nl ++ nl ++ u "🔗 " ++ track_ticket_help (MAHA_AASTHA_KNOWLEDGE_BASE l).

(** The reply for no ticket, in the identifier short-circuit ... *)
Definition not_found_reply (identifier : str)
    (identifier_type : option identifier_type) (l : language) : str :=
  match identifier_type with
  | Some mobile_number_type =>
    match l with
    | mr => u "माफ करा, " ++ identifier
            ++ u " या मोबाइल नंबरसाठी कोणतीही तिकीट आढळली नाही. कृपया आपला तिकीट क्रमांक किंवा नोंदणीकृत मोबाइल नंबर तपासा."
    | en => u "Sorry, no ticket found for mobile number " ++ identifier
            ++ u ". Please check your ticket ID or registered mobile number."
    end
  | _ => ticket_not_found (MAHA_AASTHA_KNOWLEDGE_BASE l)
  end.

(** ... and in the two stage-dependent lookups. *)
Definition not_found_reply_staged (identifier : str)
    (identifier_type : option identifier_type) (l : language) : str :=
  match identifier_type with
  | Some mobile_number_type =>
    match l with
    | mr => u "माफ करा, " ++ identifier
            ++ u " या मोबाइल नंबरसाठी कोणतीही तिकीट आढळली नाही."
    | en => u "Sorry, no ticket found for mobile number " ++ identifier ++ u "."
    end
  | _ => ticket_not_found (MAHA_AASTHA_KNOWLEDGE_BASE l)
  end.

(** [session_state["stage"] = s] on the dictionary stored under the
    session id. *)
Definition set_stage (session_id : str) (s : stage) : M unit :=
  modify (with_sessions (alter (fun st =>
    {| session_stage := s; session_language := session_language st |})
    session_id)).

(** [USER_SESSION_STATE[session_id]["stage"]] *)
Definition read_stage (session_id : str) : M stage :=
  w <- get ;;
  match USER_SESSION_STATE w !! session_id with
  | Some st => ret (session_stage st)
  | None => raise (KeyError session_id)
  end.

(** [if session_id not in USER_SESSION_STATE: USER_SESSION_STATE[session_id] =
    {"stage": "initial", "language": language}] *)
Definition ensure_session (session_id : str) (l : language) : M unit :=
  w <- get ;;
  match USER_SESSION_STATE w !! session_id with
  | Some _ => ret tt
  | None =>
    modify (with_sessions (insert session_id
      {| session_stage := initial; session_language := l |}))
  end.

Definition registration_keywords : list str :=
  [u "register"; u "ticket"; u "complaint"; u "तिकीट"; u "नोंदवू"; u "शिकायत"].

(** The lookup of the two stage-dependent branches: on a hit the stage
    becomes [status_shown]. *)
Definition staged_lookup (identifier : str)
    (identifier_type : option identifier_type) (session_id : str)
    (l : language) : M str :=
  try_except
    (ticket_data <- get_ticket_status identifier ;;
     match ticket_data with
     | Some row =>
       set_stage session_id status_shown ;;;
       ret (status_response row identifier identifier_type l)
     | None => ret (not_found_reply_staged identifier identifier_type l)
     end)
    (fun _ => ret (database_error (MAHA_AASTHA_KNOWLEDGE_BASE l))).

(** [process_maha_aastha_query] *)
Definition process_maha_aastha_query (input_text session_id : str)
    (l : language) : M str :=
  detected <- lift (detect_ticket_id_or_mobile input_text) ;;
  let '(identifier, identifier_type) := detected in
  if truthy identifier && found identifier_type then
    try_except
      (ticket_data <- DatabaseManager_get_ticket_status (default [] identifier) ;;
       match ticket_data with
       | Some row =>
         ret (status_response row (default [] identifier) identifier_type l)
       | None => ret (not_found_reply (default [] identifier) identifier_type l)
       end)
      (fun _ => ret (database_error (MAHA_AASTHA_KNOWLEDGE_BASE l)))
  else
  ensure_session session_id l ;;;
  let response_type := detect_yes_no_response input_text l in
  if detect_exact_status_question input_text l then
    detected <- lift (detect_ticket_id_or_mobile input_text) ;;
    let '(identifier, identifier_type) := detected in
    if truthy identifier
       && (validate_ticket_id_format (default [] identifier)
           || validate_mobile_number_format (default [] identifier))
    then staged_lookup (default [] identifier) identifier_type session_id l
    else
      set_stage session_id waiting_for_ticket_id ;;;
      ret (ticket_id_prompt (MAHA_AASTHA_KNOWLEDGE_BASE l) ++ nl
           ++ match l with
              | mr => u "किंवा आपला नोंदणीकृत मोबाइल नंबर प्रविष्ट करा (उदाहरणार्थ: 9876543210)"
              | en => u "Or enter your registered mobile number (Example: 9876543210)"
              end)
  else
  current <- read_stage session_id ;;
  if bool_decide (current = waiting_for_ticket_id) then
    detected <- lift (detect_ticket_id_or_mobile input_text) ;;
    let '(identifier, identifier_type) := detected in
    if truthy identifier
       && (validate_ticket_id_format (default [] identifier)
           || validate_mobile_number_format (default [] identifier))
    then staged_lookup (default [] identifier) identifier_type session_id l
    else
      ret match l with
          | mr => u "कृपया योग्य तिकीट क्रमांक किंवा 10-अंकी मोबाइल नंबर प्रदान करा."
          | en => u "Please provide a valid Ticket ID or 10-digit mobile number."
          end
  else
  if contains (u "feedback") (lower input_text)
     || contains (u "अभिप्राय") (lower input_text)
  then
    set_stage session_id feedback_question ;;;
    ret (get_feedback_question l)
  else
  current <- read_stage session_id ;;
  if bool_decide (current = feedback_question) then
    match response_type with
    | yes =>
      set_stage session_id rating_request ;;;
      ret (get_rating_request l)
    | no =>
      set_stage session_id completed ;;;
      ret (no_response (MAHA_AASTHA_KNOWLEDGE_BASE l))
    | unknown => ret (help_text (MAHA_AASTHA_KNOWLEDGE_BASE l))
    end
  else
  current <- read_stage session_id ;;
  if bool_decide (current = initial)
     || existsb (fun kw => contains kw (lower input_text)) registration_keywords
  then
    match response_type with
    | yes =>
      set_stage session_id registration_info ;;;
      let kb := MAHA_AASTHA_KNOWLEDGE_BASE l in
      ret (yes_response_intro kb ++ nl ++ nl ++ yes_response_link kb)
    | no =>
      set_stage session_id feedback_question ;;;
      ret (get_feedback_question l)
    | unknown =>
      set_stage session_id awaiting_response ;;;
      ret (get_initial_response_with_status_option l)
    end
  else ret (get_initial_response_with_status_option l).

End Engine.

(** ** Responses

    A text without surrogates and inside the code space: what
    [encode('utf-8')] accepts. *)
Definition scalar (c : Z) : bool :=
  (0 <=? c) && (c <? 0x110000) && negb ((0xD800 <=? c) && (c <=? 0xDFFF)).

Definition is_text (s : str) : bool := forallb scalar s.

(** [JSONResponse(status_code=..., content=...)]: the constructor renders the
    content at once, [json.dumps(content, ensure_ascii=False).encode("utf-8")],
    so building the response raises [UnicodeEncodeError] when a string of the
    content holds a surrogate.  A handler that returns a dictionary builds no
    response itself: the framework serialises it after the handler has
    returned, which is outside the handlers modelled here. *)
Definition JSONResponse {A} (strings : list str) (response : A) : M A :=
  if forallb is_text strings then ret response else raise UnicodeEncodeError.

(** ** fastapp.py: the /query/ endpoint *)

(** What a handler reads from outside the program during one request. *)
Record environment := {
  clock : datetime;              (* [datetime.now()], [time.strftime] *)
  clock_retry : datetime;        (* a later reading of the same clock *)
  epoch : Z;                     (* [time.time()], in whole seconds *)
  choice_adjective : nat;        (* the two draws of [random.choice] *)
  choice_animal : nat;
  urandom : Z * Z;               (* [os.urandom(2)] *)
  csv_write : result unit        (* outcome of appending to the day's CSV
                                    file, fallback location included *)
}.

Definition hex_digit (n : Z) : Z :=
  if n <? 10 then 48 + n else 87 + n.

(** [bytes([b]).hex()] *)
Definition hex2 (b : Z) : str := [hex_digit (b / 16); hex_digit (b mod 16)].

(** [generate_session_id] *)
Definition generate_session_id (env : environment) : str :=
  let adjectives :=
    [u "sharp"; u "sleepy"; u "fluffy"; u "dazzling"; u "crazy"; u "bold";
     u "happy"; u "silly"] in
  let animals :=
    [u "lion"; u "swan"; u "tiger"; u "elephant"; u "zebra"; u "giraffe";
     u "panda"; u "koala"] in
  nth (choice_adjective env) adjectives [] ++ u "_"
  ++ nth (choice_animal env) animals [] ++ u "_"
  ++ hex2 (fst (urandom env)) ++ hex2 (snd (urandom env)) ++ u "_"
  ++ str_of_int (epoch env).

(** [add_to_chat_history]: newest first, at most 50 entries per session. *)
Definition add_to_chat_history (env : environment)
    (session_id user_msg bot_msg language : str) : M unit :=
  modify (with_history (fun h =>
    <[session_id :=
        take 50 ({| chat_user := user_msg; chat_assistant := bot_msg;
                    chat_language := language;
                    chat_timestamp := strftime_HMS (clock env);
                    chat_session_id := session_id;
                    chat_created_at := epoch env |}
                 :: default [] (h !! session_id))]> h)).

Definition count_total : M unit :=
  modify (with_status (fun s =>
    {| total_queries := total_queries s + 1;
       successful_queries := successful_queries s;
       failed_queries := failed_queries s; last_error := last_error s |})).

Definition count_successful : M unit :=
  modify (with_status (fun s =>
    {| total_queries := total_queries s;
       successful_queries := successful_queries s + 1;
       failed_queries := failed_queries s; last_error := last_error s |})).

Definition count_failed (e : option exn) : M unit :=
  modify (with_status (fun s =>
    {| total_queries := total_queries s;
       successful_queries := successful_queries s;
       failed_queries := failed_queries s + 1;
       last_error := match e with Some _ => e | None => last_error s end |})).

Record QueryRequest := {
  input_text : str;
  session_id : option str;
  language_field : str
}.

Inductive query_response :=
| QueryReply (reply language session_id detected_language : str)
| QueryError (status_code : Z) (reply : str).

Section Endpoints.
Context `{UCD : UnicodeData}.

(** The validators of [QueryRequest]: the text is stripped, must not be
    empty nor longer than 500 characters; the language must be supported. *)
Definition validate_query_request (input_text : str) (session_id : option str)
    (language : str) : option QueryRequest :=
  let v := strip input_text in
  if bool_decide (v = []) then None
  else if (500 <? length v)%nat then None
  else if negb (existsb (str_eqb language) SUPPORTED_LANGUAGES) then None
  else Some {| input_text := v; session_id := session_id;
               language_field := language |}.

(** [process_query] *)
Definition process_query (env : environment) (request : QueryRequest)
    : M query_response :=
  count_total ;;;
  let input_text := strip (input_text request) in
  let language := lower (language_field request) in
  if bool_decide (input_text = []) then
    count_failed None ;;;
    ret (QueryError 400
           (if str_eqb language (u "mr")
            then u "कृपया एक वैध प्रश्न प्रदान करा."
            else u "Please provide a valid query."))
  else
  match parse_language language with
  | None =>
    count_failed None ;;;
    let message := u "Language '" ++ language ++ u "' not supported. Use: en, mr" in
    JSONResponse [message] (QueryError 400 message)
  | Some l =>
    let session_id :=
      if truthy (session_id request) then default [] (session_id request)
      else generate_session_id env in
    let '(is_greet, greet_key) := detect_greeting input_text in
    if is_greet then
      count_successful ;;;
      let reply_text := greeting_reply l greet_key in
      add_to_chat_history env session_id input_text reply_text language ;;;
      ret (QueryReply reply_text language session_id language)
    else
      try_except
        (assistant_reply <- process_maha_aastha_query input_text session_id l ;;
         count_successful ;;;
         add_to_chat_history env session_id input_text assistant_reply language ;;;
         ret (QueryReply assistant_reply language session_id language))
        (fun query_error =>
           count_failed (Some query_error) ;;;
           ret (QueryError 500
                  match l with
                  | en => u "An error occurred while processing your query. Please try again later."
                  | mr => u "तुमचा प्रश्न प्रक्रिया करतान त्रुटी आली. कृपया नंतर पुन्हा प्रयत्न करा."
                  end))
  end.

End Endpoints.

(** ** fastapp.py: ratings *)

Record RatingRequest := {
  rq_rating : Z;
  rq_session_id : option str;
  rq_language : str;
  rq_ticket_id : option str;
  rq_feedback_text : option str
}.

(** The [rating] validator of [RatingRequest]. *)
Definition validate_rating (v : Z) : bool :=
  existsb (Z.eqb v) [1; 2; 3; 4; 5].

Definition lookup_label (language : str) (rating : Z) : M str :=
  match RATING_LABELS language rating with
  | Some label => ret label
  | None =>
    raise (KeyError (if found (parse_language language)
                     then str_of_int rating else language))
  end.

Definition make_rating_entry (now : datetime) (rating : Z)
    (session_id language : str) (ticket_id : option str) (label : str)
    : rating_entry :=
  {| r_timestamp := strftime_Ymd_HMS now;
     r_session_id := session_id;
     r_rating := rating;
     r_Feedback := label;
     r_language := language;
     r_ticket_id := if truthy ticket_id then default [] ticket_id else u "N/A" |}.

(** [save_rating_data]: the entry is written to the day's CSV file and
    appended to [RATINGS_DATA]; when anything before the append raises, the
    handler builds the entry again and appends it to memory only. *)
Definition save_rating_data (env : environment) (rating : Z)
    (session_id language : str) (ticket_id feedback_text : option str)
    : M bool :=
  try_except
    (label <- lookup_label language rating ;;
     let rating_entry :=
       make_rating_entry (clock env) rating session_id language ticket_id label in
     lift (csv_write env) ;;;
     modify (with_ratings (fun data => data ++ [rating_entry])) ;;;
     ret true)
    (fun _ =>
       try_except
         (label <- lookup_label language rating ;;
          let rating_entry :=
            make_rating_entry (clock_retry env) rating session_id language
              ticket_id label in
          modify (with_ratings (fun data => data ++ [rating_entry])) ;;;
          ret true)
         (fun _ => ret false)).

Inductive rating_response :=
| RatingSaved (message thank_you : str) (rating : Z) (rating_label session_id : str)
| RatingFailed (status_code : Z) (message : str).

(** [submit_rating]; the request has passed the [rating] validator. *)
Definition submit_rating (env : environment) (request : RatingRequest)
    : M rating_response :=
  try_except
    (let session_id :=
       if truthy (rq_session_id request) then default [] (rq_session_id request)
       else generate_session_id env in
     rating_label <- lookup_label (rq_language request) (rq_rating request) ;;
     success <- save_rating_data env (rq_rating request) session_id
                  (rq_language request) (rq_ticket_id request)
                  (rq_feedback_text request) ;;
     if success : bool then
       thank_you_msg <-
         match parse_language (rq_language request) with
         | Some l => ret (rating_thank_you (MAHA_AASTHA_KNOWLEDGE_BASE l))
         | None => raise (KeyError (rq_language request))
         end ;;
       let response_msg :=
         if str_eqb (rq_language request) (u "mr")
         then u "आपल्या " ++ str_of_int (rq_rating request)
              ++ u "-स्टार रेटिंगसाठी धन्यवाद! (" ++ rating_label ++ u ")"
         else u "Thank you for your " ++ str_of_int (rq_rating request)
              ++ u "-star rating! (" ++ rating_label ++ u ")" in
       add_to_chat_history env session_id
         (u "Rating: " ++ str_of_int (rq_rating request) ++ u "/5")
         (thank_you_msg ++ nl ++ nl ++ response_msg) (rq_language request) ;;;
       JSONResponse [response_msg; thank_you_msg; rating_label; session_id]
         (RatingSaved response_msg thank_you_msg (rq_rating request)
            rating_label session_id)
     else
       ret (RatingFailed 500
              (if str_eqb (rq_language request) (u "mr")
               then u "आपले रेटिंग जतन करण्यात अयशस्वी. कृपया पुन्हा प्रयत्न करा."
               else u "Failed to save your rating. Please try again.")))
    (fun _ =>
       ret (RatingFailed 500
              (if str_eqb (rq_language request) (u "mr")
               then u "आपले रेटिंग प्रक्रिया करताना त्रुटी आली."
               else u "An error occurred while processing your rating."))).

(** *** CSV export *)

Definition COMMA : Z := 44.

(** [csv.writer] with the default dialect: a field is quoted when it holds
    the delimiter, the quote character or a line-terminator character, and
    quotes inside it are doubled; a row ends with CR LF. *)
Definition csv_special (c : Z) : bool :=
  (c =? COMMA) || (c =? DQUOTE) || (c =? CR) || (c =? LF).

Definition csv_field (s : str) : str :=
  if existsb csv_special s then
    dq ++ flat_map (fun c => if c =? DQUOTE then [DQUOTE; DQUOTE] else [c]) s ++ dq
  else s.

Fixpoint join_fields (fields : list str) : str :=
  match fields with
  | [] => []
  | [f] => f
  | f :: fs => f ++ [COMMA] ++ join_fields fs
  end.

Definition csv_row (fields : list str) : str :=
  join_fields (map csv_field fields) ++ [CR; LF].

Definition fieldnames : list str :=
  [u "timestamp"; u "session_id"; u "rating"; u "feedback"; u "language";
   u "ticket_id"].

(** The row [export_ratings] writes for one ledger entry. *)
Definition modified_row (rating_data : rating_entry) : list str :=
  [ r_timestamp rating_data; r_session_id rating_data;
    str_of_int (r_rating rating_data); r_Feedback rating_data;
    r_language rating_data; r_ticket_id rating_data ].

Definition utf8_bom : Z := 0xFEFF.

Inductive export_response :=
| ExportNotFound (error : str)             (* status 404 *)
| ExportCSV (body : list Z) (filename : str)   (* the streamed bytes *)
| ExportFailed (e : exn).                  (* status 500 *)

Definition strftime_Ymd_HMS_compact (d : datetime) : str :=
  str_of_int (year d) ++ pad2 (month d) ++ pad2 (day d) ++ u "_"
  ++ pad2 (hour d) ++ pad2 (minute d) ++ pad2 (second d).

(** [export_ratings] *)
Definition export_ratings (env : environment) : M export_response :=
  try_except
    (w <- get ;;
     match RATINGS_DATA w with
     | [] => ret (ExportNotFound (u "No ratings data available for export"))
     | _ :: _ =>
       let csv_content :=
         csv_row fieldnames
         ++ concat (map (fun rating_data => csv_row (modified_row rating_data))
                      (RATINGS_DATA w)) in
       let csv_content_with_bom := utf8_bom :: csv_content in
       let filename :=
         u "maha_aastha_ratings_" ++ strftime_Ymd_HMS_compact (clock env)
         ++ u ".csv" in
       match utf8_encode csv_content_with_bom with
       | Some body => ret (ExportCSV body filename)
       | None => raise UnicodeEncodeError
       end
     end)
    (fun e => ret (ExportFailed e)).

(** ** Reading the state

    The stage a session is in: a session that is not stored yet is created
    in stage [initial] by the first message that reaches the stage machine. *)
Definition stage_of (w : world) (session_id : str) : stage :=
  match USER_SESSION_STATE w !! session_id with
  | Some st => session_stage st
  | None => initial
  end.

(** [get_ticket_status_endpoint] (the /ticket/status/ handler) names the
    kind of the identifier it looked up, in both of its branches, with
    ["mobile_number" if validate_mobile_number_format(request.ticket_id)
    else "ticket_id"]. *)
Definition search_method `{UCD : UnicodeData} (ticket_id : str) : identifier_type :=
  if validate_mobile_number_format ticket_id then mobile_number_type
  else ticket_id_type.

(** ** Scenarios

    Worlds, stores and requests that the properties below are stated over or
    tried on. *)

Definition empty_status : system_status :=
  {| total_queries := 0; successful_queries := 0; failed_queries := 0;
     last_error := None |}.

(** A freshly started process around a given store. *)
Definition fresh_world (db : DatabaseManager) : world :=
  {| USER_SESSION_STATE := ∅; CHAT_HISTORY := ∅; RATINGS_DATA := [];
     SYSTEM_STATUS := empty_status; db_manager := db; lookups := [] |}.

Definition one_session (db : DatabaseManager) (sid : str) (s : stage) : world :=
  with_sessions (insert sid {| session_stage := s; session_language := en |})
    (fresh_world db).

(** A store that answers every query with one fixed outcome. *)
Definition constant_store (answer : result (option TicketRow)) : DatabaseManager :=
  {| pool := Some {| acquire := Ok {| fetchrow := fun _ _ => answer |} |} |}.

Definition unreachable_store : DatabaseManager :=
  {| pool := Some {| acquire := Raise (ExternalError (u "connection refused")) |} |}.

(** A store out of reach: the pool was never created, or no connection
    can be had from it, or the query raises on the connection. *)
Definition store_unreachable (w : world) : Prop :=
  pool (db_manager w) = None
  \/ exists p,
       pool (db_manager w) = Some p
       /\ ((exists e, acquire p = Raise e)
           \/ (exists conn, acquire p = Ok conn
                            /\ forall a b, exists e, fetchrow conn a b = Raise e)).

Definition resolved_row : TicketRow :=
  {| row_id := 1; ticket := Some (u "TKT-ab12cd"); employee_id := None;
     employee_name := Some (u "A. Patil"); mobile_number := None;
     official_email := None; designation := None; department := None;
     office_name := None; district_name := None; user_role := None;
     priority := Some (u "Low"); issue_timestamp := None;
     issue_category := Some (u "Other"); issue_sub_category := None;
     issue_related := None; issue_section := None; issue_sub_section := None;
     subject := None; description := None; status := Some (u "Resolved");
     created_at := Some {| year := 2024; month := 1; day := 5;
                           hour := 10; minute := 30; second := 0 |};
     updated_at := None |}.

Definition sample_environment : environment :=
  {| clock := {| year := 2024; month := 1; day := 5;
                 hour := 10; minute := 30; second := 0 |};
     clock_retry := {| year := 2024; month := 1; day := 5;
                       hour := 10; minute := 30; second := 1 |};
     epoch := 1704450600;
     choice_adjective := 0; choice_animal := 2; urandom := (0x3A, 0xF0);
     csv_write := Ok tt |}.

Definition hello_with_ticket : QueryRequest :=
  {| input_text := u "hello TKT-ab12cd"; session_id := Some (u "s1");
     language_field := u "en" |}.

Definition five_stars : RatingRequest :=
  {| rq_rating := 5; rq_session_id := Some (u "s1"); rq_language := u "mr";
     rq_ticket_id := Some (u "TKT-ab12cd"); rq_feedback_text := None |}.

(** A second rating: its session id holds a comma and quotes. *)
Definition two_stars : RatingRequest :=
  {| rq_rating := 2;
     rq_session_id := Some (u "desk 4, " ++ dq ++ u "north" ++ dq);
     rq_language := u "en"; rq_ticket_id := None; rq_feedback_text := None |}.

(** A rating under a session id that holds a lone surrogate, which the
    request model accepts and UTF-8 cannot encode; the day's CSV file
    cannot be written with it either. *)
Definition surrogate_rating : RatingRequest :=
  {| rq_rating := 4; rq_session_id := Some (u "s" ++ [0xD800]);
     rq_language := u "en"; rq_ticket_id := None; rq_feedback_text := None |}.

Definition unwritable_environment : environment :=
  {| clock := clock sample_environment;
     clock_retry := clock_retry sample_environment;
     epoch := epoch sample_environment;
     choice_adjective := 0; choice_animal := 0; urandom := (0, 0);
     csv_write := Raise UnicodeEncodeError |}.

(** ** Requests in flight

    The handlers are coroutines on one event loop.  A handler runs alone
    until it awaits something that is not ready, and the handlers modelled
    here have one such place: [process_maha_aastha_query] awaits the store,
    [await db_manager.get_ticket_status(identifier)], when the text carries
    an identifier.  While the store works other handlers run, and the query
    is in flight: it has been counted in [total_queries] and in neither of
    the two other counters.  [submit_rating] and [export_ratings] await
    nothing.

    The identifier, its kind and the language of a query that reaches the
    await: its text is not empty, its language is supported, it is no
    greeting, and an identifier is detected in it. *)
Definition awaited `{UCD : UnicodeData} (request : QueryRequest)
    : option (str * option identifier_type * language) :=
  let input_text := strip (input_text request) in
  let language := lower (language_field request) in
  if bool_decide (input_text = []) then None
  else match parse_language language with
  | None => None
  | Some l =>
    if fst (detect_greeting input_text) then None
    else match detect_ticket_id_or_mobile input_text with
    | Ok (identifier, identifier_type) =>
      if truthy identifier && found identifier_type
      then Some (default [] identifier, identifier_type, l)
      else None
    | Raise _ => None
    end
  end.

(** What such a query has done when it is suspended: the handler has
    counted it and the engine has called the store. *)
Definition suspend (identifier : str) : M unit :=
  count_total ;;; modify (with_lookup identifier).

(** What it does when it is resumed: the engine turns the answer of the
    store into the reply, and the handler counts a success, writes the
    chat history and returns. *)
Definition resume `{UCD : UnicodeData} (env : environment)
    (request : QueryRequest) (identifier : str)
    (identifier_type : option identifier_type) (l : language)
    : M query_response :=
  let input_text := strip (input_text request) in
  let language := lower (language_field request) in
  let session_id :=
    if truthy (session_id request) then default [] (session_id request)
    else generate_session_id env in
  w <- get ;;
  let assistant_reply :=
    match fst (DatabaseManager_get_ticket_status identifier w) with
    | Ok (Some row) => status_response row identifier identifier_type l
    | Ok None => not_found_reply identifier identifier_type l
    | Raise _ => database_error (MAHA_AASTHA_KNOWLEDGE_BASE l)
    end in
  count_successful ;;;
  add_to_chat_history env session_id input_text assistant_reply language ;;;
  ret (QueryReply assistant_reply language session_id language).

(** The process, step by step: it starts with empty stores; a query, a
    rating submission or an export runs from its beginning to its end, or a
    query runs up to the await and is resumed at a later step, after any
    number of steps of other requests.  [pending] holds the queries in
    flight. *)
Inductive serving `{UCD : UnicodeData}
    : world -> list (environment * QueryRequest) -> Prop :=
| serve_start db : serving (fresh_world db) []
| serve_query env request w pending :
    serving w pending ->
    serving (snd (process_query env request w)) pending
| serve_suspend env request identifier identifier_type l w pending :
    serving w pending ->
    awaited request = Some (identifier, identifier_type, l) ->
    serving (snd (suspend identifier w)) ((env, request) :: pending)
| serve_resume env request identifier identifier_type l w before after :
    serving w (before ++ (env, request) :: after) ->
    awaited request = Some (identifier, identifier_type, l) ->
    serving (snd (resume env request identifier identifier_type l w))
      (before ++ after)
| serve_rating env request w pending :
    serving w pending -> validate_rating (rq_rating request) = true ->
    serving (snd (submit_rating env request w)) pending
| serve_export env w pending :
    serving w pending ->
    serving (snd (export_ratings env w)) pending.

(** The worlds a process can be in, between two steps of its handlers:
    with or without queries in flight. *)
Definition reachable `{UCD : UnicodeData} (w : world) : Prop :=
  exists pending, serving w pending.

(** ** The ledger and the export, as specified *)

(** The label stored in a ledger entry is the catalog's label for the
    entry's language and rating. *)
Definition labelled (e : rating_entry) : Prop :=
  RATING_LABELS (r_language e) (r_rating e) = Some (r_Feedback e).

(** An entry as [save_rating_data] builds it: stamped by the clock, with
    the catalog's label for its language and rating. *)
Definition saved (e : rating_entry) : Prop :=
  exists now rating session_id language ticket_id label,
    RATING_LABELS language rating = Some label
    /\ e = make_rating_entry now rating session_id language ticket_id label.

(** A handler keeps the ledger made of such entries. *)
Definition keeps_saved {A} (m : M A) : Prop :=
  forall w,
    Forall saved (RATINGS_DATA w) ->
    Forall saved (RATINGS_DATA (snd (m w))).

(** The two fields of an entry that a request chooses freely, its session
    id and its ticket id, are text: UTF-8 can encode them. *)
Definition entry_text (e : rating_entry) : bool :=
  is_text (r_session_id e) && is_text (r_ticket_id e).

Definition header_line : string :=
  "timestamp,session_id,rating,feedback,language,ticket_id".

(** A reader of CSV records in the form the default dialect of the [csv]
    module writes them: the fields are separated by commas and the record
    is ended by CR LF; a field that holds a comma, a quote, CR or LF is
    wrapped in quotes, with each of its quotes doubled, and no other field
    is wrapped.  The reader is in one of four states: at the start of a
    field, inside a plain field, inside a wrapped field, and after a quote
    met inside a wrapped field. *)
Inductive csv_state :=
| StartField | InField | InQuotedField | QuoteInQuotedField.

Definition csv_reserved (c : Z) : bool :=
  existsb (Z.eqb c) [COMMA; DQUOTE; CR; LF].

Fixpoint csv_read_from (state : csv_state) (field : str) (fields : list str)
    (line : str) : option (list str) :=
  match line with
  | [] => None
  | c :: rest =>
    let end_of_record :=
      match rest with
      | [c'] => if c' =? LF then Some (fields ++ [field]) else None
      | _ => None
      end in
    match state with
    | StartField =>
      if c =? DQUOTE then csv_read_from InQuotedField [] fields rest
      else if c =? COMMA then csv_read_from StartField [] (fields ++ [[]]) rest
      else if c =? CR then end_of_record
      else if c =? LF then None
      else csv_read_from InField [c] fields rest
    | InField =>
      if c =? COMMA then csv_read_from StartField [] (fields ++ [field]) rest
      else if c =? CR then end_of_record
      else if (c =? LF) || (c =? DQUOTE) then None
      else csv_read_from InField (field ++ [c]) fields rest
    | InQuotedField =>
      if c =? DQUOTE then csv_read_from QuoteInQuotedField field fields rest
      else csv_read_from InQuotedField (field ++ [c]) fields rest
    | QuoteInQuotedField =>
      if c =? DQUOTE
      then csv_read_from InQuotedField (field ++ [DQUOTE]) fields rest
      else if negb (existsb csv_reserved field) then None
      else if c =? COMMA then csv_read_from StartField [] (fields ++ [field]) rest
      else if c =? CR then end_of_record
      else None
    end
  end.

(** The fields of the record [line]. *)
Definition csv_read (line : str) : option (list str) :=
  csv_read_from StartField [] [] line.

(** [row] is the CSV row of the entry [e]: the UTF-8 encoding of the record
    whose six fields are the timestamp, the session id, the rating, the
    catalog's label for the language and the rating of the entry, the
    language and the ticket id. *)
Definition exported_row (e : rating_entry) (row : list Z) : Prop :=
  exists label line,
    RATING_LABELS (r_language e) (r_rating e) = Some label
    /\ csv_read line
       = Some [ r_timestamp e; r_session_id e; str_of_int (r_rating e); label;
                r_language e; r_ticket_id e ]
    /\ utf8_encode line = Some row.

(** A handler does not bring the session [sid] into [status_shown]. *)
Definition avoids_status_shown (sid : str) {A} (m : M A) : Prop :=
  forall w,
    stage_of w sid <> status_shown ->
    stage_of (snd (m w)) sid <> status_shown.

(** ** Frames and outcomes of handlers *)

(** A handler changes the world only along [R]. *)
Definition frames (R : world -> world -> Prop) {A} (m : M A) : Prop :=
  forall w, R w (snd (m w)).

(** Started in a world with [I], a handler returns a value, in a world
    with [I]. *)
Definition returns (I : world -> Prop) {A} (m : M A) : Prop :=
  forall w, I w -> exists a w', m w = (Ok a, w') /\ I w'.

(** What a request that names or is given the session [sid] may change:
    that session's state and history, the counters and the log of lookups. *)
Definition same_outside_session (sid : str) (w w' : world) : Prop :=
  (forall s, s <> sid ->
     USER_SESSION_STATE w' !! s = USER_SESSION_STATE w !! s
     /\ CHAT_HISTORY w' !! s = CHAT_HISTORY w !! s)
  /\ RATINGS_DATA w' = RATINGS_DATA w
  /\ db_manager w' = db_manager w.

(** The session a request is served under:
    [request.session_id or generate_session_id()]. *)
Definition session_of (env : environment) (session_id : option str) : str :=
  if truthy session_id then default [] session_id else generate_session_id env.

(** The HTTP status of a /query/ response: the status of the response the
    handler builds, and 200 for a reply it returns as a dictionary. *)
Definition status_code (r : query_response) : Z :=
  match r with
  | QueryReply _ _ _ _ => 200
  | QueryError code _ => code
  end.

(** The entry [add_to_chat_history] writes. *)
Definition history_entry (env : environment)
    (session_id user_msg bot_msg language : str) : chat_entry :=
  {| chat_user := user_msg; chat_assistant := bot_msg;
     chat_language := language;
     chat_timestamp := strftime_HMS (clock env);
     chat_session_id := session_id;
     chat_created_at := epoch env |}.

(** The counters of [SYSTEM_STATUS] account for every query: those that
    were answered, those that failed and those in flight. *)
Definition balanced (s : system_status) (in_flight : nat) : Prop :=
  total_queries s
  = successful_queries s + failed_queries s + Z.of_nat in_flight.

(** The session [sid] is in the session table. *)
Definition stored (sid : str) (w : world) : Prop :=
  is_Some (USER_SESSION_STATE w !! sid).

(** No session's chat history is longer than 50 entries. *)
Definition history_bounded (w : world) : Prop :=
  forall (sid : str) (h : list chat_entry),
    CHAT_HISTORY w !! sid = Some h -> (length h <= 50)%nat.

(** The clock reading that stamps a saved rating: the first one when the
    CSV file was written, the one of the fallback when it was not. *)
Definition written_at (env : environment) : datetime :=
  match csv_write env with
  | Ok _ => clock env
  | Raise _ => clock_retry env
  end.

(** ** database.py: the code of a new ticket

    [save_whatsapp_ticket] names a new ticket
    [f"TKT-{secrets.token_hex(4)}"]: the prefix, and two lowercase
    hexadecimal digits for each of the random bytes drawn. *)
Definition token_hex (random_bytes : list Z) : str := flat_map hex2 random_bytes.

Definition whatsapp_ticket (random_bytes : list Z) : str :=
  u "TKT-" ++ token_hex random_bytes.

(** An ASCII letter or digit. *)
Definition ascii_alnum (c : Z) : bool :=
  (48 <=? c) && (c <=? 57) || (65 <=? c) && (c <=? 90)
  || (97 <=? c) && (c <=? 122).

(** ** fastapp.py: rating statistics

    The [rating_distribution] that [get_rating_stats] reports: empty for an
    empty ledger, and otherwise [ratings.count(i)] under the key [str(i)],
    for [i] in [range(1, 6)]. *)
Definition rating_distribution (data : list rating_entry) : list (str * nat) :=
  match data with
  | [] => []
  | _ :: _ =>
    let ratings := map r_rating data in
    map (fun i => (str_of_int i, count_occ Z.eq_dec ratings i)) [1; 2; 3; 4; 5]
  end.

(** * Properties *)

Arguments u : simpl never.

(** ** Intent classification *)

(** C8: the text "hello good night" holds both a "hello" token and a
    "good night" token; [detect_greeting] reports the category that stands
    first in its pattern list, "hello", which precedes "good_night". *)
Theorem greeting_priority_hello_before_good_night :
  let t := u "hello good night" in
  (exists r_hello r_night,
      greeting_patterns !! 3%nat = Some (r_hello, u "hello")
      /\ greeting_patterns !! 4%nat = Some (r_night, u "good_night")
      /\ found (re_search false r_hello t) = true
      /\ found (re_search false r_night t) = true)
  /\ detect_greeting t = (true, u "hello").
Proof.
  split.
  - do 2 eexists. split; [reflexivity |]. split; [reflexivity |].
    split; vm_compute; reflexivity.
  - vm_compute. reflexivity.
Qed.

(** C7: [detect_yes_no_response] does not depend on its language argument:
    the English and the Marathi tokens are tried whatever it is. *)
Theorem yes_no_ignores_language `{UCD : UnicodeData} :
  forall (text : str) (l1 l2 : language),
    detect_yes_no_response text l1 = detect_yes_no_response text l2.
Proof. intros text l1 l2. unfold detect_yes_no_response. reflexivity. Qed.

(** ** Mobile numbers *)

(** C4, at a failing input: on a bare ten-digit number (here written with a
    hyphen, which the cleaning step removes, and plainly) the first pattern
    yields a nine-character candidate that is dropped, and the second
    pattern, which has one group, is asked for its group 2:
    [detect_mobile_number] raises [IndexError] instead of returning the
    number.  The same happens to the whole identifier detection. *)
Theorem detect_mobile_number_raises_on_bare_number :
  detect_mobile_number (u "98765-43210") = Raise (IndexError (u "no such group"))
  /\ detect_mobile_number (u "9876543210") = Raise (IndexError (u "no such group"))
  /\ detect_mobile_number (u "09876543210") = Raise (IndexError (u "no such group"))
  /\ detect_ticket_id_or_mobile (u "98765-43210")
     = Raise (IndexError (u "no such group")).
Proof. repeat split; vm_compute; reflexivity. Qed.

(** The one shape the detector does return: a "+91" prefix that directly
    follows a digit. *)
Example detect_mobile_number_prefixed :
  detect_mobile_number (u "5+919876543210") = Ok (Some (u "9876543210"))
  /\ detect_mobile_number (u "+919876543210") = Ok None.
Proof. split; vm_compute; reflexivity. Qed.

(** Through the /query/ endpoint the exception ends the request with
    status 500. *)
Example bare_number_query_fails :
  fst (process_query sample_environment
         {| input_text := u "98765-43210"; session_id := Some (u "s1");
            language_field := u "en" |}
         (fresh_world (constant_store (Ok None))))
  = Ok (QueryError 500
          (u "An error occurred while processing your query. Please try again later.")).
Proof. vm_compute. reflexivity. Qed.

Section MobileFormat.
Context `{UCD : UnicodeData}.

Lemma sub_empty_nondigit p pv s :
  sub_empty_from false (One nondigit) p pv s 0 = List.filter isdecimal s.
Proof.
  revert p pv. induction s as [| c t IH]; intros p pv; [reflexivity |].
  cbn [sub_empty_from List.filter].
  unfold match_at. cbn [rmatch rest nondigit atom_matches].
  cbn [existsb item_matches xorb andb orb].
  destruct (isdecimal c) eqn:Hc; cbn [orb negb pos step m_end].
  - rewrite IH. reflexivity.
  - replace (S p - p)%nat with 1%nat by lia. apply IH.
Qed.

(** The digit-only form [re.sub(r'\D', '', s)] keeps exactly the characters
    that [\d] accepts. *)
Lemma digits_only_filter s :
  re_sub_empty false (One nondigit) s = List.filter isdecimal s.
Proof. apply sub_empty_nondigit. Qed.

Lemma filter_all_true {A} (f : A -> bool) (s : list A) :
  forallb f s = true -> List.filter f s = s.
Proof.
  induction s as [| c t IH]; cbn; [reflexivity |].
  intros H. apply andb_prop in H as [Hc Ht]. rewrite Hc, IH; auto.
Qed.

End MobileFormat.

(** A string of ASCII digits is a string of decimal digits. *)
Lemma ascii_digits_decimal `{UCD : UnicodeData} (s : str) :
  forallb (fun c => (48 <=? c) && (c <=? 57)) s = true ->
  forallb isdecimal s = true.
Proof.
  induction s as [| c s IH]; [reflexivity |].
  cbn [forallb]. intros H. apply andb_prop in H as [Hc Hs].
  apply andb_prop in Hc as [Hlo Hhi].
  apply Z.leb_le in Hlo. apply Z.leb_le in Hhi.
  rewrite (isdecimal_ascii c (conj Hlo Hhi)), (IH Hs). reflexivity.
Qed.

(** C5: a ten-character string of digits (ASCII digits, or any characters
    that [\d] accepts) that starts with 6, 7, 8 or 9 is a valid mobile
    number; a string whose digit-only form has fewer than ten digits, or
    exactly ten digits of which the first is 0 to 5, is not (such a form is
    neither the twelve-digit nor the eleven-digit prefixed form, which are
    the only other forms accepted). *)
Theorem validate_mobile_number_format_spec `{UCD : UnicodeData} :
  forall s : str,
    let digits_only := List.filter isdecimal s in
    (length s = 10%nat ->
     forallb (fun c => (48 <=? c) && (c <=? 57)) s = true
     \/ forallb isdecimal s = true ->
     char_in (hd 0 s) (u "6789") = true ->
     validate_mobile_number_format s = true)
    /\ ((length digits_only < 10)%nat
        \/ (length digits_only = 10%nat
            /\ char_in (hd 0 digits_only) (u "012345") = true) ->
        validate_mobile_number_format s = false).
Proof.
  intros s digits_only. unfold validate_mobile_number_format.
  rewrite digits_only_filter. fold digits_only. split.
  - intros Hlen Hall Hfirst. unfold digits_only.
    assert (Hdec : forallb isdecimal s = true)
      by (destruct Hall as [Hascii | Hdec];
          [apply ascii_digits_decimal; exact Hascii | exact Hdec]).
    rewrite (filter_all_true _ _ Hdec), Hlen, Hfirst. reflexivity.
  - intros [Hlt | [Hlen Hfirst]].
    + replace (length digits_only =? 10)%nat with false
        by (symmetry; apply Nat.eqb_neq; lia).
      replace (length digits_only =? 12)%nat with false
        by (symmetry; apply Nat.eqb_neq; lia).
      replace (length digits_only =? 11)%nat with false
        by (symmetry; apply Nat.eqb_neq; lia).
      reflexivity.
    + rewrite Hlen. cbn [Nat.eqb andb].
      replace (char_in (hd 0 digits_only) (u "6789")) with false; [reflexivity |].
      symmetry. revert Hfirst. generalize (hd 0 digits_only). intros c.
      vm_compute (u "012345"). vm_compute (u "6789").
      unfold char_in. cbn [existsb]. rewrite !orb_false_r.
      rewrite !orb_true_iff, !orb_false_iff, !Z.eqb_eq, !Z.eqb_neq. lia.
Qed.

Lemma validate_mobile_number_format_spec_witness :
  validate_mobile_number_format (u "9876543210") = true
  /\ validate_mobile_number_format (u "98765 4321") = false
  /\ validate_mobile_number_format (u "5876543210") = false.
Proof.
  pose proof (validate_mobile_number_format_spec (u "9876543210")) as [H1 _].
  pose proof (validate_mobile_number_format_spec (u "98765 4321")) as [_ H2].
  pose proof (validate_mobile_number_format_spec (u "5876543210")) as [_ H3].
  split; [| split].
  - apply H1; [reflexivity | left; vm_compute; reflexivity | vm_compute; reflexivity].
  - apply H2. left. vm_compute. lia.
  - apply H3. right. split; vm_compute; reflexivity.
Defined.

(** ** Running handlers *)

Section Runs.
Context `{UCD : UnicodeData}.

Lemma bind_ok {A B} (m : M A) (f : A -> M B) w a w1 :
  m w = (Ok a, w1) -> bind m f w = f a w1.
Proof. intros H. unfold bind. rewrite H. reflexivity. Qed.

Lemma bind_raise {A B} (m : M A) (f : A -> M B) w e w1 :
  m w = (Raise e, w1) -> bind m f w = (Raise e, w1).
Proof. intros H. unfold bind. rewrite H. reflexivity. Qed.

Lemma read_stage_run sid w st :
  USER_SESSION_STATE w !! sid = Some st ->
  read_stage sid w = (Ok (session_stage st), w).
Proof. intros H. unfold read_stage, bind, get. rewrite H. reflexivity. Qed.

Lemma set_stage_run sid s w :
  exists w1,
    set_stage sid s w = (Ok tt, w1)
    /\ lookups w1 = lookups w
    /\ (is_Some (USER_SESSION_STATE w !! sid) -> stage_of w1 sid = s).
Proof.
  eexists. split; [reflexivity |]. split; [reflexivity |].
  intros [st H]. unfold stage_of. cbn. rewrite lookup_alter_eq, H. reflexivity.
Qed.

Lemma ensure_session_run sid l w :
  exists w1 st,
    ensure_session sid l w = (Ok tt, w1)
    /\ USER_SESSION_STATE w1 !! sid = Some st
    /\ session_stage st = stage_of w sid
    /\ lookups w1 = lookups w.
Proof.
  unfold ensure_session, stage_of, bind, get.
  destruct (USER_SESSION_STATE w !! sid) as [st |] eqn:E.
  - exists w, st. repeat split; auto.
  - eexists _, _. split; [reflexivity |]. cbn. rewrite lookup_insert_eq.
    repeat split.
Qed.

(** The store's lookup answers every failure with [None]: it never raises,
    and it leaves the program state alone. *)
Lemma lookup_run identifier w :
  exists r,
    DatabaseManager_get_ticket_status identifier w
    = (Ok r, with_lookup identifier w).
Proof.
  unfold DatabaseManager_get_ticket_status, bind, modify, get, try_except, lift.
  destruct (pool (db_manager (with_lookup identifier w))) as [p |];
    [| eexists; reflexivity].
  destruct (acquire p) as [conn | e]; [| eexists; reflexivity].
  destruct (fetchrow conn _ _) as [[row |] | e]; eexists; reflexivity.
Qed.

Lemma lookup_unreachable identifier w :
  store_unreachable w ->
  DatabaseManager_get_ticket_status identifier w
  = (Ok None, with_lookup identifier w).
Proof.
  unfold DatabaseManager_get_ticket_status, bind, modify, get, try_except, lift.
  cbn [db_manager with_lookup].
  intros [Hnone | (p & Hp & Hdown)]; [rewrite Hnone; reflexivity |].
  rewrite Hp.
  destruct Hdown as [[e He] | (conn & Hc & Hq)].
  - rewrite He. reflexivity.
  - rewrite Hc. destruct (Hq (strip identifier) (u "%" ++ strip identifier ++ u "%"))
      as [e He]. rewrite He. reflexivity.
Qed.

(** The identifier short-circuit: a text that carries a valid identifier is
    answered from the store before the session is looked at. *)
Lemma identifier_short_circuit text sid l w identifier ty :
  detect_ticket_id_or_mobile text = Ok (Some identifier, Some ty) ->
  identifier <> [] ->
  process_maha_aastha_query text sid l w
  = match DatabaseManager_get_ticket_status identifier w with
    | (Ok (Some row), w1) => (Ok (status_response row identifier (Some ty) l), w1)
    | (Ok None, w1) => (Ok (not_found_reply identifier (Some ty) l), w1)
    | (Raise _, w1) => (Ok (database_error (MAHA_AASTHA_KNOWLEDGE_BASE l)), w1)
    end.
Proof.
  intros Hdet Hne. unfold process_maha_aastha_query.
  rewrite (bind_ok _ _ w _ w (f_equal (fun r => (r, w)) Hdet)).
  destruct identifier as [| c t]; [congruence |].
  cbn [truthy found andb from_option Datatypes.id]. unfold try_except, bind, ret.
  destruct (DatabaseManager_get_ticket_status (c :: t) w) as [[[row |] | e] w1];
    reflexivity.
Qed.

Lemma contains_unfold p s :
  contains p s
  = startswith s p || match s with [] => false | _ :: t => contains p t end.
Proof. destruct s; reflexivity. Qed.

Lemma contains_here p s : contains p (p ++ s) = true.
Proof.
  rewrite contains_unfold.
  assert (H : startswith (p ++ s) p = true).
  { induction p as [| c p IH]; cbn; [destruct s; reflexivity |].
    rewrite Z.eqb_refl, IH. reflexivity. }
  rewrite H. reflexivity.
Qed.

Lemma contains_later p a s : contains p s = true -> contains p (a ++ s) = true.
Proof.
  intros H. induction a as [| c a IH]; [exact H |].
  rewrite contains_unfold. cbn [app]. rewrite IH. apply orb_true_r.
Qed.

End Runs.

(** ** The identifier short-circuit *)

Lemma startswith_app s t p : startswith s p = true -> startswith (s ++ t) p = true.
Proof.
  revert p. induction s as [| c s IH]; intros [| d p] H;
    try reflexivity; try discriminate H.
  - destruct t; reflexivity.
  - cbn in H |- *. apply andb_prop in H as [H1 H2].
    rewrite H1, (IH _ H2). reflexivity.
Qed.

Lemma contains_before p s t : contains p s = true -> contains p (s ++ t) = true.
Proof.
  induction s as [| c s IH].
  - destruct p; [destruct t; reflexivity | discriminate].
  - rewrite (contains_unfold p (c :: s)), (contains_unfold p ((c :: s) ++ t)).
    intros H. apply orb_prop in H as [H | H].
    + rewrite (startswith_app _ t _ H). reflexivity.
    + cbn [app]. rewrite (IH H). apply orb_true_r.
Qed.

(** The status reply names the ticket code and the status of the row. *)
Lemma status_response_mentions row identifier ty l :
  contains (fmt (ticket row)) (status_response row identifier ty l) = true
  /\ contains (fmt (status row)) (status_response row identifier ty l) = true.
Proof.
  unfold status_response, format_simple_ticket_status.
  split; apply contains_before; destruct l;
    repeat first [apply contains_here | apply contains_later].
Qed.

Lemma ticket_not_found_is_not_mobile_reply l :
  ticket_not_found (MAHA_AASTHA_KNOWLEDGE_BASE l)
  <> not_found_reply (u "9876543210") (Some mobile_number_type) l.
Proof. destruct l; vm_compute; intros H; discriminate H. Qed.

Lemma not_found_is_not_database_error identifier ty l :
  not_found_reply identifier ty l
  <> database_error (MAHA_AASTHA_KNOWLEDGE_BASE l).
Proof. destruct ty as [[|] |], l; vm_compute; intros H; discriminate H. Qed.

(** C1, at the failing input "9876543210": the ten digits are taken for a
    ticket ID (a run of six or more digits), so when the store has no record
    the reply is the generic not-found message and not the message that
    names the mobile number; the sessions are not touched.  The
    /ticket/status/ handler classifies the same text as a mobile number. *)
Theorem bare_mobile_number_gets_generic_not_found :
  forall (l : language) (sid : str) (w : world),
    fst (DatabaseManager_get_ticket_status (u "9876543210") w) = Ok None ->
    exists w',
      process_maha_aastha_query (u "9876543210") sid l w
      = (Ok (ticket_not_found (MAHA_AASTHA_KNOWLEDGE_BASE l)), w')
      /\ ticket_not_found (MAHA_AASTHA_KNOWLEDGE_BASE l)
         <> not_found_reply (u "9876543210") (Some mobile_number_type) l
      /\ USER_SESSION_STATE w' = USER_SESSION_STATE w
      /\ detect_ticket_id_or_mobile (u "9876543210")
         = Ok (Some (u "9876543210"), Some ticket_id_type)
      /\ search_method (u "9876543210") = mobile_number_type.
Proof.
  intros l sid w Hnone.
  assert (Hdet : detect_ticket_id_or_mobile (u "9876543210")
                 = Ok (Some (u "9876543210"), Some ticket_id_type))
    by (vm_compute; reflexivity).
  assert (Hne : u "9876543210" <> []) by (vm_compute; discriminate).
  rewrite (identifier_short_circuit _ sid l w _ _ Hdet Hne).
  destruct (lookup_run (u "9876543210") w) as [r Hr].
  rewrite Hr in Hnone |- *. cbn [fst] in Hnone. injection Hnone as ->.
  eexists. split; [reflexivity |].
  split; [apply ticket_not_found_is_not_mobile_reply |].
  split; [reflexivity |]. split; [exact Hdet | vm_compute; reflexivity].
Qed.

Lemma bare_mobile_number_gets_generic_not_found_witness :
  exists w',
    process_maha_aastha_query (u "9876543210") (u "s1") en
      (one_session (constant_store (Ok None)) (u "s1") initial)
    = (Ok (ticket_not_found KB_en), w')
    /\ stage_of w' (u "s1") = initial.
Proof.
  destruct (bare_mobile_number_gets_generic_not_found en (u "s1")
              (one_session (constant_store (Ok None)) (u "s1") initial))
    as (w' & Hrun & _ & Hsess & _).
  - vm_compute. reflexivity.
  - exists w'. split; [exact Hrun |].
    unfold stage_of. rewrite Hsess. vm_compute. reflexivity.
Defined.

(** C2, at the failing input: in stage [waiting_for_ticket_id] the text
    "TKT-ab12cd" is answered by the identifier short-circuit.  The reply
    shows the ticket code and the status "Resolved" of the record, but the
    short-circuit returns before the session is looked at: the stage stays
    [waiting_for_ticket_id] and does not become [status_shown]. *)
Theorem waiting_stage_lookup_keeps_stage :
  forall (l : language) (sid : str) (w : world) (row : TicketRow),
    stage_of w sid = waiting_for_ticket_id ->
    fst (DatabaseManager_get_ticket_status (u "TKT-ab12cd") w) = Ok (Some row) ->
    ticket row = Some (u "TKT-ab12cd") ->
    status row = Some (u "Resolved") ->
    exists reply w',
      process_maha_aastha_query (u "TKT-ab12cd") sid l w = (Ok reply, w')
      /\ contains (u "TKT-ab12cd") reply = true
      /\ contains (u "Resolved") reply = true
      /\ stage_of w' sid = waiting_for_ticket_id
      /\ stage_of w' sid <> status_shown.
Proof.
  intros l sid w row Hstage Hrow Hticket Hstatus.
  assert (Hdet : detect_ticket_id_or_mobile (u "TKT-ab12cd")
                 = Ok (Some (u "TKT-ab12cd"), Some ticket_id_type))
    by (vm_compute; reflexivity).
  assert (Hne : u "TKT-ab12cd" <> []) by (vm_compute; discriminate).
  rewrite (identifier_short_circuit _ sid l w _ _ Hdet Hne).
  destruct (lookup_run (u "TKT-ab12cd") w) as [r Hr].
  rewrite Hr in Hrow |- *. cbn [fst] in Hrow. injection Hrow as ->.
  eexists _, _. split; [reflexivity |].
  destruct (status_response_mentions row (u "TKT-ab12cd") (Some ticket_id_type) l)
    as [Ht Hs].
  rewrite Hticket in Ht. rewrite Hstatus in Hs.
  split; [exact Ht |]. split; [exact Hs |].
  assert (Hsame : stage_of (with_lookup (u "TKT-ab12cd") w) sid
                  = waiting_for_ticket_id) by exact Hstage.
  split; [exact Hsame |]. rewrite Hsame. discriminate.
Qed.

(** C3, at the failing inputs: whatever text carries a valid identifier,
    when the store is out of reach the lookup answers [None] (the failure is
    caught inside [DatabaseManager.get_ticket_status]), so the engine replies
    with the not-found message, which is not the database-error message.
    The sessions are not touched, and the same call made again gives the
    same reply. *)
Theorem store_failure_reported_as_not_found `{UCD : UnicodeData} :
  forall (text sid : str) (l : language) (w : world)
         (identifier : str) (ty : identifier_type),
    detect_ticket_id_or_mobile text = Ok (Some identifier, Some ty) ->
    identifier <> [] ->
    store_unreachable w ->
    let reply := not_found_reply identifier (Some ty) l in
    let w' := with_lookup identifier w in
    process_maha_aastha_query text sid l w = (Ok reply, w')
    /\ reply <> database_error (MAHA_AASTHA_KNOWLEDGE_BASE l)
    /\ USER_SESSION_STATE w' = USER_SESSION_STATE w
    /\ process_maha_aastha_query text sid l w'
       = (Ok reply, with_lookup identifier w').
Proof.
  intros text sid l w identifier ty Hdet Hne Hdown reply w'.
  assert (Hdown' : store_unreachable w') by exact Hdown.
  rewrite !(identifier_short_circuit _ sid l _ _ _ Hdet Hne).
  rewrite (lookup_unreachable _ _ Hdown), (lookup_unreachable _ _ Hdown').
  split; [reflexivity |].
  split; [apply not_found_is_not_database_error |].
  split; reflexivity.
Qed.

Lemma store_failure_reported_as_not_found_witness :
  process_maha_aastha_query (u "TKT-ab12cd") (u "s1") en
    (one_session unreachable_store (u "s1") initial)
  = (Ok (not_found_reply (u "TKT-ab12cd") (Some ticket_id_type) en),
     with_lookup (u "TKT-ab12cd") (one_session unreachable_store (u "s1") initial))
  /\ not_found_reply (u "TKT-ab12cd") (Some ticket_id_type) en
     <> database_error (MAHA_AASTHA_KNOWLEDGE_BASE en).
Proof.
  assert (Hdet : detect_ticket_id_or_mobile (u "TKT-ab12cd")
                 = Ok (Some (u "TKT-ab12cd"), Some ticket_id_type))
    by (vm_compute; reflexivity).
  assert (Hne : u "TKT-ab12cd" <> []) by (vm_compute; discriminate).
  assert (Hdown : store_unreachable (one_session unreachable_store (u "s1") initial)).
  { right. exists {| acquire := Raise (ExternalError (u "connection refused")) |}.
    split; [reflexivity |]. left. eexists. reflexivity. }
  pose proof (store_failure_reported_as_not_found (u "TKT-ab12cd") (u "s1") en
                _ _ _ Hdet Hne Hdown) as H.
  cbv zeta in H. destruct H as (Hrun & Hdiff & _). split; assumption.
Defined.

Lemma waiting_stage_lookup_keeps_stage_witness :
  exists reply w',
    process_maha_aastha_query (u "TKT-ab12cd") (u "s1") en
      (one_session (constant_store (Ok (Some resolved_row))) (u "s1")
         waiting_for_ticket_id)
    = (Ok reply, w')
    /\ contains (u "TKT-ab12cd") reply = true
    /\ contains (u "Resolved") reply = true
    /\ stage_of w' (u "s1") = waiting_for_ticket_id
    /\ stage_of w' (u "s1") <> status_shown.
Proof.
  assert (Hstage : stage_of (one_session (constant_store (Ok (Some resolved_row)))
                               (u "s1") waiting_for_ticket_id) (u "s1")
                   = waiting_for_ticket_id) by (vm_compute; reflexivity).
  assert (Hrow : fst (DatabaseManager_get_ticket_status (u "TKT-ab12cd")
                        (one_session (constant_store (Ok (Some resolved_row)))
                           (u "s1") waiting_for_ticket_id))
                 = Ok (Some resolved_row)) by (vm_compute; reflexivity).
  exact (waiting_stage_lookup_keeps_stage en (u "s1") _ resolved_row
           Hstage Hrow eq_refl eq_refl).
Defined.

(** ** The stage machine *)

(** What the detectors say about the plain answers "yes", "होय" and "no". *)
Lemma plain_answer_facts (text : str) (l : language) :
  text = u "yes" \/ text = u "होय" \/ text = u "no" ->
  detect_ticket_id_or_mobile text = Ok (None, None)
  /\ detect_exact_status_question text l = false
  /\ contains (u "feedback") (lower text)
     || contains (u "अभिप्राय") (lower text) = false
  /\ detect_yes_no_response text l
     = (if str_eqb text (u "no") then no else yes).
Proof.
  intros [-> | [-> | ->]]; destruct l; repeat split; vm_compute; reflexivity.
Qed.

Ltac read_stage_with Hlook :=
  rewrite (bind_ok _ _ _ _ _ (read_stage_run _ _ _ Hlook)).

(** C6: from stage [initial] the answers "yes" and "होय" lead to
    [registration_info] with the registration-link reply; from stage
    [feedback_question] the answer "no" leads to [completed] with the
    closing message, and so not to [initial]. *)
Theorem yes_registers_and_no_completes :
  forall (l : language) (sid : str) (w : world),
    let kb := MAHA_AASTHA_KNOWLEDGE_BASE l in
    (stage_of w sid = initial ->
     forall text, text = u "yes" \/ text = u "होय" ->
       exists w',
         process_maha_aastha_query text sid l w
         = (Ok (yes_response_intro kb ++ nl ++ nl ++ yes_response_link kb), w')
         /\ stage_of w' sid = registration_info)
    /\ (stage_of w sid = feedback_question ->
        exists w',
          process_maha_aastha_query (u "no") sid l w
          = (Ok (no_response kb), w')
          /\ stage_of w' sid = completed
          /\ stage_of w' sid <> initial).
Proof.
  intros l sid w kb. split.
  - intros Hst text Htext.
    destruct (plain_answer_facts text l) as (H1 & H2 & H3 & H4);
      [tauto |].
    assert (H5 : detect_yes_no_response text l = yes).
    { rewrite H4. destruct Htext as [-> | ->]; vm_compute; reflexivity. }
    unfold process_maha_aastha_query. rewrite H1, H2, H3, H5.
    cbn [bind lift ret truthy found andb].
    destruct (ensure_session_run sid l w) as (w1 & st & Hrun & Hlook & Hstage & _).
    rewrite (bind_ok _ _ _ _ _ Hrun).
    read_stage_with Hlook. rewrite Hstage, Hst.
    rewrite bool_decide_eq_false_2 by discriminate. cbv beta iota.
    read_stage_with Hlook. rewrite Hstage, Hst.
    rewrite bool_decide_eq_false_2 by discriminate. cbv beta iota.
    read_stage_with Hlook. rewrite Hstage, Hst.
    rewrite bool_decide_eq_true_2 by reflexivity. cbn [orb]. cbv beta iota.
    destruct (set_stage_run sid registration_info w1) as (w2 & Hset & _ & Hnew).
    rewrite (bind_ok _ _ _ _ _ Hset).
    exists w2. split; [reflexivity |]. apply Hnew. rewrite Hlook. eauto.
  - intros Hst.
    destruct (plain_answer_facts (u "no") l) as (H1 & H2 & H3 & H4);
      [tauto |].
    assert (H5 : detect_yes_no_response (u "no") l = no).
    { rewrite H4. vm_compute. reflexivity. }
    unfold process_maha_aastha_query. rewrite H1, H2, H3, H5.
    cbn [bind lift ret truthy found andb].
    destruct (ensure_session_run sid l w) as (w1 & st & Hrun & Hlook & Hstage & _).
    rewrite (bind_ok _ _ _ _ _ Hrun).
    read_stage_with Hlook. rewrite Hstage, Hst.
    rewrite bool_decide_eq_false_2 by discriminate. cbv beta iota.
    read_stage_with Hlook. rewrite Hstage, Hst.
    rewrite bool_decide_eq_true_2 by reflexivity. cbv beta iota.
    destruct (set_stage_run sid completed w1) as (w2 & Hset & _ & Hnew).
    rewrite (bind_ok _ _ _ _ _ Hset).
    exists w2. split; [reflexivity |].
    assert (Hdone : stage_of w2 sid = completed)
      by (apply Hnew; rewrite Hlook; eauto).
    split; [exact Hdone |]. rewrite Hdone. discriminate.
Qed.

Lemma yes_registers_and_no_completes_witness :
  (exists w',
      process_maha_aastha_query (u "होय") (u "s1") mr
        (fresh_world (constant_store (Ok None)))
      = (Ok (yes_response_intro (MAHA_AASTHA_KNOWLEDGE_BASE mr) ++ nl ++ nl
             ++ yes_response_link (MAHA_AASTHA_KNOWLEDGE_BASE mr)), w')
      /\ stage_of w' (u "s1") = registration_info)
  /\ (exists w',
         process_maha_aastha_query (u "no") (u "s1") en
           (one_session (constant_store (Ok None)) (u "s1") feedback_question)
         = (Ok (no_response (MAHA_AASTHA_KNOWLEDGE_BASE en)), w')
         /\ stage_of w' (u "s1") = completed
         /\ stage_of w' (u "s1") <> initial).
Proof.
  assert (Hfresh : stage_of (fresh_world (constant_store (Ok None))) (u "s1")
                   = initial) by (vm_compute; reflexivity).
  assert (Hfb : stage_of (one_session (constant_store (Ok None)) (u "s1")
                            feedback_question) (u "s1")
                = feedback_question) by (vm_compute; reflexivity).
  pose proof (yes_registers_and_no_completes mr (u "s1")
                (fresh_world (constant_store (Ok None)))) as Hyes.
  pose proof (yes_registers_and_no_completes en (u "s1")
                (one_session (constant_store (Ok None)) (u "s1")
                   feedback_question)) as Hno.
  cbv zeta in Hyes, Hno.
  split.
  - exact (proj1 Hyes Hfresh (u "होय") (or_intror eq_refl)).
  - exact (proj2 Hno Hfb).
Defined.

(** ** Greetings at the /query/ endpoint *)

(** C10: when [detect_greeting] finds a greeting in the text of a request
    (a non-empty query in a supported language), the endpoint answers with
    the greeting reply; no identifier lookup is made and the sessions, hence
    every stage, are left as they were, whatever else the text carries. *)
Theorem greeting_overrides_dialogue `{UCD : UnicodeData} :
  forall (env : environment) (request : QueryRequest) (w : world)
         (l : language) (key : str),
    strip (input_text request) <> [] ->
    parse_language (lower (language_field request)) = Some l ->
    detect_greeting (strip (input_text request)) = (true, key) ->
    exists sid w',
      process_query env request w
      = (Ok (QueryReply (greeting_reply l key) (lower (language_field request))
               sid (lower (language_field request))), w')
      /\ lookups w' = lookups w
      /\ USER_SESSION_STATE w' = USER_SESSION_STATE w
      /\ forall s, stage_of w' s = stage_of w s.
Proof.
  intros env request w l key Hne Hlang Hgreet.
  unfold process_query. cbv zeta.
  rewrite bool_decide_eq_false_2 by exact Hne.
  rewrite Hlang, Hgreet. cbv beta iota.
  unfold bind, count_total, count_successful, add_to_chat_history, modify, ret.
  eexists _, _. split; [reflexivity |].
  split; [reflexivity |]. split; [reflexivity |]. intros s. reflexivity.
Qed.

Lemma greeting_overrides_dialogue_witness :
  detect_ticket_id_or_mobile (u "hello TKT-ab12cd")
  = Ok (Some (u "TKT-ab12cd"), Some ticket_id_type)
  /\ exists sid w',
       process_query sample_environment hello_with_ticket
         (one_session (constant_store (Ok (Some resolved_row))) (u "s1")
            waiting_for_ticket_id)
       = (Ok (QueryReply (greeting_reply en (u "hello"))
                (lower (language_field hello_with_ticket)) sid
                (lower (language_field hello_with_ticket))), w')
       /\ lookups w' = []
       /\ stage_of w' (u "s1") = waiting_for_ticket_id.
Proof.
  split; [vm_compute; reflexivity |].
  assert (Hne : strip (input_text hello_with_ticket) <> [])
    by (vm_compute; discriminate).
  assert (Hlang : parse_language (lower (language_field hello_with_ticket))
                  = Some en) by (vm_compute; reflexivity).
  assert (Hgreet : detect_greeting (strip (input_text hello_with_ticket))
                   = (true, u "hello")) by (vm_compute; reflexivity).
  destruct (greeting_overrides_dialogue sample_environment hello_with_ticket
              (one_session (constant_store (Ok (Some resolved_row))) (u "s1")
                 waiting_for_ticket_id) en (u "hello") Hne Hlang Hgreet)
    as (sid & w' & Hrun & Hlook & _ & Hstage).
  exists sid, w'. split; [exact Hrun |]. split; [exact Hlook |].
  rewrite Hstage. vm_compute. reflexivity.
Defined.

(** ** The ratings ledger *)

Section Ledger.
Context `{UCD : UnicodeData}.

Lemma keeps_ret {A} (a : A) : keeps_saved (ret a).
Proof. intros w H. exact H. Qed.

Lemma keeps_raise {A} (e : exn) : keeps_saved (@raise A e).
Proof. intros w H. exact H. Qed.

Lemma keeps_lift {A} (r : result A) : keeps_saved (lift r).
Proof. intros w H. exact H. Qed.

Lemma keeps_get : keeps_saved get.
Proof. intros w H. exact H. Qed.

Lemma keeps_bind {A B} (m : M A) (f : A -> M B) :
  keeps_saved m -> (forall a, keeps_saved (f a)) ->
  keeps_saved (bind m f).
Proof.
  intros Hm Hf w H. specialize (Hm w H). unfold bind.
  destruct (m w) as [[a | e] w1]; cbn [snd] in *; [apply Hf; exact Hm | exact Hm].
Qed.

Lemma keeps_try {A} (m : M A) (h : exn -> M A) :
  keeps_saved m -> (forall e, keeps_saved (h e)) ->
  keeps_saved (try_except m h).
Proof.
  intros Hm Hh w H. specialize (Hm w H). unfold try_except.
  destruct (m w) as [[a | e] w1]; cbn [snd] in *; [exact Hm | apply Hh; exact Hm].
Qed.

Lemma keeps_modify (f : world -> world) :
  (forall w, RATINGS_DATA (f w) = RATINGS_DATA w) -> keeps_saved (modify f).
Proof. intros Hf w H. cbn. rewrite Hf. exact H. Qed.

Lemma keeps_append (e : rating_entry) :
  saved e ->
  keeps_saved (modify (with_ratings (fun data => data ++ [e]))).
Proof.
  intros He w H. cbn. apply Forall_app. split; [exact H |].
  constructor; [exact He | constructor].
Qed.

Lemma saved_entry now rating session_id language ticket_id label :
  RATING_LABELS language rating = Some label ->
  saved (make_rating_entry now rating session_id language ticket_id label).
Proof. intros H. do 6 eexists. split; [exact H | reflexivity]. Qed.

(** The label that [lookup_label] hands on is the catalog's. *)
Lemma keeps_lookup_label {B} language rating (f : str -> M B) :
  (forall label, RATING_LABELS language rating = Some label ->
                 keeps_saved (f label)) ->
  keeps_saved (bind (lookup_label language rating) f).
Proof.
  intros Hf w H. unfold bind, lookup_label.
  destruct (RATING_LABELS language rating) as [label |] eqn:E.
  - apply (Hf label eq_refl). exact H.
  - exact H.
Qed.

Lemma keeps_JSONResponse {A} strings (response : A) :
  keeps_saved (JSONResponse strings response).
Proof.
  unfold JSONResponse. destruct (forallb is_text strings);
    [apply keeps_ret | apply keeps_raise].
Qed.

Ltac keeps_step :=
  first
    [ apply keeps_ret | apply keeps_raise | apply keeps_lift | apply keeps_get
    | apply keeps_JSONResponse
    | apply keeps_modify; intros ?; reflexivity
    | apply keeps_bind; [| intros ?]
    | apply keeps_try; [| intros ?]
    | match goal with
      | |- keeps_saved (if ?b then _ else _) => destruct b
      | |- keeps_saved (let '(_, _) := ?p in _) => destruct p
      | |- keeps_saved (match ?x with _ => _ end) => destruct x
      end ].

Ltac keeps := repeat keeps_step.

Lemma keeps_set_stage sid s : keeps_saved (set_stage sid s).
Proof. unfold set_stage. keeps. Qed.

Lemma keeps_read_stage sid : keeps_saved (read_stage sid).
Proof. unfold read_stage. keeps. Qed.

Lemma keeps_ensure_session sid l : keeps_saved (ensure_session sid l).
Proof. unfold ensure_session. keeps. Qed.

Lemma keeps_lookup identifier :
  keeps_saved (DatabaseManager_get_ticket_status identifier).
Proof. unfold DatabaseManager_get_ticket_status. keeps. Qed.

Lemma keeps_staged_lookup identifier ty sid l :
  keeps_saved (staged_lookup identifier ty sid l).
Proof.
  unfold staged_lookup, get_ticket_status.
  apply keeps_try; [| intros ?; apply keeps_ret].
  apply keeps_bind; [apply keeps_lookup |].
  intros [row |]; [| apply keeps_ret].
  apply keeps_bind; [apply keeps_set_stage | intros ?; apply keeps_ret].
Qed.

Ltac keeps_engine :=
  repeat first
    [ apply keeps_set_stage | apply keeps_read_stage | apply keeps_ensure_session
    | apply keeps_lookup | apply keeps_staged_lookup
    | keeps_step ].

Lemma keeps_engine_query text sid l :
  keeps_saved (process_maha_aastha_query text sid l).
Proof. unfold process_maha_aastha_query. keeps_engine. Qed.

Lemma keeps_process_query env request : keeps_saved (process_query env request).
Proof.
  unfold process_query, count_total, count_successful, count_failed,
    add_to_chat_history. cbv zeta.
  repeat first [ apply keeps_engine_query | keeps_step ].
Qed.

Lemma keeps_add_to_chat_history env sid a b c :
  keeps_saved (add_to_chat_history env sid a b c).
Proof. unfold add_to_chat_history. keeps. Qed.

Lemma keeps_save_rating_data env rating sid language ticket_id feedback_text :
  keeps_saved (save_rating_data env rating sid language ticket_id feedback_text).
Proof.
  unfold save_rating_data.
  apply keeps_try; [| intros _; apply keeps_try; [| intros _; apply keeps_ret]].
  - apply keeps_lookup_label. intros label Hlabel.
    apply keeps_bind; [apply keeps_lift | intros _].
    apply keeps_bind; [| intros _; apply keeps_ret].
    apply keeps_append. exact (saved_entry _ _ _ _ _ _ Hlabel).
  - apply keeps_lookup_label. intros label Hlabel.
    apply keeps_bind; [| intros _; apply keeps_ret].
    apply keeps_append. exact (saved_entry _ _ _ _ _ _ Hlabel).
Qed.

Lemma keeps_submit_rating env request : keeps_saved (submit_rating env request).
Proof.
  unfold submit_rating. cbv zeta.
  apply keeps_try; [| intros _; apply keeps_ret].
  apply keeps_lookup_label. intros rating_label _.
  apply keeps_bind; [apply keeps_save_rating_data | intros success].
  destruct success; [| apply keeps_ret].
  apply keeps_bind; [destruct (parse_language _); keeps | intros thank_you_msg].
  apply keeps_bind;
    [apply keeps_add_to_chat_history | intros _; apply keeps_JSONResponse].
Qed.

Lemma keeps_export_ratings env : keeps_saved (export_ratings env).
Proof. unfold export_ratings. keeps. Qed.

Lemma keeps_suspend identifier : keeps_saved (suspend identifier).
Proof. unfold suspend, count_total. keeps. Qed.

Lemma keeps_resume env request identifier ty l :
  keeps_saved (resume env request identifier ty l).
Proof.
  unfold resume, count_successful, add_to_chat_history. cbv zeta. keeps.
Qed.

(** Steps that run a handler from its beginning to its end. *)
Lemma reach_start db : reachable (fresh_world db).
Proof. exists []. apply serve_start. Qed.

Lemma reach_query env request w :
  reachable w -> reachable (snd (process_query env request w)).
Proof. intros [pending H]. exists pending. apply serve_query. exact H. Qed.

Lemma reach_rating env request w :
  reachable w -> validate_rating (rq_rating request) = true ->
  reachable (snd (submit_rating env request w)).
Proof.
  intros [pending H] Hvalid. exists pending. apply serve_rating; assumption.
Qed.

Lemma reach_export env w :
  reachable w -> reachable (snd (export_ratings env w)).
Proof. intros [pending H]. exists pending. apply serve_export. exact H. Qed.

(** Every entry of a reachable ledger was built by [save_rating_data]. *)
Lemma reachable_saved w : reachable w -> Forall saved (RATINGS_DATA w).
Proof.
  intros [pending Hserve].
  induction Hserve
    as [db | env request w pending _ IH
       | env request identifier ty l w pending _ IH _
       | env request identifier ty l w before after _ IH _
       | env request w pending _ IH _ | env w pending _ IH].
  - constructor.
  - apply keeps_process_query. exact IH.
  - apply keeps_suspend. exact IH.
  - apply keeps_resume. exact IH.
  - apply keeps_submit_rating. exact IH.
  - apply keeps_export_ratings. exact IH.
Qed.

(** Every entry of a reachable ledger carries the catalog's label. *)
Lemma reachable_labelled w : reachable w -> Forall labelled (RATINGS_DATA w).
Proof.
  intros Hreach. eapply Forall_impl; [exact (reachable_saved w Hreach) |].
  intros e (now & rating & sid & language & ticket_id & label & Hlabel & ->).
  exact Hlabel.
Qed.

End Ledger.

(** *** Encoding *)

Lemma utf8_encode_app a b x y :
  utf8_encode a = Some x -> utf8_encode b = Some y ->
  utf8_encode (a ++ b) = Some (x ++ y).
Proof.
  revert x. induction a as [| c a IH]; cbn [utf8_encode app]; intros x Ha Hb.
  - injection Ha as <-. exact Hb.
  - destruct (utf8_encode_char c) as [bs |]; [| discriminate].
    destruct (utf8_encode a) as [bt |]; [| discriminate].
    injection Ha as <-. rewrite (IH bt eq_refl Hb), app_assoc. reflexivity.
Qed.

Lemma utf8_encode_char_scalar c :
  scalar c = true -> exists bs, utf8_encode_char c = Some bs.
Proof.
  unfold scalar, utf8_encode_char. intros H.
  apply andb_prop in H as [H Hsur]. apply andb_prop in H as [Hlo Hhi].
  apply Z.leb_le in Hlo. apply Z.ltb_lt in Hhi.
  destruct (c <? 0) eqn:E0; [apply Z.ltb_lt in E0; lia |].
  destruct (c <? 128); [eauto |].
  destruct (c <? 2048); [eauto |].
  apply negb_true_iff in Hsur. rewrite Hsur.
  destruct (c <? 65536); [eauto |].
  destruct (c <? 1114112) eqn:E4; [eauto | apply Z.ltb_ge in E4; lia].
Qed.

Lemma utf8_encode_text s :
  is_text s = true -> exists bs, utf8_encode s = Some bs.
Proof.
  induction s as [| c s IH]; cbn [is_text forallb utf8_encode]; [eauto |].
  intros H. apply andb_prop in H as [Hc Hs].
  destruct (utf8_encode_char_scalar c Hc) as [bs ->].
  destruct (IH Hs) as [bt ->]. eauto.
Qed.

Lemma is_text_app a b : is_text (a ++ b) = is_text a && is_text b.
Proof. apply forallb_app. Qed.

Lemma utf8_encode_char_not_scalar c :
  scalar c = false -> utf8_encode_char c = None.
Proof.
  unfold scalar, utf8_encode_char. intros H.
  destruct (c <? 0) eqn:E0; [reflexivity |]. apply Z.ltb_ge in E0.
  destruct (c <? 128) eqn:E1.
  { apply Z.ltb_lt in E1. exfalso. revert H.
    rewrite (proj2 (Z.leb_le 0 c) E0), (proj2 (Z.ltb_lt c 1114112)) by lia.
    rewrite (proj2 (Z.leb_gt 55296 c)) by lia. discriminate. }
  destruct (c <? 2048) eqn:E2.
  { apply Z.ltb_lt in E2. exfalso. revert H.
    rewrite (proj2 (Z.leb_le 0 c) E0), (proj2 (Z.ltb_lt c 1114112)) by lia.
    rewrite (proj2 (Z.leb_gt 55296 c)) by lia. discriminate. }
  destruct ((55296 <=? c) && (c <=? 57343)) eqn:Esur; [reflexivity |].
  destruct (c <? 65536) eqn:E3.
  { apply Z.ltb_lt in E3. exfalso. revert H.
    rewrite (proj2 (Z.leb_le 0 c) E0), (proj2 (Z.ltb_lt c 1114112)) by lia.
    discriminate. }
  destruct (c <? 1114112) eqn:E4; [| reflexivity].
  exfalso. revert H. rewrite (proj2 (Z.leb_le 0 c) E0). discriminate.
Qed.

Lemma utf8_encode_not_text s : is_text s = false -> utf8_encode s = None.
Proof.
  induction s as [| c s IH]; cbn [is_text forallb utf8_encode]; [discriminate |].
  intros H. apply andb_false_iff in H as [Hc | Hs].
  - rewrite (utf8_encode_char_not_scalar c Hc). reflexivity.
  - rewrite (IH Hs). destruct (utf8_encode_char c); reflexivity.
Qed.

Lemma utf8_encode_app_none a b :
  utf8_encode b = None -> utf8_encode (a ++ b) = None.
Proof.
  intros Hb. induction a as [| c a IH]; cbn [utf8_encode app]; [exact Hb |].
  rewrite IH. destruct (utf8_encode_char c); reflexivity.
Qed.

(** Quoting, joining and ending a row add no character that cannot be
    encoded, and drop none. *)
Lemma is_text_csv_field s : is_text (csv_field s) = is_text s.
Proof.
  unfold csv_field. destruct (existsb csv_special s); [| reflexivity].
  rewrite !is_text_app.
  replace (is_text dq) with true by reflexivity.
  rewrite andb_true_r. cbn [andb].
  induction s as [| c s IH]; [reflexivity |].
  cbn [flat_map]. rewrite is_text_app, IH.
  change (is_text (c :: s)) with (scalar c && is_text s). f_equal.
  destruct (c =? DQUOTE) eqn:E; [| apply andb_true_r].
  apply Z.eqb_eq in E. subst c. reflexivity.
Qed.

Lemma is_text_join fields :
  is_text (join_fields fields) = forallb is_text fields.
Proof.
  induction fields as [| f fs IH]; [reflexivity |].
  destruct fs as [| g gs]; [cbn [join_fields forallb]; rewrite andb_true_r; reflexivity |].
  change (join_fields (f :: g :: gs)) with (f ++ [COMMA] ++ join_fields (g :: gs)).
  rewrite !is_text_app, IH. reflexivity.
Qed.

Lemma is_text_csv_row fields :
  is_text (csv_row fields) = forallb is_text fields.
Proof.
  unfold csv_row. rewrite is_text_app, is_text_join.
  replace (is_text [CR; LF]) with true by reflexivity. rewrite andb_true_r.
  induction fields as [| f fs IH]; [reflexivity |].
  cbn [forallb map]. rewrite is_text_csv_field, IH. reflexivity.
Qed.

(** What the catalog holds is text, and so are its keys. *)
Lemma RATING_LABELS_text code rating label :
  RATING_LABELS code rating = Some label ->
  is_text code = true /\ is_text (str_of_int rating) = true
  /\ is_text label = true.
Proof.
  unfold RATING_LABELS, parse_language, str_eqb.
  repeat case_bool_decide; subst; try discriminate;
    (destruct rating as [| p | p]; try discriminate;
     do 3 (try (destruct p as [p | p |]; try discriminate));
     cbn; intros Hlabel; try discriminate Hlabel; injection Hlabel as <-;
     repeat split; vm_compute; reflexivity).
Qed.

(** What the clock stamps is text. *)
Lemma scalar_byte (a : ascii) : scalar (Z.of_N (N_of_ascii a)) = true.
Proof.
  pose proof (N_ascii_bounded a) as H. unfold scalar.
  rewrite (proj2 (Z.leb_le 0 _)), (proj2 (Z.ltb_lt _ 1114112)) by lia.
  rewrite (proj2 (Z.leb_gt 55296 _)) by lia. reflexivity.
Qed.

Lemma is_text_byte_values (s : string) : is_text (byte_values s) = true.
Proof.
  unfold byte_values.
  induction (list_ascii_of_string s) as [| a l IH]; [reflexivity |].
  cbn [map is_text forallb]. rewrite scalar_byte. exact IH.
Qed.

Lemma is_text_pad2 n : is_text (pad2 n) = true.
Proof.
  unfold pad2, str_of_int. destruct (n <? 10); [rewrite is_text_app |];
    rewrite is_text_byte_values; reflexivity.
Qed.

Lemma is_text_strftime now : is_text (strftime_Ymd_HMS now) = true.
Proof.
  unfold strftime_Ymd_HMS. rewrite !is_text_app, !is_text_pad2.
  unfold str_of_int. rewrite is_text_byte_values. reflexivity.
Qed.

(** The fields of a saved entry that the program itself chooses are text. *)
Lemma saved_text e :
  saved e ->
  labelled e
  /\ forallb is_text (modified_row e) = entry_text e.
Proof.
  intros (now & rating & sid & language & ticket_id & label & Hlabel & ->).
  split; [exact Hlabel |].
  destruct (RATING_LABELS_text _ _ _ Hlabel) as (Hcode & Hrating & Htext).
  unfold modified_row, entry_text, make_rating_entry.
  cbn [forallb r_timestamp r_session_id r_rating r_Feedback r_language
         r_ticket_id].
  rewrite is_text_strftime, Hrating, Htext, Hcode. cbn [andb].
  rewrite andb_true_r. reflexivity.
Qed.

(** *** Reading what was written *)

Lemma csv_special_false c :
  csv_special c = false ->
  (c =? COMMA) = false /\ (c =? DQUOTE) = false /\ (c =? CR) = false
  /\ (c =? LF) = false.
Proof.
  unfold csv_special. intros H.
  apply orb_false_elim in H as [H H4]. apply orb_false_elim in H as [H H3].
  apply orb_false_elim in H as [H1 H2]. auto.
Qed.

Lemma csv_reserved_special s : existsb csv_reserved s = existsb csv_special s.
Proof.
  induction s as [| c s IH]; [reflexivity |]. cbn [existsb]. rewrite IH.
  unfold csv_reserved, csv_special. cbn [existsb]. rewrite orb_false_r, !orb_assoc.
  reflexivity.
Qed.

(** A field without reserved characters is read as it stands. *)
Lemma read_plain s :
  existsb csv_special s = false ->
  forall field fields,
    (forall rest,
        csv_read_from InField field fields (s ++ COMMA :: rest)
        = csv_read_from StartField [] (fields ++ [field ++ s]) rest)
    /\ csv_read_from InField field fields (s ++ [CR; LF])
       = Some (fields ++ [field ++ s]).
Proof.
  induction s as [| c s IH]; intros Hs field fields.
  - rewrite app_nil_r. split; [intros rest |]; reflexivity.
  - cbn [existsb] in Hs. apply orb_false_elim in Hs as [Hc Hs].
    destruct (csv_special_false c Hc) as (H1 & H2 & H3 & H4).
    destruct (IH Hs (field ++ [c]) fields) as [IHcomma IHend].
    replace (field ++ c :: s) with ((field ++ [c]) ++ s)
      by (rewrite <- app_assoc; reflexivity).
    split; [intros rest; rewrite <- IHcomma | rewrite <- IHend];
      cbn [app csv_read_from]; rewrite H1, H2, H3, H4; reflexivity.
Qed.

(** A wrapped field is read without its quotes, a doubled quote as one. *)
Lemma read_quoted s :
  forall field fields,
    existsb csv_reserved (field ++ s) = true ->
    (forall rest,
        csv_read_from InQuotedField field fields
          (flat_map (fun c => if c =? DQUOTE then [DQUOTE; DQUOTE] else [c]) s
           ++ dq ++ COMMA :: rest)
        = csv_read_from StartField [] (fields ++ [field ++ s]) rest)
    /\ csv_read_from InQuotedField field fields
         (flat_map (fun c => if c =? DQUOTE then [DQUOTE; DQUOTE] else [c]) s
          ++ dq ++ [CR; LF])
       = Some (fields ++ [field ++ s]).
Proof.
  induction s as [| c s IH]; intros field fields Hres.
  - rewrite app_nil_r in *.
    split; [intros rest |]; cbn [flat_map app dq csv_read_from];
      rewrite Z.eqb_refl; change (COMMA =? DQUOTE) with false;
      change (CR =? DQUOTE) with false; rewrite Hres; reflexivity.
  - assert (Hres' : existsb csv_reserved ((field ++ [c]) ++ s) = true)
      by (rewrite <- app_assoc; exact Hres).
    destruct (IH (field ++ [c]) fields Hres') as [IHcomma IHend].
    replace (field ++ c :: s) with ((field ++ [c]) ++ s)
      by (rewrite <- app_assoc; reflexivity).
    split; [intros rest; rewrite <- IHcomma | rewrite <- IHend];
      cbn [flat_map]; destruct (c =? DQUOTE) eqn:E;
      cbn [app csv_read_from]; rewrite ?Z.eqb_refl, ?E;
      try (apply Z.eqb_eq in E; subst c); reflexivity.
Qed.

(** Every field is read back from what [csv.writer] makes of it. *)
Lemma read_field s fields :
  (forall rest,
      csv_read_from StartField [] fields (csv_field s ++ COMMA :: rest)
      = csv_read_from StartField [] (fields ++ [s]) rest)
  /\ csv_read_from StartField [] fields (csv_field s ++ [CR; LF])
     = Some (fields ++ [s]).
Proof.
  unfold csv_field. destruct (existsb csv_special s) eqn:Hs.
  - assert (Hres : existsb csv_reserved ([] ++ s) = true)
      by (rewrite csv_reserved_special; exact Hs).
    destruct (read_quoted s [] fields Hres) as [Hcomma Hend].
    cbn [app] in Hcomma, Hend.
    split; [intros rest; rewrite <- Hcomma | rewrite <- Hend];
      rewrite <- !app_assoc; cbn [app dq csv_read_from];
      rewrite Z.eqb_refl; reflexivity.
  - destruct s as [| c s].
    + split; [intros rest |]; reflexivity.
    + cbn [existsb] in Hs. apply orb_false_elim in Hs as [Hc Hs].
      destruct (csv_special_false c Hc) as (H1 & H2 & H3 & H4).
      destruct (read_plain s Hs [c] fields) as [Hcomma Hend].
      cbn [app] in Hcomma, Hend.
      split; [intros rest; rewrite <- Hcomma | rewrite <- Hend];
        cbn [app csv_read_from]; rewrite H1, H2, H3, H4; reflexivity.
Qed.

(** And so is every row. *)
Lemma read_row fs :
  forall f fields,
    csv_read_from StartField [] fields (csv_row (f :: fs))
    = Some (fields ++ f :: fs).
Proof.
  induction fs as [| g gs IH]; intros f fields.
  - destruct (read_field f fields) as [_ Hend]. exact Hend.
  - destruct (read_field f fields) as [Hcomma _].
    change (csv_row (f :: g :: gs))
      with ((csv_field f ++ [COMMA] ++ join_fields (map csv_field (g :: gs)))
            ++ [CR; LF]).
    rewrite <- !app_assoc.
    change ([COMMA] ++ join_fields (map csv_field (g :: gs)) ++ [CR; LF])
      with (COMMA :: csv_row (g :: gs)).
    rewrite Hcomma, IH, <- app_assoc. reflexivity.
Qed.

(** *** The export *)

Lemma encode_rows (ledger : list rating_entry) :
  Forall saved ledger ->
  forallb entry_text ledger = true ->
  exists rows,
    utf8_encode (concat (map (fun rating_data => csv_row (modified_row rating_data))
                           ledger)) = Some (concat rows)
    /\ Forall2 exported_row ledger rows.
Proof.
  induction ledger as [| e ledger IH]; intros Hsaved Htext.
  - exists []. split; [reflexivity | constructor].
  - apply Forall_cons in Hsaved as [He Hsaved].
    cbn [forallb] in Htext. apply andb_prop in Htext as [Hte Htext].
    destruct (IH Hsaved Htext) as (rows & Henc & Hrows).
    destruct (saved_text e He) as [Hlabel Hfields].
    assert (Hrow : is_text (csv_row (modified_row e)) = true)
      by (rewrite is_text_csv_row, Hfields; exact Hte).
    destruct (utf8_encode_text _ Hrow) as [row Hrowenc].
    exists (row :: rows). split.
    + cbn [map concat]. apply utf8_encode_app; assumption.
    + constructor; [| exact Hrows].
      exists (r_Feedback e), (csv_row (modified_row e)).
      split; [exact Hlabel |]. split; [| exact Hrowenc].
      exact (read_row _ _ []).
Qed.

Lemma rows_not_text (ledger : list rating_entry) :
  Forall saved ledger ->
  forallb entry_text ledger = false ->
  utf8_encode (concat (map (fun rating_data => csv_row (modified_row rating_data))
                         ledger)) = None.
Proof.
  induction ledger as [| e ledger IH]; intros Hsaved Htext; [discriminate |].
  apply Forall_cons in Hsaved as [He Hsaved].
  cbn [forallb] in Htext. cbn [map concat].
  destruct (saved_text e He) as [_ Hfields].
  apply andb_false_iff in Htext as [Hte | Htext].
  - apply utf8_encode_not_text.
    rewrite is_text_app, is_text_csv_row, Hfields, Hte. reflexivity.
  - apply utf8_encode_app_none, IH; assumption.
Qed.

Lemma encode_header :
  utf8_encode (utf8_bom :: csv_row fieldnames)
  = Some ([0xEF; 0xBB; 0xBF] ++ byte_values header_line ++ [CR; LF]).
Proof. vm_compute. reflexivity. Qed.

(** A ledger that holds a session id or a ticket id with a surrogate is
    not exported: encoding the CSV text raises, and the handler answers
    with status 500. *)
Lemma export_fails_without_text `{UCD : UnicodeData} env w :
  reachable w ->
  RATINGS_DATA w <> [] ->
  forallb entry_text (RATINGS_DATA w) = false ->
  export_ratings env w = (Ok (ExportFailed UnicodeEncodeError), w).
Proof.
  intros Hreach Hne Htext.
  pose proof (rows_not_text _ (reachable_saved w Hreach) Htext) as Hnone.
  unfold export_ratings, try_except, bind, get.
  destruct (RATINGS_DATA w) as [| e ledger] eqn:E; [congruence |].
  change (utf8_bom :: csv_row fieldnames ++ ?x)
    with ((utf8_bom :: csv_row fieldnames) ++ x).
  rewrite (utf8_encode_app_none _ _ Hnone). reflexivity.
Qed.

(** C9, as amended: for a ledger that is not empty and whose session ids
    and ticket ids UTF-8 can encode, the export is the UTF-8 byte-order
    mark, the header line
    [timestamp,session_id,rating,feedback,language,ticket_id], and then one
    CSV row per ledger entry in the order of insertion, whose feedback
    field is the catalog's label for the language and rating of the
    entry. *)
Theorem export_ratings_csv `{UCD : UnicodeData} :
  forall (env : environment) (w : world),
    reachable w ->
    RATINGS_DATA w <> [] ->
    forallb entry_text (RATINGS_DATA w) = true ->
    exists rows,
      export_ratings env w
      = (Ok (ExportCSV
               ([0xEF; 0xBB; 0xBF] ++ byte_values header_line ++ [CR; LF]
                ++ concat rows)
               (u "maha_aastha_ratings_" ++ strftime_Ymd_HMS_compact (clock env)
                ++ u ".csv")), w)
      /\ Forall2 exported_row (RATINGS_DATA w) rows.
Proof.
  intros env w Hreach Hne Htext.
  destruct (encode_rows _ (reachable_saved w Hreach) Htext)
    as (rows & Henc & Hrows).
  exists rows. split; [| exact Hrows].
  unfold export_ratings, try_except, bind, get.
  destruct (RATINGS_DATA w) as [| e ledger] eqn:E; [congruence |].
  change (utf8_bom :: csv_row fieldnames ++ ?x)
    with ((utf8_bom :: csv_row fieldnames) ++ x).
  rewrite (utf8_encode_app _ _ _ _ encode_header Henc).
  unfold ret. rewrite <- !app_assoc. reflexivity.
Qed.

Lemma export_ratings_csv_witness :
  exists rows,
    export_ratings sample_environment
      (snd (submit_rating sample_environment two_stars
              (snd (submit_rating sample_environment five_stars
                      (fresh_world (constant_store (Ok None)))))))
    = (Ok (ExportCSV
             ([0xEF; 0xBB; 0xBF] ++ byte_values header_line ++ [CR; LF]
              ++ concat rows)
             (u "maha_aastha_ratings_"
              ++ strftime_Ymd_HMS_compact (clock sample_environment)
              ++ u ".csv")),
       snd (submit_rating sample_environment two_stars
              (snd (submit_rating sample_environment five_stars
                      (fresh_world (constant_store (Ok None)))))))
    /\ Forall2 exported_row
         (RATINGS_DATA
            (snd (submit_rating sample_environment two_stars
                    (snd (submit_rating sample_environment five_stars
                            (fresh_world (constant_store (Ok None))))))))
         rows.
Proof.
  assert (Hreach : reachable
    (snd (submit_rating sample_environment two_stars
            (snd (submit_rating sample_environment five_stars
                    (fresh_world (constant_store (Ok None))))))))
    by (apply reach_rating;
        [apply reach_rating; [apply reach_start | reflexivity] | reflexivity]).
  assert (Hne : RATINGS_DATA
    (snd (submit_rating sample_environment two_stars
            (snd (submit_rating sample_environment five_stars
                    (fresh_world (constant_store (Ok None))))))) <> [])
    by (vm_compute; discriminate).
  assert (Htext : forallb entry_text (RATINGS_DATA
    (snd (submit_rating sample_environment two_stars
            (snd (submit_rating sample_environment five_stars
                    (fresh_world (constant_store (Ok None)))))))) = true)
    by (vm_compute; reflexivity).
  exact (export_ratings_csv sample_environment _ Hreach Hne Htext).
Defined.

(** The bytes of that export: the mark, the header, the row of the
    five-star rating in Marathi and then the row of the two-star rating,
    whose session id is wrapped in quotes. *)
Example export_of_two_ratings :
  export_ratings sample_environment
    (snd (submit_rating sample_environment two_stars
            (snd (submit_rating sample_environment five_stars
                    (fresh_world (constant_store (Ok None)))))))
  = (Ok (ExportCSV
           ([0xEF; 0xBB; 0xBF]
            ++ byte_values "timestamp,session_id,rating,feedback,language,ticket_id"
            ++ [13; 10]
            ++ byte_values "2024-01-05 10:30:00,s1,5,उत्कृष्ट,mr,TKT-ab12cd"
            ++ [13; 10]
            ++ byte_values "2024-01-05 10:30:00," ++ [34]
            ++ byte_values "desk 4, " ++ [34; 34] ++ byte_values "north"
            ++ [34; 34; 34] ++ byte_values ",2,Fair,en,N/A"
            ++ [13; 10])
           (u "maha_aastha_ratings_20240105_103000.csv")),
     snd (submit_rating sample_environment two_stars
            (snd (submit_rating sample_environment five_stars
                    (fresh_world (constant_store (Ok None))))))).
Proof. vm_compute. reflexivity. Qed.

(** C9, as stated, fails: a rating under a session id that holds a
    surrogate is recorded, so the ledger is reachable and not empty, and
    its export is no CSV file but the answer with status 500. *)
Lemma export_fails_on_surrogate_session :
  reachable
    (snd (submit_rating unwritable_environment surrogate_rating
            (fresh_world (constant_store (Ok None)))))
  /\ RATINGS_DATA
       (snd (submit_rating unwritable_environment surrogate_rating
               (fresh_world (constant_store (Ok None)))))
     <> []
  /\ export_ratings sample_environment
       (snd (submit_rating unwritable_environment surrogate_rating
               (fresh_world (constant_store (Ok None)))))
     = (Ok (ExportFailed UnicodeEncodeError),
        snd (submit_rating unwritable_environment surrogate_rating
               (fresh_world (constant_store (Ok None))))).
Proof.
  split; [| split].
  - apply reach_rating; [apply reach_start | reflexivity].
  - vm_compute. discriminate.
  - vm_compute. reflexivity.
Qed.

(** ** The stage [status_shown] *)

Section StatusShown.
Context `{UCD : UnicodeData}.

(** What identifier detection can answer: an identifier with its kind, or
    neither. *)
Lemma detect_shape text identifier ty :
  detect_ticket_id_or_mobile text = Ok (identifier, ty) ->
  truthy identifier && found ty = true \/ (identifier = None /\ ty = None).
Proof.
  unfold detect_ticket_id_or_mobile, rbind.
  destruct (detect_ticket_id text) as [ticket_id | e]; [| discriminate].
  destruct (truthy ticket_id && validate_ticket_id_format (default [] ticket_id))
    eqn:Hticket.
  - intros H. injection H as <- <-. left.
    apply andb_prop in Hticket as [-> _]. reflexivity.
  - destruct (detect_mobile_number text) as [mobile_number | e]; [| discriminate].
    destruct (truthy mobile_number
              && validate_mobile_number_format (default [] mobile_number))
      eqn:Hmobile; intros H; injection H as <- <-.
    + left. apply andb_prop in Hmobile as [-> _]. reflexivity.
    + right. split; reflexivity.
Qed.

Variable sid : str.

Lemma avoids_ret {A} (a : A) : avoids_status_shown sid (ret a).
Proof. intros w H. exact H. Qed.

Lemma avoids_lift {A} (r : result A) : avoids_status_shown sid (lift r).
Proof. intros w H. exact H. Qed.

Lemma avoids_bind {A B} (m : M A) (f : A -> M B) :
  avoids_status_shown sid m -> (forall a, avoids_status_shown sid (f a)) ->
  avoids_status_shown sid (bind m f).
Proof.
  intros Hm Hf w H. specialize (Hm w H). unfold bind.
  destruct (m w) as [[a | e] w1]; cbn [snd] in *; [apply Hf; exact Hm | exact Hm].
Qed.

Lemma avoids_try {A} (m : M A) (h : exn -> M A) :
  avoids_status_shown sid m -> (forall e, avoids_status_shown sid (h e)) ->
  avoids_status_shown sid (try_except m h).
Proof.
  intros Hm Hh w H. specialize (Hm w H). unfold try_except.
  destruct (m w) as [[a | e] w1]; cbn [snd] in *; [exact Hm | apply Hh; exact Hm].
Qed.

Lemma avoids_lookup identifier :
  avoids_status_shown sid (DatabaseManager_get_ticket_status identifier).
Proof.
  intros w H. destruct (lookup_run identifier w) as [r ->]. exact H.
Qed.

Lemma avoids_read_stage s : avoids_status_shown sid (read_stage s).
Proof.
  intros w H. unfold read_stage, bind, get.
  destruct (USER_SESSION_STATE w !! s); exact H.
Qed.

Lemma avoids_ensure_session s l : avoids_status_shown sid (ensure_session s l).
Proof.
  intros w H. unfold ensure_session, bind, get.
  destruct (USER_SESSION_STATE w !! s) as [st |] eqn:E; [exact H |].
  unfold stage_of in *. cbn.
  destruct (decide (s = sid)) as [-> | Hne].
  - rewrite lookup_insert_eq. discriminate.
  - rewrite lookup_insert_ne by exact Hne. exact H.
Qed.

Lemma avoids_set_stage s new :
  new <> status_shown -> avoids_status_shown sid (set_stage s new).
Proof.
  intros Hnew w H. unfold stage_of in *. cbn.
  destruct (decide (s = sid)) as [-> | Hne].
  - rewrite lookup_alter_eq. destruct (USER_SESSION_STATE w !! sid); [exact Hnew | exact H].
  - rewrite lookup_alter_ne by exact Hne. exact H.
Qed.

Ltac avoids_step :=
  first
    [ apply avoids_ret | apply avoids_lift | apply avoids_lookup
    | apply avoids_read_stage | apply avoids_ensure_session
    | apply avoids_set_stage; discriminate
    | apply avoids_bind; [| intros ?]
    | apply avoids_try; [| intros ?]
    | match goal with
      | |- avoids_status_shown sid (if ?b then _ else _) => destruct b
      | |- avoids_status_shown sid (match ?x with _ => _ end) => destruct x
      end ].

(** The engine never moves a session into [status_shown]: the two branches
    that would do so ask for an identifier in a text in which the
    short-circuit has just found none. *)
Lemma avoids_bind_value {A B} (a : A) (f : A -> M B) :
  avoids_status_shown sid (f a) -> avoids_status_shown sid (bind (lift (Ok a)) f).
Proof. intros Hf w H. exact (Hf w H). Qed.

Lemma engine_never_shows_status text s l :
  avoids_status_shown sid (process_maha_aastha_query text s l).
Proof.
  unfold process_maha_aastha_query.
  destruct (detect_ticket_id_or_mobile text) as [[identifier ty] | e] eqn:Hdet;
    [| intros w H; exact H].
  apply avoids_bind_value.
  destruct (detect_shape _ _ _ Hdet) as [Hfound | [-> ->]].
  - rewrite Hfound. repeat avoids_step.
  - cbn [truthy found andb].
    apply avoids_bind; [apply avoids_ensure_session | intros _].
    cbv zeta.
    destruct (detect_exact_status_question text l).
    + apply avoids_bind_value. cbn [truthy andb]. repeat avoids_step.
    + apply avoids_bind; [apply avoids_read_stage | intros current].
      destruct (bool_decide (current = waiting_for_ticket_id)).
      * apply avoids_bind_value. cbn [truthy andb]. repeat avoids_step.
      * repeat avoids_step.
Qed.

End StatusShown.

(** * Further properties *)

(** ** The engine on a text with an identifier, and on a failed detection *)

Section EngineEntry.
Context `{UCD : UnicodeData}.

(** A text with an identifier is answered without touching the sessions. *)
Lemma engine_identifier_run text sid l w identifier ty :
  detect_ticket_id_or_mobile text = Ok (Some identifier, ty) ->
  exists reply,
    process_maha_aastha_query text sid l w
    = (Ok reply, with_lookup identifier w).
Proof.
  intros Hdet.
  destruct (detect_shape _ _ _ Hdet) as [Hfound | [Hnone _]]; [| discriminate].
  destruct ty as [ty |]; [| destruct identifier; discriminate].
  assert (Hne : identifier <> []) by (destruct identifier; [discriminate | congruence]).
  rewrite (identifier_short_circuit _ _ _ _ _ _ Hdet Hne).
  destruct (lookup_run identifier w) as [[row |] ->]; eexists; reflexivity.
Qed.

Lemma engine_raises text sid l w e :
  detect_ticket_id_or_mobile text = Raise e ->
  process_maha_aastha_query text sid l w = (Raise e, w).
Proof.
  intros Hdet. unfold process_maha_aastha_query, bind, lift. rewrite Hdet.
  reflexivity.
Qed.

End EngineEntry.

(** ** Framing *)

Section Frames.
Context `{UCD : UnicodeData}.
Variable R : world -> world -> Prop.
Hypothesis R_refl : forall w, R w w.
Hypothesis R_trans : forall a b c, R a b -> R b c -> R a c.

Lemma frames_ret {A} (a : A) : frames R (ret a).
Proof. intros w. apply R_refl. Qed.

Lemma frames_raise {A} (e : exn) : frames R (@raise A e).
Proof. intros w. apply R_refl. Qed.

Lemma frames_lift {A} (r : result A) : frames R (lift r).
Proof. intros w. apply R_refl. Qed.

Lemma frames_get : frames R get.
Proof. intros w. apply R_refl. Qed.

Lemma frames_modify (f : world -> world) :
  (forall w, R w (f w)) -> frames R (modify f).
Proof. intros H w. apply H. Qed.

Lemma frames_JSONResponse {A} strings (response : A) :
  frames R (JSONResponse strings response).
Proof.
  intros w. unfold JSONResponse.
  destruct (forallb is_text strings); apply R_refl.
Qed.

Lemma frames_bind {A B} (m : M A) (f : A -> M B) :
  frames R m -> (forall a, frames R (f a)) -> frames R (bind m f).
Proof.
  intros Hm Hf w. specialize (Hm w). unfold bind.
  destruct (m w) as [[a | e] w1]; cbn [snd] in *;
    [exact (R_trans _ _ _ Hm (Hf a w1)) | exact Hm].
Qed.

Lemma frames_try {A} (m : M A) (h : exn -> M A) :
  frames R m -> (forall e, frames R (h e)) -> frames R (try_except m h).
Proof.
  intros Hm Hh w. specialize (Hm w). unfold try_except.
  destruct (m w) as [[a | e] w1]; cbn [snd] in *;
    [exact Hm | exact (R_trans _ _ _ Hm (Hh e w1))].
Qed.

Lemma frames_bind_value {A B} (a : A) (f : A -> M B) :
  frames R (f a) -> frames R (bind (lift (Ok a)) f).
Proof. intros Hf w. exact (Hf w). Qed.

Lemma frames_read_stage s : frames R (read_stage s).
Proof.
  intros w. unfold read_stage, bind, get.
  destruct (USER_SESSION_STATE w !! s); apply R_refl.
Qed.

Lemma frames_lookup identifier :
  (forall w, R w (with_lookup identifier w)) ->
  frames R (DatabaseManager_get_ticket_status identifier).
Proof. intros H w. destruct (lookup_run identifier w) as [r ->]. apply H. Qed.

Section Session.

(** The two ways the engine writes to the session table. *)
Variable sid : str.
Hypothesis R_insert :
  forall w st, USER_SESSION_STATE w !! sid = None ->
               R w (with_sessions (insert sid st) w).
Hypothesis R_alter :
  forall w f, R w (with_sessions (alter f sid) w).

Lemma frames_ensure_session l : frames R (ensure_session sid l).
Proof.
  intros w. unfold ensure_session, bind, get.
  destruct (USER_SESSION_STATE w !! sid) eqn:E; [apply R_refl |].
  apply R_insert. exact E.
Qed.

Lemma frames_set_stage s : frames R (set_stage sid s).
Proof. intros w. apply R_alter. Qed.

Ltac frames_step :=
  first
    [ apply frames_ret | apply frames_lift | apply frames_read_stage
    | apply frames_ensure_session | apply frames_set_stage
    | apply frames_bind; [| intros ?]
    | match goal with
      | |- frames R (if ?b then _ else _) => destruct b
      | |- frames R (match ?x with _ => _ end) => destruct x
      end ].

(** A text without an identifier only moves the session's stage: the two
    lookups of the stage machine are not reached. *)
Lemma frames_engine_no_identifier text l :
  detect_ticket_id_or_mobile text = Ok (None, None) ->
  frames R (process_maha_aastha_query text sid l).
Proof.
  intros Hdet. unfold process_maha_aastha_query. rewrite Hdet.
  apply frames_bind_value. cbn [truthy found andb].
  apply frames_bind; [apply frames_ensure_session | intros _].
  cbv zeta.
  destruct (detect_exact_status_question text l).
  - apply frames_bind_value. cbn [truthy andb]. repeat frames_step.
  - apply frames_bind; [apply frames_read_stage | intros current].
    destruct (bool_decide (current = waiting_for_ticket_id)).
    + apply frames_bind_value. cbn [truthy andb]. repeat frames_step.
    + repeat frames_step.
Qed.

Hypothesis R_lookup : forall identifier w, R w (with_lookup identifier w).

Lemma frames_engine text l : frames R (process_maha_aastha_query text sid l).
Proof.
  destruct (detect_ticket_id_or_mobile text) as [[[identifier |] ty] | e] eqn:Hdet.
  - intros w.
    destruct (engine_identifier_run text sid l w _ _ Hdet) as [reply ->].
    apply R_lookup.
  - destruct (detect_shape _ _ _ Hdet) as [Hfound | [_ ->]]; [discriminate |].
    apply frames_engine_no_identifier. exact Hdet.
  - intros w. rewrite (engine_raises text sid l w e Hdet). apply R_refl.
Qed.

End Session.

(** The request handlers, given what their writes do to [R]. *)
Section Handlers.

Variable sid : str.
Hypothesis R_engine :
  forall text l, frames R (process_maha_aastha_query text sid l).
Hypothesis R_status : forall f w, R w (with_status f w).
Hypothesis R_history :
  forall e w,
    R w (with_history
           (fun h => <[sid := take 50 (e :: default [] (h !! sid))]> h) w).

Lemma frames_add_to_chat_history env a b c :
  frames R (add_to_chat_history env sid a b c).
Proof. intros w. apply R_history. Qed.

Lemma frames_count_total : frames R count_total.
Proof. intros w. apply R_status. Qed.

Lemma frames_count_successful : frames R count_successful.
Proof. intros w. apply R_status. Qed.

Lemma frames_count_failed e : frames R (count_failed e).
Proof. intros w. apply R_status. Qed.

Ltac frames_handler_step :=
  first
    [ apply frames_ret | apply frames_lift | apply frames_raise
    | apply frames_JSONResponse
    | apply frames_count_total | apply frames_count_successful
    | apply frames_count_failed | apply frames_add_to_chat_history
    | apply R_engine
    | apply frames_bind; [| intros ?]
    | apply frames_try; [| intros ?]
    | match goal with
      | |- frames R (if ?b then _ else _) => destruct b
      | |- frames R (match ?x with _ => _ end) => destruct x
      end ].

Lemma frames_process_query env request :
  session_of env (session_id request) = sid ->
  frames R (process_query env request).
Proof.
  intros Hsid. unfold process_query. unfold session_of in Hsid. rewrite Hsid.
  cbv zeta. repeat frames_handler_step.
Qed.

(** The two halves of a query that awaits the store. *)
Lemma frames_suspend identifier :
  (forall w, R w (with_lookup identifier w)) -> frames R (suspend identifier).
Proof.
  intros R_lookup. unfold suspend.
  apply frames_bind; [apply frames_count_total | intros _].
  apply frames_modify. exact R_lookup.
Qed.

Lemma frames_resume env request identifier ty l :
  session_of env (session_id request) = sid ->
  frames R (resume env request identifier ty l).
Proof.
  intros Hsid. unfold resume. unfold session_of in Hsid. rewrite Hsid.
  cbv zeta. apply frames_bind; [apply frames_get | intros w0].
  repeat frames_handler_step.
Qed.

Hypothesis R_append :
  forall e w, R w (with_ratings (fun data => data ++ [e]) w).

Lemma frames_lookup_label {B} language rating (f : str -> M B) :
  (forall label, frames R (f label)) ->
  frames R (bind (lookup_label language rating) f).
Proof.
  intros Hf. apply frames_bind; [| exact Hf].
  unfold lookup_label. destruct (RATING_LABELS language rating);
    [apply frames_ret | apply frames_raise].
Qed.

Lemma frames_save_rating_data env rating session language ticket_id feedback_text :
  frames R (save_rating_data env rating session language ticket_id feedback_text).
Proof.
  unfold save_rating_data.
  repeat first
    [ apply frames_lookup_label; intros ?
    | apply frames_modify; intros ?; apply R_append
    | frames_handler_step ].
Qed.

Lemma frames_submit_rating env request :
  session_of env (rq_session_id request) = sid ->
  frames R (submit_rating env request).
Proof.
  intros Hsid. unfold submit_rating. unfold session_of in Hsid. rewrite Hsid.
  cbv zeta.
  repeat first
    [ apply frames_lookup_label; intros ?
    | apply frames_save_rating_data
    | frames_handler_step ].
Qed.

End Handlers.

Lemma frames_export_ratings env : frames R (export_ratings env).
Proof.
  unfold export_ratings.
  repeat first
    [ apply frames_ret | apply frames_raise | apply frames_get
    | apply frames_bind; [| intros ?]
    | apply frames_try; [| intros ?]
    | match goal with
      | |- frames R (match ?x with _ => _ end) => destruct x
      end ].
Qed.

End Frames.

(** ** The engine: identifiers, lookups and failures *)

Section EngineRuns.
Context `{UCD : UnicodeData}.

Lemma returns_ret {A} I (a : A) : returns I (ret a).
Proof. intros w H. exists a, w. split; [reflexivity | exact H]. Qed.

Lemma returns_bind {A B} I (m : M A) (f : A -> M B) :
  returns I m -> (forall a, returns I (f a)) -> returns I (bind m f).
Proof.
  intros Hm Hf w H. destruct (Hm w H) as (a & w1 & Hrun & H1).
  rewrite (bind_ok _ _ _ _ _ Hrun). apply Hf. exact H1.
Qed.

Lemma returns_bind_value {A B} I (a : A) (f : A -> M B) :
  returns I (f a) -> returns I (bind (lift (Ok a)) f).
Proof. intros Hf w H. exact (Hf w H). Qed.

Lemma returns_read_stage sid : returns (stored sid) (read_stage sid).
Proof.
  intros w [st H]. exists (session_stage st), w.
  split; [apply read_stage_run; exact H | exists st; exact H].
Qed.

Lemma returns_set_stage sid s : returns (stored sid) (set_stage sid s).
Proof.
  intros w [st H]. eexists tt, _. split; [reflexivity |].
  unfold stored. cbn. rewrite lookup_alter_eq, H. eexists. reflexivity.
Qed.

Ltac returns_step :=
  first
    [ apply returns_ret | apply returns_read_stage | apply returns_set_stage
    | apply returns_bind; [| intros ?]
    | match goal with
      | |- returns _ (if ?b then _ else _) => destruct b
      | |- returns _ (match ?x with _ => _ end) => destruct x
      end ].

Lemma engine_returns text sid l w d :
  detect_ticket_id_or_mobile text = Ok d ->
  exists reply w', process_maha_aastha_query text sid l w = (Ok reply, w').
Proof.
  intros Hdet. destruct d as [[identifier |] ty].
  - destruct (engine_identifier_run text sid l w _ _ Hdet) as [reply H].
    eauto.
  - destruct (detect_shape _ _ _ Hdet) as [Hfound | [_ ->]]; [discriminate |].
    destruct (ensure_session_run sid l w) as (w1 & st & Hrun & Hst & _).
    assert (Hstored : stored sid w1) by (exists st; exact Hst).
    unfold process_maha_aastha_query.
    rewrite (bind_ok _ _ w _ w (f_equal (fun r => (r, w)) Hdet)).
    cbn [truthy found andb]. rewrite (bind_ok _ _ _ _ _ Hrun). cbv zeta.
    match goal with
    | |- exists reply w', ?m w1 = _ =>
      enough (Hret : returns (stored sid) m)
        by (destruct (Hret w1 Hstored) as (reply & w' & H & _); eauto)
    end.
    rewrite Hdet.
    destruct (detect_exact_status_question text l).
    + apply returns_bind_value. cbn [truthy andb]. repeat returns_step.
    + apply returns_bind; [apply returns_read_stage | intros current].
      destruct (bool_decide (current = waiting_for_ticket_id)).
      * apply returns_bind_value. cbn [truthy andb]. repeat returns_step.
      * repeat returns_step.
Qed.

End EngineRuns.

(** X1: the dialogue engine fails exactly when identifier detection fails:
    the exception of [detect_ticket_id_or_mobile] is passed on with the
    state untouched, and in every other case the engine returns a reply. *)
Theorem engine_fails_exactly_when_detection_fails `{UCD : UnicodeData} :
  forall (text sid : str) (l : language) (w : world),
    match detect_ticket_id_or_mobile text with
    | Raise e => process_maha_aastha_query text sid l w = (Raise e, w)
    | Ok _ =>
      exists reply w', process_maha_aastha_query text sid l w = (Ok reply, w')
    end.
Proof.
  intros text sid l w.
  destruct (detect_ticket_id_or_mobile text) as [d | e] eqn:Hdet.
  - exact (engine_returns text sid l w d Hdet).
  - exact (engine_raises text sid l w e Hdet).
Qed.

(** X2: the store is consulted exactly when the text carries an identifier:
    then the engine makes one lookup, of that identifier, and leaves the
    rest of the state as it was (no session is created or moved); a text
    without an identifier, or one on which detection fails, causes no
    lookup. *)
Theorem store_consulted_exactly_when_identifier_found `{UCD : UnicodeData} :
  forall (text sid : str) (l : language) (w : world),
    let w' := snd (process_maha_aastha_query text sid l w) in
    match detect_ticket_id_or_mobile text with
    | Ok (Some identifier, _) => w' = with_lookup identifier w
    | _ => lookups w' = lookups w
    end.
Proof.
  intros text sid l w.
  destruct (detect_ticket_id_or_mobile text) as [[[identifier |] ty] | e] eqn:Hdet;
    cbv zeta.
  - destruct (engine_identifier_run text sid l w _ _ Hdet) as [reply ->].
    reflexivity.
  - destruct (detect_shape _ _ _ Hdet) as [Hfound | [_ ->]]; [discriminate |].
    apply (frames_engine_no_identifier (fun w w' => lookups w' = lookups w));
      [reflexivity | congruence | reflexivity | reflexivity | exact Hdet].
  - rewrite (engine_raises text sid l w e Hdet). reflexivity.
Qed.

(** ** The /query/ endpoint, case by case *)

Section QueryCases.
Context `{UCD : UnicodeData}.

(** The one string of the 400 response for an unsupported language can be
    encoded exactly when the language can. *)
Lemma unsupported_language_text (language : str) :
  forallb is_text
    [u "Language '" ++ language ++ u "' not supported. Use: en, mr"]
  = is_text language.
Proof.
  cbn [forallb]. unfold is_text. rewrite !forallb_app.
  replace (forallb scalar (u "Language '")) with true by (vm_compute; reflexivity).
  replace (forallb scalar (u "' not supported. Use: en, mr")) with true
    by (vm_compute; reflexivity).
  cbn [andb]. rewrite !andb_true_r. reflexivity.
Qed.

Lemma process_query_cases env request w :
  let text := strip (input_text request) in
  let language := lower (language_field request) in
  let sid := session_of env (session_id request) in
  let w0 := snd (count_total w) in
  let answered reply w1 :=
    (Ok (QueryReply reply language sid language),
     snd (add_to_chat_history env sid text reply language
            (snd (count_successful w1)))) in
  (text = []
   /\ exists msg,
        process_query env request w
        = (Ok (QueryError 400 msg), snd (count_failed None w0)))
  \/ (text <> [] /\ parse_language language = None
      /\ process_query env request w
         = (if is_text language
            then Ok (QueryError 400
                       (u "Language '" ++ language
                        ++ u "' not supported. Use: en, mr"))
            else Raise UnicodeEncodeError,
            snd (count_failed None w0)))
  \/ (exists l key,
        text <> [] /\ parse_language language = Some l
        /\ detect_greeting text = (true, key)
        /\ process_query env request w = answered (greeting_reply l key) w0)
  \/ (exists l key reply w1,
        text <> [] /\ parse_language language = Some l
        /\ detect_greeting text = (false, key)
        /\ process_maha_aastha_query text sid l w0 = (Ok reply, w1)
        /\ process_query env request w = answered reply w1)
  \/ (exists l key e w1 msg,
        text <> [] /\ parse_language language = Some l
        /\ detect_greeting text = (false, key)
        /\ process_maha_aastha_query text sid l w0 = (Raise e, w1)
        /\ process_query env request w
           = (Ok (QueryError 500 msg), snd (count_failed (Some e) w1))).
Proof.
  cbv zeta. unfold process_query, session_of.
  rewrite (bind_ok _ _ w tt (snd (count_total w)) eq_refl). cbv zeta.
  case_bool_decide as Htext.
  { left. split; [exact Htext |]. eexists. reflexivity. }
  right.
  destruct (parse_language (lower (language_field request))) as [l |] eqn:Hlang.
  2: { left. split; [exact Htext | split; [reflexivity |]].
       unfold JSONResponse. rewrite unsupported_language_text.
       destruct (is_text (lower (language_field request))); reflexivity. }
  right.
  destruct (detect_greeting (strip (input_text request))) as [[|] key] eqn:Hgreet.
  { left. exists l, key. repeat split; auto. }
  right. unfold try_except.
  match goal with
  | |- context [process_maha_aastha_query ?t ?s l] =>
    destruct (process_maha_aastha_query t s l (snd (count_total w)))
      as [[reply | e] w1] eqn:Hrun
  end.
  - left. exists l, key, reply, w1. repeat split; auto.
    rewrite (bind_ok _ _ _ _ _ Hrun). reflexivity.
  - right. exists l, key, e, w1. eexists. repeat split; auto.
    rewrite (bind_raise _ _ _ _ _ Hrun). reflexivity.
Qed.

End QueryCases.

(** X3: the HTTP status of a /query/ response.  The handler answers every
    request but one kind: for a text that is not empty in an unsupported
    language that UTF-8 cannot encode, building the 400 response raises
    [UnicodeEncodeError].  Each other request is answered; the status is
    400 exactly for an empty text or an unsupported language, 500 exactly
    when the text is no greeting and identifier detection raises on it,
    and 200 otherwise. *)
Theorem query_status_code `{UCD : UnicodeData} :
  forall (env : environment) (request : QueryRequest) (w : world),
    let text := strip (input_text request) in
    let language := lower (language_field request) in
    if negb (bool_decide (text = [])) && negb (found (parse_language language))
       && negb (is_text language)
    then exists w', process_query env request w = (Raise UnicodeEncodeError, w')
    else
      exists response w',
        process_query env request w = (Ok response, w')
        /\ status_code response
           = if bool_decide (text = []) || negb (found (parse_language language))
             then 400
             else if fst (detect_greeting text) then 200
             else match detect_ticket_id_or_mobile text with
                  | Ok _ => 200
                  | Raise _ => 500
                  end.
Proof.
  intros env request w. cbv zeta.
  destruct (process_query_cases env request w)
    as [[Htext [msg Hrun]]
       | [(Htext & Hlang & Hrun)
         | [(l & key & Htext & Hlang & Hgreet & Hrun)
           | [(l & key & reply & w1 & Htext & Hlang & Hgreet & Heng & Hrun)
             | (l & key & e & w1 & msg & Htext & Hlang & Hgreet & Heng & Hrun)]]]];
    rewrite Hrun.
  - rewrite Htext. cbn [negb andb orb]. do 2 eexists. split; reflexivity.
  - rewrite bool_decide_eq_false_2 by exact Htext. rewrite Hlang.
    cbn [found negb andb orb].
    destruct (is_text (lower (language_field request))); cbn [negb].
    + do 2 eexists. split; reflexivity.
    + eexists. reflexivity.
  - rewrite bool_decide_eq_false_2 by exact Htext. rewrite Hlang, Hgreet.
    cbn [found negb andb orb fst]. do 2 eexists. split; reflexivity.
  - rewrite bool_decide_eq_false_2 by exact Htext. rewrite Hlang, Hgreet.
    cbn [found negb andb orb fst]. do 2 eexists. split; [reflexivity |].
    cbn [status_code].
    destruct (detect_ticket_id_or_mobile (strip (input_text request)))
      as [d | e] eqn:Hdet; [reflexivity |].
    rewrite (engine_raises _ _ _ _ _ Hdet) in Heng. discriminate.
  - rewrite bool_decide_eq_false_2 by exact Htext. rewrite Hlang, Hgreet.
    cbn [found negb andb orb fst]. do 2 eexists. split; [reflexivity |].
    cbn [status_code].
    destruct (detect_ticket_id_or_mobile (strip (input_text request)))
      as [d | e'] eqn:Hdet; [| reflexivity].
    destruct (engine_returns _ (session_of env (session_id request)) l
                (snd (count_total w)) _ Hdet) as (reply & w' & Hok).
    rewrite Hok in Heng. discriminate.
Qed.

(** A query in a language that holds a lone surrogate, as the handler
    meets it when it is called past the request validation: it is counted
    as failed, and building the 400 response raises. *)
Example query_in_unencodable_language_raises :
  let run :=
    process_query sample_environment
      {| input_text := u "hello"; session_id := None;
         language_field := u "e" ++ [0xD800] |}
      (fresh_world (constant_store (Ok None))) in
  fst run = Raise UnicodeEncodeError
  /\ SYSTEM_STATUS (snd run)
     = {| total_queries := 1; successful_queries := 0; failed_queries := 1;
          last_error := None |}.
Proof. vm_compute. split; reflexivity. Qed.

(** ** Sessions are served apart *)

Section Isolation.
Context `{UCD : UnicodeData}.
Variable sid : str.

Lemma outside_refl (w : world) : same_outside_session sid w w.
Proof. repeat split. Qed.

Lemma outside_trans a b c :
  same_outside_session sid a b -> same_outside_session sid b c ->
  same_outside_session sid a c.
Proof.
  intros (Hs1 & Hr1 & Hd1) (Hs2 & Hr2 & Hd2). split; [| split; congruence].
  intros s Hne. destruct (Hs1 s Hne) as [E1 E2], (Hs2 s Hne) as [E3 E4].
  split; congruence.
Qed.

Lemma outside_sessions (w : world)
    (f : gmap str session_state -> gmap str session_state) :
  (forall s m, s <> sid -> f m !! s = m !! s) ->
  same_outside_session sid w (with_sessions f w).
Proof.
  intros Hf. split; [| split; reflexivity].
  intros s Hne. split; [apply Hf; exact Hne | reflexivity].
Qed.

Lemma outside_history (w : world) (e : chat_entry) :
  same_outside_session sid w
    (with_history (fun h => <[sid := take 50 (e :: default [] (h !! sid))]> h) w).
Proof.
  split; [| split; reflexivity].
  intros s Hne. split; [reflexivity |]. cbn.
  apply lookup_insert_ne. congruence.
Qed.

Lemma outside_engine text l :
  frames (same_outside_session sid) (process_maha_aastha_query text sid l).
Proof.
  apply frames_engine.
  - exact outside_refl.
  - exact outside_trans.
  - intros w st _. apply outside_sessions. intros s m Hne.
    apply lookup_insert_ne. congruence.
  - intros w f. apply outside_sessions. intros s m Hne.
    apply lookup_alter_ne. congruence.
  - intros identifier w. repeat split.
Qed.

End Isolation.

(** X4: a query changes nothing that belongs to another session: the
    state and the chat history of every session but the one the request is
    served under, the ratings ledger and the store are the same after the
    request as before it. *)
Theorem query_leaves_other_sessions_alone `{UCD : UnicodeData} :
  forall (env : environment) (request : QueryRequest) (w : world),
    same_outside_session (session_of env (session_id request)) w
      (snd (process_query env request w)).
Proof.
  intros env request.
  change (frames (same_outside_session (session_of env (session_id request)))
            (process_query env request)).
  eapply frames_process_query.
  - apply outside_refl.
  - apply outside_trans.
  - apply outside_engine.
  - intros f w0. repeat split.
  - intros e w0. apply outside_history.
  - reflexivity.
Qed.

(** ** A stage that is never left, and one that is never reached *)

Section Stages.
Context `{UCD : UnicodeData}.

Lemma stage_of_stored w sid s :
  stage_of w sid = s -> s <> initial ->
  exists st, USER_SESSION_STATE w !! sid = Some st /\ session_stage st = s.
Proof.
  unfold stage_of. destruct (USER_SESSION_STATE w !! sid) as [st |];
    [eauto | congruence].
Qed.

Lemma ensure_session_stored sid l w st :
  USER_SESSION_STATE w !! sid = Some st -> ensure_session sid l w = (Ok tt, w).
Proof. intros H. unfold ensure_session, bind, get. rewrite H. reflexivity. Qed.

(** In stage [waiting_for_ticket_id] the engine asks for an identifier
    again, whatever the text. *)
Lemma engine_keeps_waiting text sid l w :
  stage_of w sid = waiting_for_ticket_id ->
  stage_of (snd (process_maha_aastha_query text sid l w)) sid
  = waiting_for_ticket_id.
Proof.
  intros Hw.
  destruct (detect_ticket_id_or_mobile text) as [[[identifier |] ty] | e] eqn:Hdet.
  - destruct (engine_identifier_run text sid l w _ _ Hdet) as [reply ->].
    exact Hw.
  - destruct (detect_shape _ _ _ Hdet) as [Hfound | [_ ->]]; [discriminate |].
    destruct (stage_of_stored _ _ _ Hw) as (st & Hlook & Hst); [discriminate |].
    unfold process_maha_aastha_query.
    rewrite (bind_ok _ _ w _ w (f_equal (fun r => (r, w)) Hdet)).
    cbn [truthy found andb].
    rewrite (bind_ok _ _ _ _ _ (ensure_session_stored sid l w st Hlook)).
    cbv zeta.
    destruct (detect_exact_status_question text l).
    + rewrite (bind_ok _ _ w _ w (f_equal (fun r => (r, w)) Hdet)).
      cbn [truthy andb].
      destruct (set_stage_run sid waiting_for_ticket_id w) as (w2 & Hset & _ & Hnew).
      rewrite (bind_ok _ _ _ _ _ Hset). cbn [ret snd]. apply Hnew. eauto.
    + read_stage_with Hlook. rewrite Hst.
      rewrite bool_decide_eq_true_2 by reflexivity. cbv beta iota.
      rewrite (bind_ok _ _ w _ w (f_equal (fun r => (r, w)) Hdet)).
      cbn [truthy andb]. exact Hw.
  - rewrite (engine_raises text sid l w e Hdet). exact Hw.
Qed.

Lemma outside_stage s sid w w' :
  s <> sid -> same_outside_session s w w' -> stage_of w' sid = stage_of w sid.
Proof.
  intros Hne (Hs & _). unfold stage_of.
  destruct (Hs sid) as [-> _]; [congruence | reflexivity].
Qed.

End Stages.

(** X5: a session in stage [waiting_for_ticket_id] stays there: whatever
    query is served next, under that session or another one, with or
    without an identifier, the session is in [waiting_for_ticket_id]
    afterwards. *)
Theorem waiting_for_ticket_id_is_never_left `{UCD : UnicodeData} :
  forall (env : environment) (request : QueryRequest) (w : world) (sid : str),
    stage_of w sid = waiting_for_ticket_id ->
    stage_of (snd (process_query env request w)) sid = waiting_for_ticket_id.
Proof.
  intros env request w sid. revert w.
  change (frames (fun w w' => stage_of w sid = waiting_for_ticket_id ->
                              stage_of w' sid = waiting_for_ticket_id)
            (process_query env request)).
  assert (R_trans : forall a b c : world,
             (stage_of a sid = waiting_for_ticket_id ->
              stage_of b sid = waiting_for_ticket_id) ->
             (stage_of b sid = waiting_for_ticket_id ->
              stage_of c sid = waiting_for_ticket_id) ->
             stage_of a sid = waiting_for_ticket_id ->
             stage_of c sid = waiting_for_ticket_id)
    by (intros a b c Hab Hbc Ha; exact (Hbc (Hab Ha))).
  eapply (frames_process_query _ (fun w H => H) R_trans
            (session_of env (session_id request))).
  - intros text l w Hw.
    destruct (decide (session_of env (session_id request) = sid)) as [-> | Hne].
    + apply engine_keeps_waiting. exact Hw.
    + rewrite (outside_stage _ sid w _ Hne (outside_engine _ text l w)).
      exact Hw.
  - intros f w Hw. exact Hw.
  - intros e w Hw. exact Hw.
  - reflexivity.
Qed.

Lemma waiting_for_ticket_id_is_never_left_witness :
  stage_of
    (snd (process_query sample_environment
            {| input_text := u "yes"; session_id := Some (u "s1");
               language_field := u "en" |}
            (one_session (constant_store (Ok None)) (u "s1")
               waiting_for_ticket_id)))
    (u "s1")
  = waiting_for_ticket_id.
Proof.
  assert (H : stage_of (one_session (constant_store (Ok None)) (u "s1")
                          waiting_for_ticket_id) (u "s1")
              = waiting_for_ticket_id) by (vm_compute; reflexivity).
  exact (waiting_for_ticket_id_is_never_left sample_environment _ _ _ H).
Defined.

(** X6: no session is ever in stage [status_shown]: in every state the
    process can reach by serving queries, rating submissions and exports,
    each session is in another stage. *)
Theorem no_session_reaches_status_shown `{UCD : UnicodeData} :
  forall w : world,
    reachable w -> forall sid : str, stage_of w sid <> status_shown.
Proof.
  intros w Hreach sid.
  set (R := fun w w' : world =>
              stage_of w sid <> status_shown -> stage_of w' sid <> status_shown).
  assert (R_refl : forall w, R w w) by (intros ? H; exact H).
  assert (R_trans : forall a b c, R a b -> R b c -> R a c)
    by (intros a b c Hab Hbc Ha; exact (Hbc (Hab Ha))).
  destruct Hreach as [pending Hserve].
  induction Hserve
    as [db | env request w pending _ IH
       | env request identifier ty l w pending _ IH _
       | env request identifier ty l w before after _ IH _
       | env request w pending _ IH _ | env w pending _ IH].
  - unfold stage_of, fresh_world. cbn. rewrite lookup_empty. discriminate.
  - revert IH. apply (frames_process_query R R_refl R_trans
                        (session_of env (session_id request))).
    + intros text l. apply engine_never_shows_status.
    + intros f w0 H. exact H.
    + intros e w0 H. exact H.
    + reflexivity.
  - assert (F : frames R (suspend identifier)).
    { apply frames_suspend;
        [exact R_trans | intros f w0 H; exact H | intros w0 H; exact H]. }
    exact (F w IH).
  - assert (F : frames R (resume env request identifier ty l)).
    { apply frames_resume with (sid := session_of env (session_id request));
        [exact R_refl | exact R_trans | intros f w0 H; exact H
        | intros e w0 H; exact H | reflexivity]. }
    exact (F w IH).
  - revert IH. apply (frames_submit_rating R R_refl R_trans
                        (session_of env (rq_session_id request))).
    + intros e w0 H. exact H.
    + intros e w0 H. exact H.
    + reflexivity.
  - revert IH. apply (frames_export_ratings R R_refl R_trans).
Qed.

Lemma no_session_reaches_status_shown_witness :
  let w :=
    snd (process_query sample_environment
           {| input_text := u "TKT-ab12cd"; session_id := Some (u "s1");
              language_field := u "en" |}
           (snd (process_query sample_environment
                   {| input_text := u "check status"; session_id := Some (u "s1");
                      language_field := u "en" |}
                   (fresh_world (constant_store (Ok (Some resolved_row))))))) in
  reachable w /\ stage_of w (u "s1") <> status_shown.
Proof.
  cbv zeta.
  assert (H : reachable
    (snd (process_query sample_environment
           {| input_text := u "TKT-ab12cd"; session_id := Some (u "s1");
              language_field := u "en" |}
           (snd (process_query sample_environment
                   {| input_text := u "check status"; session_id := Some (u "s1");
                      language_field := u "en" |}
                   (fresh_world (constant_store (Ok (Some resolved_row)))))))))
    by (apply reach_query, reach_query, reach_start).
  split; [exact H |].
  exact (no_session_reaches_status_shown _ H (u "s1")).
Defined.

(** ** Counting queries *)

Section Accounting.
Context `{UCD : UnicodeData}.

(** The engine writes to the session table and to nothing else of the
    program's state. *)
Lemma engine_touches_sessions_only text sid l w :
  let w' := snd (process_maha_aastha_query text sid l w) in
  CHAT_HISTORY w' = CHAT_HISTORY w /\ SYSTEM_STATUS w' = SYSTEM_STATUS w
  /\ RATINGS_DATA w' = RATINGS_DATA w /\ db_manager w' = db_manager w.
Proof.
  revert w.
  apply (frames_engine
           (fun w w' => CHAT_HISTORY w' = CHAT_HISTORY w
                        /\ SYSTEM_STATUS w' = SYSTEM_STATUS w
                        /\ RATINGS_DATA w' = RATINGS_DATA w
                        /\ db_manager w' = db_manager w)).
  - intros w. repeat split.
  - intros a b c (H1 & H2 & H3 & H4) (H5 & H6 & H7 & H8).
    repeat split; congruence.
  - intros w st _. repeat split.
  - intros w f. repeat split.
  - intros identifier w. repeat split.
Qed.

Lemma query_accounting env request w :
  let s := SYSTEM_STATUS w in
  let s' := SYSTEM_STATUS (snd (process_query env request w)) in
  total_queries s' = total_queries s + 1
  /\ successful_queries s' + failed_queries s'
     = successful_queries s + failed_queries s + 1.
Proof.
  cbv zeta.
  destruct (process_query_cases env request w)
    as [[Htext [msg Hrun]]
       | [(Htext & Hlang & Hrun)
         | [(l & key & Htext & Hlang & Hgreet & Hrun)
           | [(l & key & reply & w1 & Htext & Hlang & Hgreet & Heng & Hrun)
             | (l & key & e & w1 & msg & Htext & Hlang & Hgreet & Heng & Hrun)]]]];
    rewrite Hrun; cbn;
    try (destruct (engine_touches_sessions_only
                     (strip (input_text request))
                     (session_of env (session_id request)) l
                     (snd (count_total w))) as (_ & Hs & _);
         rewrite Heng in Hs; cbn in Hs; rewrite Hs; cbn);
    lia.
Qed.

End Accounting.

(** X7: every query is counted once, by its outcome: [total_queries] grows
    by one, and so does [successful_queries] when the response has status
    200, [failed_queries] when it has status 400 or 500 or when the handler
    raises while it builds the response; the other counter stays. *)
Theorem query_counted_by_outcome `{UCD : UnicodeData} :
  forall (env : environment) (request : QueryRequest) (w : world),
    let run := process_query env request w in
    let s := SYSTEM_STATUS w in
    let s' := SYSTEM_STATUS (snd run) in
    let ok := match fst run with
              | Ok response => if status_code response =? 200 then 1 else 0
              | Raise _ => 0
              end in
    total_queries s' = total_queries s + 1
    /\ successful_queries s' = successful_queries s + ok
    /\ failed_queries s' = failed_queries s + (1 - ok).
Proof.
  intros env request w. cbv zeta.
  destruct (process_query_cases env request w)
    as [[Htext [msg Hrun]]
       | [(Htext & Hlang & Hrun)
         | [(l & key & Htext & Hlang & Hgreet & Hrun)
           | [(l & key & reply & w1 & Htext & Hlang & Hgreet & Heng & Hrun)
             | (l & key & e & w1 & msg & Htext & Hlang & Hgreet & Heng & Hrun)]]]];
    rewrite Hrun; cbn [fst snd];
    try (destruct (is_text (lower (language_field request))));
    cbn;
    try (destruct (engine_touches_sessions_only
                     (strip (input_text request))
                     (session_of env (session_id request)) l
                     (snd (count_total w))) as (_ & Hs & _);
         rewrite Heng in Hs; cbn in Hs; rewrite Hs; cbn);
    lia.
Qed.

(** *** Queries in flight *)

Section InFlight.
Context `{UCD : UnicodeData}.

(** The answer of the store depends on the store alone. *)
Lemma lookup_answer identifier (w w' : world) :
  db_manager w = db_manager w' ->
  fst (DatabaseManager_get_ticket_status identifier w)
  = fst (DatabaseManager_get_ticket_status identifier w').
Proof.
  intros Hdb.
  unfold DatabaseManager_get_ticket_status, bind, modify, get, try_except, lift.
  cbn [snd fst with_lookup db_manager]. rewrite Hdb.
  destruct (pool (db_manager w')) as [p |]; [| reflexivity].
  destruct (acquire p) as [conn | e]; [| reflexivity].
  destruct (fetchrow conn _ _) as [[row |] | e]; reflexivity.
Qed.

(** A resumed query always returns. *)
Lemma resume_run env request identifier ty l w :
  resume env request identifier ty l w
  = let text := strip (input_text request) in
    let language := lower (language_field request) in
    let sid := session_of env (session_id request) in
    let reply :=
      match fst (DatabaseManager_get_ticket_status identifier w) with
      | Ok (Some row) => status_response row identifier ty l
      | Ok None => not_found_reply identifier ty l
      | Raise _ => database_error (MAHA_AASTHA_KNOWLEDGE_BASE l)
      end in
    (Ok (QueryReply reply language sid language),
     snd (add_to_chat_history env sid text reply language
            (snd (count_successful w)))).
Proof. reflexivity. Qed.

(** The two halves make the handler: a query that reaches the await does,
    run from its beginning to its end, what its first half followed by its
    second half does. *)
Lemma suspend_then_resume env request w identifier ty l :
  awaited request = Some (identifier, ty, l) ->
  process_query env request w
  = resume env request identifier ty l (snd (suspend identifier w)).
Proof.
  unfold awaited. cbv zeta.
  case_bool_decide as Htext; [discriminate |].
  destruct (parse_language (lower (language_field request))) as [l' |] eqn:Hlang;
    [| discriminate].
  destruct (detect_greeting (strip (input_text request))) as [g key] eqn:Hgreet.
  cbn [fst]. destruct g; [discriminate |].
  destruct (detect_ticket_id_or_mobile (strip (input_text request)))
    as [[id' ty'] | e] eqn:Hdet; [| discriminate].
  destruct (truthy id' && found ty') eqn:Hfound; [| discriminate].
  intros [= <- <- <-].
  destruct id' as [[| c t] |]; try discriminate.
  destruct ty' as [ty' |]; [| discriminate].
  cbn [from_option Datatypes.id].
  assert (Hne : c :: t <> []) by discriminate.
  unfold process_query.
  rewrite (bind_ok _ _ w tt (snd (count_total w)) eq_refl). cbv zeta.
  rewrite bool_decide_eq_false_2 by exact Htext. rewrite Hlang, Hgreet.
  unfold try_except.
  match goal with
  | |- context [process_maha_aastha_query ?t ?s l'] =>
    pose proof (identifier_short_circuit t s l' (snd (count_total w)) _ _
                  Hdet Hne) as Heng
  end.
  destruct (lookup_run (c :: t) (snd (count_total w))) as [r Hrun].
  rewrite Hrun in Heng.
  assert (Hanswer :
            fst (DatabaseManager_get_ticket_status (c :: t)
                   (with_lookup (c :: t) (snd (count_total w))))
            = Ok r).
  { rewrite <- (lookup_answer (c :: t) (snd (count_total w))) by reflexivity.
    rewrite Hrun. reflexivity. }
  rewrite resume_run. cbv zeta.
  change (snd (suspend (c :: t) w))
    with (with_lookup (c :: t) (snd (count_total w))).
  rewrite Hanswer.
  destruct r as [row |]; rewrite (bind_ok _ _ _ _ _ Heng); reflexivity.
Qed.

Lemma suspend_status identifier w :
  let s := SYSTEM_STATUS w in
  let s' := SYSTEM_STATUS (snd (suspend identifier w)) in
  total_queries s' = total_queries s + 1
  /\ successful_queries s' = successful_queries s
  /\ failed_queries s' = failed_queries s.
Proof. repeat split. Qed.

Lemma resume_status env request identifier ty l w :
  let s := SYSTEM_STATUS w in
  let s' := SYSTEM_STATUS (snd (resume env request identifier ty l w)) in
  total_queries s' = total_queries s
  /\ successful_queries s' = successful_queries s + 1
  /\ failed_queries s' = failed_queries s.
Proof. repeat split. Qed.

End InFlight.

(** X8: the counters account for every query: in every state the process
    can reach, also while queries are suspended at the store lookup and
    other requests are served, [total_queries] is the sum of
    [successful_queries], [failed_queries] and the number of queries in
    flight; so the three counters add up exactly when no query is in
    flight. *)
Theorem counters_balance `{UCD : UnicodeData} :
  forall (w : world) (pending : list (environment * QueryRequest)),
    serving w pending -> balanced (SYSTEM_STATUS w) (length pending).
Proof.
  intros w pending Hserve. unfold balanced.
  induction Hserve
    as [db | env request w pending _ IH
       | env request identifier ty l w pending _ IH _
       | env request identifier ty l w before after _ IH _
       | env request w pending _ IH _ | env w pending _ IH].
  - reflexivity.
  - destruct (query_accounting env request w) as [Ht Hsf]. lia.
  - destruct (suspend_status identifier w) as (Ht & Hs & Hf).
    cbn [length]. lia.
  - destruct (resume_status env request identifier ty l w) as (Ht & Hs & Hf).
    rewrite length_app in *. cbn [length] in IH. lia.
  - assert (F : frames (fun w w' : world => SYSTEM_STATUS w' = SYSTEM_STATUS w)
                  (submit_rating env request)).
    { apply frames_submit_rating with (sid := session_of env (rq_session_id request));
        [reflexivity | intros a b c Hab Hbc; congruence | reflexivity
        | reflexivity | reflexivity]. }
    rewrite (F w). exact IH.
  - assert (F : frames (fun w w' : world => SYSTEM_STATUS w' = SYSTEM_STATUS w)
                  (export_ratings env)).
    { apply frames_export_ratings;
        [reflexivity | intros a b c Hab Hbc; congruence]. }
    rewrite (F w). exact IH.
Qed.

Lemma counters_balance_witness :
  serving
    (snd (process_query sample_environment hello_with_ticket
            (snd (suspend (u "TKT-ab12cd")
                    (fresh_world (constant_store (Ok None)))))))
    [(sample_environment,
      {| input_text := u "TKT-ab12cd"; session_id := Some (u "s2");
         language_field := u "en" |})]
  /\ balanced
       (SYSTEM_STATUS
          (snd (process_query sample_environment hello_with_ticket
                  (snd (suspend (u "TKT-ab12cd")
                          (fresh_world (constant_store (Ok None))))))))
       1.
Proof.
  assert (Ha : awaited {| input_text := u "TKT-ab12cd";
                          session_id := Some (u "s2");
                          language_field := u "en" |}
               = Some (u "TKT-ab12cd", Some ticket_id_type, en))
    by (vm_compute; reflexivity).
  assert (H : serving
    (snd (process_query sample_environment hello_with_ticket
            (snd (suspend (u "TKT-ab12cd")
                    (fresh_world (constant_store (Ok None)))))))
    [(sample_environment,
      {| input_text := u "TKT-ab12cd"; session_id := Some (u "s2");
         language_field := u "en" |})]).
  { apply serve_query.
    exact (serve_suspend sample_environment _ _ _ _ _ _ (serve_start _) Ha). }
  split; [exact H |].
  exact (counters_balance _ _ H).
Defined.

(** While the query for the ticket is in flight and a greeting has been
    answered, the three counters do not add up: 2 queries, 1 success, no
    failure. *)
Example counters_with_a_query_in_flight :
  SYSTEM_STATUS
    (snd (process_query sample_environment hello_with_ticket
            (snd (suspend (u "TKT-ab12cd")
                    (fresh_world (constant_store (Ok None)))))))
  = {| total_queries := 2; successful_queries := 1; failed_queries := 0;
       last_error := None |}.
Proof. vm_compute. reflexivity. Qed.

(** ** The chat history *)

(** X9: the chat history records what was answered: a query that gets a
    reply is put, with that reply, at the head of the history of its
    session, which is cut to its 50 newest entries; a query that is refused
    or fails leaves every history as it was, and so does the one query on
    which the handler raises: a text in an unsupported language that UTF-8
    cannot encode. *)
Theorem answered_query_heads_history `{UCD : UnicodeData} :
  forall (env : environment) (request : QueryRequest) (w : world),
    match process_query env request w with
    | (Ok (QueryReply reply language sid _), w') =>
      sid = session_of env (session_id request)
      /\ CHAT_HISTORY w' !! sid
         = Some (take 50
                   (history_entry env sid (strip (input_text request)) reply
                      language
                    :: default [] (CHAT_HISTORY w !! sid)))
    | (Ok (QueryError _ _), w') => CHAT_HISTORY w' = CHAT_HISTORY w
    | (Raise e, w') =>
      e = UnicodeEncodeError
      /\ parse_language (lower (language_field request)) = None
      /\ is_text (lower (language_field request)) = false
      /\ CHAT_HISTORY w' = CHAT_HISTORY w
    end.
Proof.
  intros env request w.
  destruct (process_query_cases env request w)
    as [[Htext [msg Hrun]]
       | [(Htext & Hlang & Hrun)
         | [(l & key & Htext & Hlang & Hgreet & Hrun)
           | [(l & key & reply & w1 & Htext & Hlang & Hgreet & Heng & Hrun)
             | (l & key & e & w1 & msg & Htext & Hlang & Hgreet & Heng & Hrun)]]]];
    rewrite Hrun;
    try (destruct (engine_touches_sessions_only
                     (strip (input_text request))
                     (session_of env (session_id request)) l
                     (snd (count_total w))) as (Hh & _);
         rewrite Heng in Hh; cbn in Hh).
  - reflexivity.
  - destruct (is_text (lower (language_field request))) eqn:E;
      [reflexivity | repeat split; exact Hlang].
  - split; [reflexivity |]. cbn. rewrite lookup_insert_eq. reflexivity.
  - split; [reflexivity |]. cbn. rewrite lookup_insert_eq, Hh. reflexivity.
  - cbn. exact Hh.
Qed.

(** X10: no history grows beyond 50 entries: in every state the process
    can reach, the chat history of each session holds at most 50 entries. *)
Theorem chat_history_bounded `{UCD : UnicodeData} :
  forall w : world, reachable w -> history_bounded w.
Proof.
  intros w Hreach.
  assert (R_refl : forall w, history_bounded w -> history_bounded w)
    by (intros ? H; exact H).
  assert (R_trans : forall a b c : world,
             (history_bounded a -> history_bounded b) ->
             (history_bounded b -> history_bounded c) ->
             history_bounded a -> history_bounded c)
    by (intros a b c Hab Hbc Ha; exact (Hbc (Hab Ha))).
  assert (R_history : forall sid (e : chat_entry) (w : world),
             history_bounded w ->
             history_bounded
               (with_history
                  (fun h => <[sid := take 50 (e :: default [] (h !! sid))]> h) w)).
  { intros sid e w0 H s h. cbn [CHAT_HISTORY with_history].
    destruct (decide (s = sid)) as [-> | Hne].
    - rewrite lookup_insert_eq. intros [= <-]. cbn [length]. rewrite length_take. lia.
    - rewrite lookup_insert_ne by congruence. apply H. }
  destruct Hreach as [pending Hserve].
  induction Hserve
    as [db | env request w pending _ IH
       | env request identifier ty l w pending _ IH _
       | env request identifier ty l w before after _ IH _
       | env request w pending _ IH _ | env w pending _ IH].
  - intros s h. cbn. rewrite lookup_empty. discriminate.
  - revert IH.
    apply (frames_process_query (fun w w' => history_bounded w -> history_bounded w')
             R_refl R_trans (session_of env (session_id request))).
    + intros text l w0 H s h.
      destruct (engine_touches_sessions_only text
                  (session_of env (session_id request)) l w0) as (-> & _).
      apply H.
    + intros f w0 H. exact H.
    + apply R_history.
    + reflexivity.
  - assert (F : frames (fun w w' => history_bounded w -> history_bounded w')
                  (suspend identifier)).
    { apply frames_suspend;
        [exact R_trans | intros f w0 H; exact H | intros w0 H; exact H]. }
    exact (F w IH).
  - assert (F : frames (fun w w' => history_bounded w -> history_bounded w')
                  (resume env request identifier ty l)).
    { apply frames_resume with (sid := session_of env (session_id request));
        [exact R_refl | exact R_trans | intros f w0 H; exact H
        | apply R_history | reflexivity]. }
    exact (F w IH).
  - revert IH.
    apply (frames_submit_rating (fun w w' => history_bounded w -> history_bounded w')
             R_refl R_trans (session_of env (rq_session_id request))).
    + apply R_history.
    + intros e w0 H. exact H.
    + reflexivity.
  - revert IH.
    apply (frames_export_ratings (fun w w' => history_bounded w -> history_bounded w')
             R_refl R_trans).
Qed.

Lemma chat_history_bounded_witness :
  let w :=
    snd (process_query sample_environment hello_with_ticket
           (fresh_world (constant_store (Ok None)))) in
  reachable w /\ history_bounded w.
Proof.
  cbv zeta.
  assert (H : reachable
    (snd (process_query sample_environment hello_with_ticket
           (fresh_world (constant_store (Ok None))))))
    by (apply reach_query, reach_start).
  split; [exact H |].
  exact (chat_history_bounded _ H).
Defined.

(** ** Ratings *)

Section Ratings.
Context `{UCD : UnicodeData}.

(** The catalog has a label exactly for the supported languages and the
    ratings that pass the validator. *)
Lemma RATING_LABELS_domain code rating :
  is_Some (RATING_LABELS code rating)
  <-> code ∈ SUPPORTED_LANGUAGES /\ validate_rating rating = true.
Proof.
  unfold RATING_LABELS, parse_language, str_eqb, SUPPORTED_LANGUAGES.
  rewrite !elem_of_cons, elem_of_nil.
  repeat case_bool_decide; subst.
  - split.
    + intros [label Hlabel]. split; [left; reflexivity |].
      destruct rating as [| p | p]; try discriminate;
        do 3 (try (destruct p as [p | p |]; try discriminate)); reflexivity.
    + intros [_ Hvalid].
      destruct rating as [| p | p]; try discriminate;
        do 3 (try (destruct p as [p | p |]; try discriminate)); eexists; reflexivity.
  - split.
    + intros [label Hlabel]. split; [right; left; reflexivity |].
      destruct rating as [| p | p]; try discriminate;
        do 3 (try (destruct p as [p | p |]; try discriminate)); reflexivity.
    + intros [_ Hvalid].
      destruct rating as [| p | p]; try discriminate;
        do 3 (try (destruct p as [p | p |]; try discriminate)); eexists; reflexivity.
  - split; [intros [label Hlabel]; discriminate | intros [[? | [? | []]] _]; congruence].
Qed.

Lemma RATING_LABELS_language code rating label :
  RATING_LABELS code rating = Some label -> is_Some (parse_language code).
Proof.
  unfold RATING_LABELS. destruct (parse_language code); [eauto | discriminate].
Qed.

Lemma lookup_label_run language rating label w :
  RATING_LABELS language rating = Some label ->
  lookup_label language rating w = (Ok label, w).
Proof. intros H. unfold lookup_label. rewrite H. reflexivity. Qed.

Lemma lookup_label_missing language rating w :
  RATING_LABELS language rating = None ->
  exists e, lookup_label language rating w = (Raise e, w).
Proof. intros H. unfold lookup_label. rewrite H. eexists. reflexivity. Qed.

(** With a label in the catalog the entry reaches the ledger, stamped by
    the first reading of the clock when the file was written and by the
    second when it was not. *)
Lemma save_rating_data_run env rating session language ticket_id feedback_text
    label w :
  RATING_LABELS language rating = Some label ->
  save_rating_data env rating session language ticket_id feedback_text w
  = (Ok true,
     with_ratings
       (fun data =>
          data ++ [make_rating_entry (written_at env) rating session language
                     ticket_id label]) w).
Proof.
  intros H.
  unfold save_rating_data, try_except, written_at, bind, lookup_label.
  rewrite H. unfold lift, modify, ret.
  destruct (csv_write env) as [[] | e]; reflexivity.
Qed.

Lemma parse_language_mr code l :
  parse_language code = Some l ->
  str_eqb code (u "mr") = match l with mr => true | en => false end.
Proof.
  unfold parse_language, str_eqb.
  case_bool_decide as Hen; [| case_bool_decide as Hmr]; intros [= <-].
  - subst code. vm_compute. reflexivity.
  - reflexivity.
Qed.

(** Of the strings of the 200 response, only the session id can fail to
    be text. *)
Lemma rating_response_text code rating label l (sid : str) :
  RATING_LABELS code rating = Some label ->
  forallb is_text
    [match l with
     | mr => u "आपल्या " ++ str_of_int rating
             ++ u "-स्टार रेटिंगसाठी धन्यवाद! (" ++ label ++ u ")"
     | en => u "Thank you for your " ++ str_of_int rating
             ++ u "-star rating! (" ++ label ++ u ")"
     end;
     rating_thank_you (MAHA_AASTHA_KNOWLEDGE_BASE l); label; sid]
  = is_text sid.
Proof.
  intros Hlabel.
  destruct (RATING_LABELS_text _ _ _ Hlabel) as (_ & Hrating & Htext).
  cbn [forallb]. rewrite Htext.
  replace (is_text (rating_thank_you (MAHA_AASTHA_KNOWLEDGE_BASE l))) with true
    by (destruct l; vm_compute; reflexivity).
  destruct l; rewrite !is_text_app, Hrating, Htext.
  - replace (is_text (u "Thank you for your ")) with true by (vm_compute; reflexivity).
    replace (is_text (u "-star rating! (")) with true by (vm_compute; reflexivity).
    replace (is_text (u ")")) with true by (vm_compute; reflexivity).
    cbn [andb]. apply andb_true_r.
  - replace (is_text (u "आपल्या ")) with true by (vm_compute; reflexivity).
    replace (is_text (u "-स्टार रेटिंगसाठी धन्यवाद! (")) with true
      by (vm_compute; reflexivity).
    replace (is_text (u ")")) with true by (vm_compute; reflexivity).
    cbn [andb]. apply andb_true_r.
Qed.

End Ratings.

(** X11: a validated rating in a supported language is always recorded,
    whatever happens to the CSV file and to the response: the ledger grows
    by exactly one entry, which carries the rating, the catalog's label, the
    language, the session and the ticket of the request (or "N/A"), with the
    time of the clock reading that followed the file's fate, and the rating
    and the two messages of thanks are put at the head of the session's chat
    history.  The submission is answered with status 200, the message that
    names the rating and the label, the thanks, the label and the session id
    exactly when UTF-8 can encode the session id; when it cannot, building
    that response raises after the rating has been recorded, and the answer
    is the 500 of the handler's [except Exception]. *)
Theorem valid_rating_is_always_recorded `{UCD : UnicodeData} :
  forall (env : environment) (request : RatingRequest) (w : world),
    validate_rating (rq_rating request) = true ->
    rq_language request ∈ SUPPORTED_LANGUAGES ->
    let sid := session_of env (rq_session_id request) in
    let rating := rq_rating request in
    exists label l w',
      RATING_LABELS (rq_language request) rating = Some label
      /\ parse_language (rq_language request) = Some l
      /\ let thank_you := rating_thank_you (MAHA_AASTHA_KNOWLEDGE_BASE l) in
         let message :=
           match l with
           | en => u "Thank you for your " ++ str_of_int rating
                   ++ u "-star rating! (" ++ label ++ u ")"
           | mr => u "आपल्या " ++ str_of_int rating
                   ++ u "-स्टार रेटिंगसाठी धन्यवाद! (" ++ label ++ u ")"
           end in
         submit_rating env request w
         = (Ok (if is_text sid
                then RatingSaved message thank_you rating label sid
                else RatingFailed 500
                       match l with
                       | en => u "An error occurred while processing your rating."
                       | mr => u "आपले रेटिंग प्रक्रिया करताना त्रुटी आली."
                       end), w')
         /\ RATINGS_DATA w'
            = RATINGS_DATA w
              ++ [make_rating_entry (written_at env) rating sid
                    (rq_language request) (rq_ticket_id request) label]
         /\ CHAT_HISTORY w' !! sid
            = Some (take 50
                      (history_entry env sid
                         (u "Rating: " ++ str_of_int rating ++ u "/5")
                         (thank_you ++ nl ++ nl ++ message)
                         (rq_language request)
                       :: default [] (CHAT_HISTORY w !! sid))).
Proof.
  intros env request w Hrating Hlang sid rating.
  destruct (proj2 (RATING_LABELS_domain (rq_language request) (rq_rating request))
              (conj Hlang Hrating)) as [label Hlabel].
  destruct (RATING_LABELS_language _ _ _ Hlabel) as [l Hl].
  exists label, l. unfold submit_rating, try_except. cbv zeta.
  fold (session_of env (rq_session_id request)). fold sid. fold rating.
  rewrite (bind_ok _ _ _ _ _ (lookup_label_run _ _ _ w Hlabel)).
  rewrite (bind_ok _ _ _ _ _
             (save_rating_data_run env _ sid _ (rq_ticket_id request)
                (rq_feedback_text request) _ w Hlabel)).
  rewrite Hl, (parse_language_mr _ _ Hl).
  cbn [bind ret add_to_chat_history modify]. unfold JSONResponse.
  replace (if match l with mr => true | en => false end
           then u "आपल्या " ++ str_of_int rating
                ++ u "-स्टार रेटिंगसाठी धन्यवाद! (" ++ label ++ u ")"
           else u "Thank you for your " ++ str_of_int rating
                ++ u "-star rating! (" ++ label ++ u ")")
    with (match l with
          | mr => u "आपल्या " ++ str_of_int rating
                  ++ u "-स्टार रेटिंगसाठी धन्यवाद! (" ++ label ++ u ")"
          | en => u "Thank you for your " ++ str_of_int rating
                  ++ u "-star rating! (" ++ label ++ u ")"
          end) by (destruct l; reflexivity).
  rewrite (rating_response_text (rq_language request) rating label l sid Hlabel).
  destruct (is_text sid); destruct l; cbn [ret raise];
    (eexists; split; [exact Hlabel |]; split; [reflexivity |];
     split; [reflexivity |]; split; [reflexivity |];
     cbn [CHAT_HISTORY with_history with_ratings];
     rewrite lookup_insert_eq; reflexivity).
Qed.

Lemma valid_rating_is_always_recorded_witness :
  exists label l w',
    RATING_LABELS (u "mr") 5 = Some label
    /\ parse_language (u "mr") = Some l
    /\ submit_rating
         {| clock := clock sample_environment;
            clock_retry := clock_retry sample_environment;
            epoch := epoch sample_environment;
            choice_adjective := 0; choice_animal := 0; urandom := (0, 0);
            csv_write := Raise (ExternalError (u "disk full")) |}
         five_stars (fresh_world (constant_store (Ok None)))
       = (Ok (RatingSaved
                match l with
                | en => u "Thank you for your " ++ str_of_int 5
                        ++ u "-star rating! (" ++ label ++ u ")"
                | mr => u "आपल्या " ++ str_of_int 5
                        ++ u "-स्टार रेटिंगसाठी धन्यवाद! (" ++ label ++ u ")"
                end
                (rating_thank_you (MAHA_AASTHA_KNOWLEDGE_BASE l)) 5 label
                (u "s1")), w')
    /\ RATINGS_DATA w'
       = [make_rating_entry (clock_retry sample_environment) 5 (u "s1") (u "mr")
            (Some (u "TKT-ab12cd")) label]
    /\ CHAT_HISTORY w' !! u "s1"
       = Some [history_entry sample_environment (u "s1") (u "Rating: 5/5")
                 (rating_thank_you (MAHA_AASTHA_KNOWLEDGE_BASE l) ++ nl ++ nl
                  ++ match l with
                     | en => u "Thank you for your " ++ str_of_int 5
                             ++ u "-star rating! (" ++ label ++ u ")"
                     | mr => u "आपल्या " ++ str_of_int 5
                             ++ u "-स्टार रेटिंगसाठी धन्यवाद! (" ++ label ++ u ")"
                     end)
                 (u "mr")].
Proof.
  assert (Hrating : validate_rating (rq_rating five_stars) = true)
    by reflexivity.
  assert (Hlang : rq_language five_stars ∈ SUPPORTED_LANGUAGES)
    by (right; left).
  exact (valid_rating_is_always_recorded
           {| clock := clock sample_environment;
              clock_retry := clock_retry sample_environment;
              epoch := epoch sample_environment;
              choice_adjective := 0; choice_animal := 0; urandom := (0, 0);
              csv_write := Raise (ExternalError (u "disk full")) |}
           five_stars (fresh_world (constant_store (Ok None))) Hrating Hlang).
Defined.

(** A rating under a session id that UTF-8 cannot encode: it is recorded,
    and answered with status 500. *)
Example rating_recorded_and_answered_500 :
  let request :=
    {| rq_rating := 4; rq_session_id := Some (u "s" ++ [0xD800]);
       rq_language := u "en"; rq_ticket_id := None; rq_feedback_text := None |} in
  let run :=
    submit_rating sample_environment request
      (fresh_world (constant_store (Ok None))) in
  fst run = Ok (RatingFailed 500 (u "An error occurred while processing your rating."))
  /\ map r_rating (RATINGS_DATA (snd run)) = [4].
Proof. vm_compute. split; reflexivity. Qed.

(** X12: a rating for which the catalog has no label, that is one in an
    unsupported language (or outside 1 to 5), is refused with status 500
    and leaves the whole state as it was: nothing is put in the ledger or
    in a chat history. *)
Theorem unlabelled_rating_is_refused `{UCD : UnicodeData} :
  forall (env : environment) (request : RatingRequest) (w : world),
    RATING_LABELS (rq_language request) (rq_rating request) = None ->
    exists message,
      submit_rating env request w = (Ok (RatingFailed 500 message), w).
Proof.
  intros env request w Hnone.
  destruct (lookup_label_missing _ _ w Hnone) as [e He].
  unfold submit_rating, try_except. cbv zeta.
  rewrite (bind_raise _ _ _ _ _ He). eexists. reflexivity.
Qed.

Lemma unlabelled_rating_is_refused_witness :
  exists message,
    submit_rating sample_environment
      {| rq_rating := 5; rq_session_id := Some (u "s1"); rq_language := u "hi";
         rq_ticket_id := None; rq_feedback_text := None |}
      (fresh_world (constant_store (Ok None)))
    = (Ok (RatingFailed 500 message), fresh_world (constant_store (Ok None))).
Proof.
  assert (H : RATING_LABELS (u "hi") 5 = None) by (vm_compute; reflexivity).
  exact (unlabelled_rating_is_refused sample_environment
           {| rq_rating := 5; rq_session_id := Some (u "s1");
              rq_language := u "hi"; rq_ticket_id := None;
              rq_feedback_text := None |}
           (fresh_world (constant_store (Ok None))) H).
Defined.

(** X13: a rating submission writes to the ledger and to the chat history
    of its own session only: the sessions and their stages, the query
    counters, the store, the log of lookups and the history of every other
    session are the same before and after. *)
Theorem rating_touches_ledger_and_own_history `{UCD : UnicodeData} :
  forall (env : environment) (request : RatingRequest) (w : world),
    let w' := snd (submit_rating env request w) in
    USER_SESSION_STATE w' = USER_SESSION_STATE w
    /\ SYSTEM_STATUS w' = SYSTEM_STATUS w
    /\ db_manager w' = db_manager w
    /\ lookups w' = lookups w
    /\ forall s, s <> session_of env (rq_session_id request) ->
                 CHAT_HISTORY w' !! s = CHAT_HISTORY w !! s.
Proof.
  intros env request. cbv zeta.
  change (frames
            (fun w w' =>
               USER_SESSION_STATE w' = USER_SESSION_STATE w
               /\ SYSTEM_STATUS w' = SYSTEM_STATUS w
               /\ db_manager w' = db_manager w
               /\ lookups w' = lookups w
               /\ forall s, s <> session_of env (rq_session_id request) ->
                            CHAT_HISTORY w' !! s = CHAT_HISTORY w !! s)
            (submit_rating env request)).
  apply frames_submit_rating with (sid := session_of env (rq_session_id request)).
  - intros w. repeat split.
  - intros a b c (H1 & H2 & H3 & H4 & H5) (H6 & H7 & H8 & H9 & H10).
    repeat split; try congruence.
    intros s Hne. rewrite (H10 s Hne). exact (H5 s Hne).
  - intros e w. repeat split. intros s Hne. cbn.
    apply lookup_insert_ne. congruence.
  - intros e w. repeat split.
  - reflexivity.
Qed.

(** X14: the ledger only grows: every handler leaves the entries that are
    in the ledger in place and in order; queries and exports add nothing,
    a rating submission adds at most one entry, at the end. *)
Theorem ledger_only_grows `{UCD : UnicodeData} :
  forall (env : environment) (w : world),
    (forall request,
        RATINGS_DATA (snd (process_query env request w)) = RATINGS_DATA w)
    /\ RATINGS_DATA (snd (export_ratings env w)) = RATINGS_DATA w
    /\ (forall request,
           let ledger := RATINGS_DATA (snd (submit_rating env request w)) in
           ledger = RATINGS_DATA w
           \/ exists e, ledger = RATINGS_DATA w ++ [e]).
Proof.
  intros env w. split; [| split].
  - intros request. revert w.
    apply (frames_process_query (fun w w' => RATINGS_DATA w' = RATINGS_DATA w)
             (fun w => eq_refl) (fun a b c Hab Hbc => eq_trans Hbc Hab)
             (session_of env (session_id request))).
    + intros text l w.
      destruct (engine_touches_sessions_only text
                  (session_of env (session_id request)) l w) as (_ & _ & H & _).
      exact H.
    + reflexivity.
    + reflexivity.
    + reflexivity.
  - apply (frames_export_ratings (fun w w' => RATINGS_DATA w' = RATINGS_DATA w));
      congruence.
  - intros request. cbv zeta.
    destruct (RATING_LABELS (rq_language request) (rq_rating request))
      as [label |] eqn:Hlabel.
    + right. destruct (RATING_LABELS_language _ _ _ Hlabel) as [l Hl].
      unfold submit_rating, try_except. cbv zeta.
      rewrite (bind_ok _ _ _ _ _ (lookup_label_run _ _ _ w Hlabel)).
      rewrite (bind_ok _ _ _ _ _
                 (save_rating_data_run env _ _ _ (rq_ticket_id request)
                    (rq_feedback_text request) _ w Hlabel)).
      rewrite Hl. cbn [bind ret add_to_chat_history modify].
      unfold JSONResponse. destruct (forallb is_text _); eexists; reflexivity.
    + left. destruct (lookup_label_missing _ _ w Hlabel) as [e He].
      unfold submit_rating, try_except. cbv zeta.
      rewrite (bind_raise _ _ _ _ _ He). reflexivity.
Qed.

(** X15: an export reads and does not write: it never raises, it leaves
    the state as it was, and it answers 404 exactly when the ledger is
    empty. *)
Theorem export_reads_only `{UCD : UnicodeData} :
  forall (env : environment) (w : world),
    exists response,
      export_ratings env w = (Ok response, w)
      /\ (RATINGS_DATA w = []
          <-> exists message, response = ExportNotFound message).
Proof.
  intros env w. unfold export_ratings, try_except, bind, get, ret, raise.
  destruct (RATINGS_DATA w) as [| e ledger].
  - eexists. split; [reflexivity |]. split; [eauto | reflexivity].
  - destruct (utf8_encode _) as [body |]; eexists; (split; [reflexivity |]);
      split; try discriminate; intros [message H]; discriminate.
Qed.

(** ** What identifier detection returns *)

Section DetectionSound.
Context `{UCD : UnicodeData}.

Lemma first_mobile_shape ms mobile :
  first_mobile ms = Ok (Some mobile) ->
  length mobile = 10%nat /\ char_in (hd 0 mobile) (u "6789") = true.
Proof.
  induction ms as [| m ms IH]; [discriminate |].
  cbn [first_mobile]. unfold rbind at 1.
  destruct (mobile_of_match m) as [candidate | e]; [| discriminate].
  destruct ((length candidate =? 10)%nat && char_in (hd 0 candidate) (u "6789"))
    eqn:Hshape; [| exact IH].
  intros [= <-]. apply andb_prop in Hshape as [Hlen Hfirst].
  apply Nat.eqb_eq in Hlen. split; assumption.
Qed.

Lemma mobile_by_patterns_shape ps clean_text mobile :
  mobile_by_patterns ps clean_text = Ok (Some mobile) ->
  length mobile = 10%nat /\ char_in (hd 0 mobile) (u "6789") = true.
Proof.
  induction ps as [| r ps IH]; [discriminate |].
  cbn [mobile_by_patterns]. unfold rbind at 1.
  destruct (first_mobile (re_finditer false r clean_text)) as [[hit |] | e] eqn:Hhit;
    [| exact IH | discriminate].
  intros [= <-]. exact (first_mobile_shape _ _ Hhit).
Qed.

End DetectionSound.

(** X16: identifier detection answers with an identifier and its kind, or
    with neither, and what it answers with has passed the check of its
    kind: a ticket identifier is accepted by [validate_ticket_id_format]; a
    mobile number is accepted by [validate_mobile_number_format] and is a
    string of exactly ten characters that begins with 6, 7, 8 or 9. *)
Theorem detected_identifier_is_valid `{UCD : UnicodeData} :
  forall (text : str) (identifier : option str) (ty : option identifier_type),
    detect_ticket_id_or_mobile text = Ok (identifier, ty) ->
    match identifier, ty with
    | Some ticket_id, Some ticket_id_type =>
      ticket_id <> [] /\ validate_ticket_id_format ticket_id = true
    | Some mobile, Some mobile_number_type =>
      validate_mobile_number_format mobile = true
      /\ length mobile = 10%nat
      /\ char_in (hd 0 mobile) (u "6789") = true
    | None, None => True
    | _, _ => False
    end.
Proof.
  intros text identifier ty. unfold detect_ticket_id_or_mobile, rbind.
  destruct (detect_ticket_id text) as [ticket_id | e]; [| discriminate].
  destruct (truthy ticket_id && validate_ticket_id_format (default [] ticket_id))
    eqn:Hticket.
  - intros [= <- <-]. apply andb_prop in Hticket as [Htruthy Hvalid].
    destruct ticket_id as [[| c t] |]; try discriminate.
    split; [discriminate | exact Hvalid].
  - destruct (detect_mobile_number text) as [mobile_number | e] eqn:Hmobile;
      [| discriminate].
    destruct (truthy mobile_number
              && validate_mobile_number_format (default [] mobile_number))
      eqn:Hvalid; intros [= <- <-]; [| exact I].
    apply andb_prop in Hvalid as [Htruthy Hvalid].
    destruct mobile_number as [mobile |]; [| discriminate].
    split; [exact Hvalid |].
    exact (mobile_by_patterns_shape _ _ _ Hmobile).
Qed.

Lemma detected_identifier_is_valid_witness :
  (u "TKT-ab12cd" <> [] /\ validate_ticket_id_format (u "TKT-ab12cd") = true)
  /\ (validate_mobile_number_format (u "9८७६५४३२१०") = true
      /\ length (u "9८७६५४३२१०") = 10%nat
      /\ char_in (hd 0 (u "9८७६५४३२१०")) (u "6789") = true).
Proof.
  assert (H1 : detect_ticket_id_or_mobile (u "status of TKT-ab12cd please")
               = Ok (Some (u "TKT-ab12cd"), Some ticket_id_type))
    by (vm_compute; reflexivity).
  assert (H2 : detect_ticket_id_or_mobile (u "5+919८७६५४३२१०")
               = Ok (Some (u "9८७६५४३२१०"), Some mobile_number_type))
    by (vm_compute; reflexivity).
  split.
  - exact (detected_identifier_is_valid _ _ _ H1).
  - exact (detected_identifier_is_valid _ _ _ H2).
Defined.

(** X17: [validate_mobile_number_format] reads the digits of its argument
    and nothing else: spaces, hyphens, brackets, letters or a plus sign
    between or around the digits do not change its answer. *)
Theorem mobile_format_reads_digits_only `{UCD : UnicodeData} :
  forall s : str,
    validate_mobile_number_format s
    = validate_mobile_number_format (List.filter isdecimal s).
Proof.
  intros s. unfold validate_mobile_number_format.
  rewrite !digits_only_filter.
  assert (H : List.filter isdecimal (List.filter isdecimal s)
              = List.filter isdecimal s).
  { apply filter_all_true. induction s as [| c t IH]; [reflexivity |].
    cbn [List.filter]. destruct (isdecimal c) eqn:Hc; [| exact IH].
    cbn [forallb]. rewrite Hc, IH. reflexivity. }
  rewrite H. reflexivity.
Qed.

(** ** Greetings *)

Section Greetings.
Context `{UCD : UnicodeData}.

Lemma dict_get_in key d v : dict_get key d = Some v -> In (key, v) d.
Proof.
  induction d as [| [k v'] d IH]; [discriminate |].
  cbn [dict_get]. unfold str_eqb. case_bool_decide as Hk.
  - intros [= <-]. left. congruence.
  - intros H. right. exact (IH H).
Qed.

Lemma suffix_self {A} (l : list A) : suffix l l.
Proof. exists []. reflexivity. Qed.

Lemma suffix_app_self {A} (k l : list A) : suffix l (k ++ l).
Proof. exists k. reflexivity. Qed.

Lemma greeting_replies_welcome l key reply :
  In (key, reply) (greeting_replies l) ->
  suffix (welcome_message (MAHA_AASTHA_KNOWLEDGE_BASE l)) reply.
Proof.
  assert (HF : Forall (fun p => suffix (welcome_message (MAHA_AASTHA_KNOWLEDGE_BASE l))
                                  (snd p)) (greeting_replies l)).
  { destruct l; unfold greeting_replies; repeat constructor; cbn [snd];
      first [apply suffix_app_self | apply suffix_self]. }
  intros H. exact (proj1 (List.Forall_forall _ _) HF _ H).
Qed.

Lemma first_greeting_key t :
  match first_greeting greeting_patterns t with
  | (true, key) =>
    In key [u "good_morning"; u "good_afternoon"; u "good_evening"; u "hello";
            u "good_night"]
  | (false, key) => key = []
  end.
Proof.
  unfold greeting_patterns. cbn [first_greeting].
  repeat match goal with
         | |- context [re_search false ?r t] => destruct (re_search false r t)
         end; cbn [In]; tauto.
Qed.

End Greetings.

(** X18: every greeting that [detect_greeting] reports has its own reply
    in both languages: the key it returns is in the reply table, so the
    fallback of [greeting_reply] is not needed, and the reply ends with the
    welcome message of the language; when no greeting is found the key is
    the empty string. *)
Theorem detected_greeting_has_reply `{UCD : UnicodeData} :
  forall text : str,
    match detect_greeting text with
    | (true, key) =>
      forall l : language,
        dict_get key (greeting_replies l) = Some (greeting_reply l key)
        /\ suffix (welcome_message (MAHA_AASTHA_KNOWLEDGE_BASE l))
             (greeting_reply l key)
    | (false, key) => key = []
    end.
Proof.
  intros text. unfold detect_greeting. cbv zeta.
  pose proof (first_greeting_key
                (re_sub_empty false greeting_noise (lower (strip text)))) as Hkey.
  destruct (first_greeting greeting_patterns _) as [[|] key]; [| exact Hkey].
  intros l. unfold greeting_reply.
  assert (Hfound : is_Some (dict_get key (greeting_replies l))).
  { cbn [In] in Hkey.
    destruct Hkey as [<- | [<- | [<- | [<- | [<- | []]]]]]; destruct l;
      vm_compute; eexists; reflexivity. }
  destruct Hfound as [reply Hreply]. rewrite Hreply. cbn [default from_option].
  split; [reflexivity |].
  exact (greeting_replies_welcome l key reply (dict_get_in _ _ _ Hreply)).
Qed.

(** ** The store's answer *)

Section StoreAnswer.
Context `{UCD : UnicodeData}.

Lemma status_map_identity k v : dict_get k status_map = Some v -> v = k.
Proof.
  assert (HF : Forall (fun p : str * str => snd p = fst p) status_map)
    by (unfold status_map; repeat constructor).
  intros H. apply dict_get_in in H.
  exact (proj1 (List.Forall_forall _ _) HF _ H).
Qed.

Lemma set_status_same row : set_status (map_status (status row)) row = row.
Proof.
  assert (H : map_status (status row) = status row).
  { unfold map_status. destruct (status row) as [k |]; [| reflexivity].
    destruct (dict_get k status_map) as [v |] eqn:E; [| reflexivity].
    rewrite (status_map_identity _ _ E). reflexivity. }
  rewrite H. destruct row. reflexivity.
Qed.

End StoreAnswer.

(** X19: when the store answers, [get_ticket_status] hands its answer on
    unchanged: the query is made with the stripped identifier and with the
    stripped identifier between two percent signs, and the row that comes
    back (or its absence) is the result; the status table maps every status
    to itself. *)
Theorem lookup_hands_on_the_stored_row `{UCD : UnicodeData} :
  forall (identifier : str) (w : world) (p : Pool) (connection : Connection)
         (answer : option TicketRow),
    pool (db_manager w) = Some p ->
    acquire p = Ok connection ->
    fetchrow connection (strip identifier) (u "%" ++ strip identifier ++ u "%")
    = Ok answer ->
    get_ticket_status identifier w = (Ok answer, with_lookup identifier w).
Proof.
  intros identifier w p connection answer Hpool Hacquire Hfetch.
  unfold get_ticket_status, DatabaseManager_get_ticket_status,
    bind, modify, get, try_except, lift.
  cbn [db_manager with_lookup]. rewrite Hpool, Hacquire, Hfetch.
  destruct answer as [row |]; [| reflexivity].
  unfold ret. rewrite set_status_same. reflexivity.
Qed.

Lemma lookup_hands_on_the_stored_row_witness :
  get_ticket_status (u " TKT-ab12cd ")
    (fresh_world (constant_store (Ok (Some resolved_row))))
  = (Ok (Some resolved_row),
     with_lookup (u " TKT-ab12cd ")
       (fresh_world (constant_store (Ok (Some resolved_row))))).
Proof.
  exact (lookup_hands_on_the_stored_row (u " TKT-ab12cd ")
           (fresh_world (constant_store (Ok (Some resolved_row))))
           {| acquire := Ok {| fetchrow := fun _ _ => Ok (Some resolved_row) |} |}
           {| fetchrow := fun _ _ => Ok (Some resolved_row) |}
           (Some resolved_row) eq_refl eq_refl eq_refl).
Defined.

(** ** Ticket codes *)

Section MatcherRuns.
Context `{UCD : UnicodeData}.

(** The character before the position after [s] has been read. *)
Lemma last_cons_from (pv : option Z) (c : Z) (s : str) :
  from_option Some pv (last (c :: s)) = from_option Some (Some c) (last s).
Proof. rewrite last_cons. destruct (last s); reflexivity. Qed.

(** A run of literal characters is read off the subject. *)
Lemma rmatch_lit ic (l t : str) p pv ms k :
  forallb (fun c => atom_matches ic (AChar c) c) l = true ->
  rmatch ic (fold_right (fun c r => Cat (One (AChar c)) r) Eps l)
    {| pos := p; prev := pv; rest := l ++ t; marks := ms |} k
  = k {| pos := (p + length l)%nat; prev := from_option Some pv (last l);
         rest := t; marks := ms |}.
Proof.
  revert p pv. induction l as [| c l IH]; intros p pv Hall.
  - cbn. rewrite Nat.add_0_r. reflexivity.
  - cbn [forallb] in Hall. apply andb_prop in Hall as [Hc Hl].
    cbn [fold_right rmatch rest app]. rewrite Hc. unfold step.
    cbn [pos marks]. rewrite (IH (S p) (Some c) Hl), last_cons_from.
    cbn [length]. rewrite Nat.add_succ_r. reflexivity.
Qed.

(** A greedy repetition without upper bound reads a subject that consists
    of matching characters to its end, when the rest of the pattern
    accepts there. *)
Lemma rep_atom_all ic a lo (s : str) p pv ms k r :
  forallb (atom_matches ic a) s = true ->
  (lo <= length s)%nat ->
  k {| pos := (p + length s)%nat; prev := from_option Some pv (last s);
       rest := []; marks := ms |} = Some r ->
  rep_atom ic a lo None p pv s ms k = Some r.
Proof.
  revert lo p pv. induction s as [| c s IH]; intros lo p pv Hall Hlo Hk.
  - cbn in Hlo. assert (lo = O) as -> by lia.
    cbn in Hk |- *. rewrite Nat.add_0_r in Hk. exact Hk.
  - cbn [forallb] in Hall. apply andb_prop in Hall as [Hc Hs].
    cbn [rep_atom fmap option_fmap option_map]. rewrite Hc.
    rewrite (IH (Nat.pred lo) (S p) (Some c)); [reflexivity | exact Hs | |].
    + cbn [length] in Hlo. lia.
    + rewrite last_cons_from in Hk. cbn [length] in Hk.
      rewrite Nat.add_succ_r in Hk. exact Hk.
Qed.

Lemma lstrip_head c (t : str) : isspace c = false -> lstrip (c :: t) = c :: t.
Proof. intros H. cbn [lstrip]. rewrite H. reflexivity. Qed.

(** A text that begins and ends with a character that is no white space is
    its own stripped form. *)
Lemma strip_clean c (s : str) c' :
  isspace c = false -> isspace c' = false ->
  strip (c :: s ++ [c']) = c :: s ++ [c'].
Proof.
  intros Hc Hc'. unfold strip, rstrip. rewrite (lstrip_head _ _ Hc).
  assert (E : reverse (c :: s ++ [c']) = c' :: reverse (c :: s))
    by exact (reverse_app (c :: s) [c']).
  rewrite E, (lstrip_head _ _ Hc'), reverse_cons, reverse_involutive.
  reflexivity.
Qed.

End MatcherRuns.

(** What the CPython tables say about the ASCII letters and digits. *)
Lemma range_chars_all (P : Z -> bool) lo hi c :
  forallb P (range_chars lo hi) = true -> lo <= c <= hi -> P c = true.
Proof.
  intros Hall Hc. rewrite forallb_forall in Hall. apply Hall.
  unfold range_chars. apply in_map_iff. exists (Z.to_nat (c - lo)).
  split; [lia |]. apply in_seq. lia.
Qed.

Lemma ascii_alnum_facts c :
  ascii_alnum c = true ->
  atom_matches true alnum_az09 c = true
  /\ is_word c = true /\ isspace c = false.
Proof.
  unfold ascii_alnum. intros H.
  assert (Hc : 48 <= c <= 57 \/ 65 <= c <= 90 \/ 97 <= c <= 122) by lia.
  pose (P := fun c => atom_matches true alnum_az09 c && is_word c
                      && negb (isspace c)).
  assert (HP : P c = true).
  { destruct Hc as [Hc | [Hc | Hc]];
      [ apply (range_chars_all P 48 57) | apply (range_chars_all P 65 90)
      | apply (range_chars_all P 97 122) ];
      solve [vm_compute; reflexivity | exact Hc]. }
  unfold P in HP. apply andb_prop in HP as [HP Hspace].
  apply andb_prop in HP as [Hatom Hword].
  apply negb_true_iff in Hspace. repeat split; assumption.
Qed.

Lemma ascii_alnum_all (s : str) :
  forallb ascii_alnum s = true ->
  forallb (atom_matches true alnum_az09) s = true
  /\ (forall c, last s = Some c -> is_word c = true /\ isspace c = false).
Proof.
  intros H. rewrite forallb_forall in H. split.
  - apply forallb_forall. intros c Hc.
    exact (proj1 (ascii_alnum_facts c (H c Hc))).
  - intros c Hc. apply ascii_alnum_facts, H.
    apply last_Some in Hc as [s' ->]. apply in_app_iff. right. left.
    reflexivity.
Qed.

(** The code "TKT-" followed by six or more ASCII letters or digits passes
    the format check ... *)
Lemma tkt_code_valid (s : str) :
  (6 <= length s)%nat -> forallb ascii_alnum s = true ->
  validate_ticket_id_format (u "TKT-" ++ s) = true.
Proof.
  intros Hlen Hall. destruct (ascii_alnum_all s Hall) as [Hatoms Hlast].
  destruct (exists_last (l := s)) as (s0 & cl & ->);
    [intros ->; cbn in Hlen; lia |].
  destruct (Hlast cl (last_snoc _ _)) as [_ Hspace].
  assert (Hstrip : strip (u "TKT-" ++ s0 ++ [cl]) = u "TKT-" ++ s0 ++ [cl]).
  { change (u "TKT-" ++ s0 ++ [cl])
      with (84 :: ([75; 84; 45] ++ s0) ++ [cl]).
    apply strip_clean; [vm_compute; reflexivity | exact Hspace]. }
  unfold validate_ticket_id_format, valid_patterns. cbn [existsb].
  rewrite Hstrip.
  assert (Hmatch :
    found (re_match true (Bol ⋅ lit "TKT-" ⋅ at_least 6 alnum_az09 ⋅ Eol)%re
             (u "TKT-" ++ s0 ++ [cl])) = true).
  { unfold re_match, match_at, at_least, lit. cbn [rmatch pos].
    rewrite rmatch_lit by (vm_compute; reflexivity).
    cbn [pos prev rest marks].
    erewrite rep_atom_all; [reflexivity | exact Hatoms | exact Hlen |].
    cbn [rest]. reflexivity. }
  rewrite Hmatch. reflexivity.
Qed.

(** ... and is found in a message that consists of it. *)
Lemma tkt_code_detected (s : str) :
  (6 <= length s)%nat -> forallb ascii_alnum s = true ->
  detect_ticket_id_or_mobile (u "TKT-" ++ s)
  = Ok (Some (u "TKT-" ++ s), Some ticket_id_type).
Proof.
  intros Hlen Hall. destruct (ascii_alnum_all s Hall) as [Hatoms Hlast].
  assert (Hdet : detect_ticket_id (u "TKT-" ++ s) = Ok (Some (u "TKT-" ++ s))).
  { destruct (exists_last (l := s)) as (s0 & cl & Hs);
      [intros ->; cbn in Hlen; lia |].
    assert (Hcl : last s = Some cl) by (rewrite Hs; apply last_snoc).
    destruct (Hlast cl Hcl) as [Hword _].
    unfold detect_ticket_id, ticket_patterns. cbn [first_group1].
    assert (Hmatch :
      re_search true (WordB ⋅ Group 1 (lit "TKT-" ⋅ plus alnum_az09) ⋅ WordB)%re
        (u "TKT-" ++ s)
      = Some {| m_start := 0; m_end := 4 + length s;
                m_group0 := u "TKT-" ++ s;
                m_marks := [(1%nat, u "TKT-" ++ s)]; m_ngroups := 1 |}).
    { unfold re_search.
      assert (Hat : match_at true
                      (WordB ⋅ Group 1 (lit "TKT-" ⋅ plus alnum_az09) ⋅ WordB)%re
                      0 None (u "TKT-" ++ s)
                    = Some {| m_start := 0; m_end := 4 + length s;
                              m_group0 := u "TKT-" ++ s;
                              m_marks := [(1%nat, u "TKT-" ++ s)];
                              m_ngroups := 1 |}).
      { unfold match_at, plus, lit. cbn [rmatch pos prev rest].
        change (word_opt (head (u "TKT-" ++ s))) with (word_opt (Some 84)).
        change (xorb (word_opt None) (word_opt (Some 84)))
          with (is_word 84).
        replace (is_word 84) with true by (vm_compute; reflexivity).
        rewrite rmatch_lit by (vm_compute; reflexivity).
        cbn [pos prev rest marks].
        erewrite rep_atom_all;
          [| exact Hatoms | lia
           | cbn [pos prev rest marks set_mark head]; rewrite Hcl;
             cbn [from_option word_opt xorb]; rewrite Hword; reflexivity ].
        cbn [pos marks set_mark].
        rewrite !Nat.sub_0_r, !firstn_all2 by (rewrite length_app; lia).
        reflexivity. }
      destruct (u "TKT-" ++ s); cbn [search_from]; rewrite Hat; reflexivity. }
    rewrite Hmatch. reflexivity. }
  assert (Htruthy : truthy (Some (u "TKT-" ++ s)) = true) by reflexivity.
  unfold detect_ticket_id_or_mobile, rbind. rewrite Hdet, Htruthy.
  cbn [from_option Datatypes.id]. rewrite (tkt_code_valid s Hlen Hall).
  reflexivity.
Qed.

(** X20: every code of the form "TKT-" followed by six or more ASCII
    letters or digits is a valid ticket identifier, and a message that
    consists of such a code is detected as that ticket identifier (with the
    character tables of CPython). *)
Theorem tkt_codes_are_valid_and_detected :
  forall s : str,
    (6 <= length s)%nat ->
    forallb ascii_alnum s = true ->
    validate_ticket_id_format (u "TKT-" ++ s) = true
    /\ detect_ticket_id_or_mobile (u "TKT-" ++ s)
       = Ok (Some (u "TKT-" ++ s), Some ticket_id_type).
Proof.
  intros s Hlen Hall.
  split; [exact (tkt_code_valid s Hlen Hall) | exact (tkt_code_detected s Hlen Hall)].
Qed.

Lemma tkt_codes_are_valid_and_detected_witness :
  validate_ticket_id_format (u "TKT-" ++ u "Ab12cd") = true
  /\ detect_ticket_id_or_mobile (u "TKT-" ++ u "Ab12cd")
     = Ok (Some (u "TKT-" ++ u "Ab12cd"), Some ticket_id_type).
Proof.
  assert (Hlen : (6 <= length (u "Ab12cd"))%nat) by (vm_compute; lia).
  assert (Hall : forallb ascii_alnum (u "Ab12cd") = true)
    by (vm_compute; reflexivity).
  exact (tkt_codes_are_valid_and_detected (u "Ab12cd") Hlen Hall).
Defined.

Lemma hex_digit_alnum n : 0 <= n < 16 -> ascii_alnum (hex_digit n) = true.
Proof.
  intros Hn. unfold hex_digit, ascii_alnum.
  destruct (n <? 10) eqn:E; [apply Z.ltb_lt in E | apply Z.ltb_ge in E]; lia.
Qed.

Lemma token_hex_alnum (random_bytes : list Z) :
  Forall (fun b => 0 <= b < 256) random_bytes ->
  forallb ascii_alnum (token_hex random_bytes) = true
  /\ length (token_hex random_bytes) = (2 * length random_bytes)%nat.
Proof.
  induction 1 as [| b bs Hb _ [IH1 IH2]]; [split; reflexivity |].
  unfold token_hex in *. cbn [flat_map hex2 app forallb length].
  rewrite IH1, IH2, !hex_digit_alnum.
  - split; [reflexivity | lia].
  - apply Z.mod_pos_bound. lia.
  - split; [apply Z.div_pos; lia | apply Z.div_lt_upper_bound; lia].
Qed.

(** X21: the code that [save_whatsapp_ticket] gives a new ticket can be
    looked up in the chat: a message that consists of the code, "TKT-" and
    the eight hexadecimal digits of the four random bytes, is answered by a
    lookup of exactly that code in the store, in every stage of the
    dialogue. *)
Theorem whatsapp_ticket_is_looked_up :
  forall (random_bytes : list Z) (sid : str) (l : language) (w : world),
    length random_bytes = 4%nat ->
    Forall (fun b => 0 <= b < 256) random_bytes ->
    let ticket := whatsapp_ticket random_bytes in
    validate_ticket_id_format ticket = true
    /\ exists reply,
         process_maha_aastha_query ticket sid l w
         = (Ok reply, with_lookup ticket w).
Proof.
  intros random_bytes sid l w Hlen Hbytes ticket.
  destruct (token_hex_alnum random_bytes Hbytes) as [Hall Hhex].
  assert (Hsix : (6 <= length (token_hex random_bytes))%nat) by lia.
  split; [exact (tkt_code_valid _ Hsix Hall) |].
  exact (engine_identifier_run ticket sid l w _ _ (tkt_code_detected _ Hsix Hall)).
Qed.

Lemma whatsapp_ticket_is_looked_up_witness :
  whatsapp_ticket [0x3A; 0xF0; 0x00; 0x9C] = u "TKT-3af0009c"
  /\ validate_ticket_id_format (whatsapp_ticket [0x3A; 0xF0; 0x00; 0x9C]) = true
  /\ exists reply,
       process_maha_aastha_query (whatsapp_ticket [0x3A; 0xF0; 0x00; 0x9C])
         (u "s1") mr
         (one_session (constant_store (Ok None)) (u "s1") feedback_question)
       = (Ok reply,
          with_lookup (whatsapp_ticket [0x3A; 0xF0; 0x00; 0x9C])
            (one_session (constant_store (Ok None)) (u "s1") feedback_question)).
Proof.
  split; [vm_compute; reflexivity |].
  assert (Hlen : length [0x3A; 0xF0; 0x00; 0x9C] = 4%nat) by reflexivity.
  assert (Hbytes : Forall (fun b => 0 <= b < 256) [0x3A; 0xF0; 0x00; 0x9C])
    by (repeat constructor; lia).
  exact (whatsapp_ticket_is_looked_up [0x3A; 0xF0; 0x00; 0x9C] (u "s1") mr
           (one_session (constant_store (Ok None)) (u "s1") feedback_question)
           Hlen Hbytes).
Defined.

(** ** The stage machine: two guards *)

(** X22: a status question without an identifier asks for one: whatever
    stage the session is in, the reply is the ticket-id prompt of the
    language followed, on a new line, by the hint "Or enter your registered
    mobile number (Example: 9876543210)" (in Marathi for a Marathi session),
    and the session is put in stage [waiting_for_ticket_id]. *)
Theorem status_question_asks_for_identifier `{UCD : UnicodeData} :
  forall (text sid : str) (l : language) (w : world),
    detect_ticket_id_or_mobile text = Ok (None, None) ->
    detect_exact_status_question text l = true ->
    exists w',
      process_maha_aastha_query text sid l w
      = (Ok (ticket_id_prompt (MAHA_AASTHA_KNOWLEDGE_BASE l) ++ nl
             ++ match l with
                | en => u "Or enter your registered mobile number (Example: 9876543210)"
                | mr => u "किंवा आपला नोंदणीकृत मोबाइल नंबर प्रविष्ट करा (उदाहरणार्थ: 9876543210)"
                end), w')
      /\ stage_of w' sid = waiting_for_ticket_id.
Proof.
  intros text sid l w Hdet Hstatus.
  unfold process_maha_aastha_query.
  rewrite (bind_ok _ _ w _ w (f_equal (fun r => (r, w)) Hdet)).
  cbn [truthy found andb].
  destruct (ensure_session_run sid l w) as (w1 & st & Hrun & Hlook & _ & _).
  rewrite (bind_ok _ _ _ _ _ Hrun). cbv zeta. rewrite Hstatus.
  rewrite (bind_ok _ _ w1 _ w1 (f_equal (fun r => (r, w1)) Hdet)).
  cbn [truthy andb].
  destruct (set_stage_run sid waiting_for_ticket_id w1) as (w2 & Hset & _ & Hnew).
  rewrite (bind_ok _ _ _ _ _ Hset).
  exists w2. split; [destruct l; reflexivity |]. apply Hnew. rewrite Hlook. eauto.
Qed.

Lemma status_question_asks_for_identifier_witness :
  exists w',
    process_maha_aastha_query (u "Check Status") (u "s1") en
      (one_session (constant_store (Ok None)) (u "s1") completed)
    = (Ok (ticket_id_prompt (MAHA_AASTHA_KNOWLEDGE_BASE en) ++ nl
           ++ u "Or enter your registered mobile number (Example: 9876543210)"),
       w')
    /\ stage_of w' (u "s1") = waiting_for_ticket_id.
Proof.
  assert (Hdet : detect_ticket_id_or_mobile (u "Check Status") = Ok (None, None))
    by (vm_compute; reflexivity).
  assert (Hstatus : detect_exact_status_question (u "Check Status") en = true)
    by (vm_compute; reflexivity).
  exact (status_question_asks_for_identifier (u "Check Status") (u "s1") en
           (one_session (constant_store (Ok None)) (u "s1") completed)
           Hdet Hstatus).
Defined.

(** X23: the word "feedback" (or "अभिप्राय") opens the feedback dialogue
    from every stage but [waiting_for_ticket_id]: a text that holds it, and
    neither an identifier nor a status question, is answered with the
    feedback question, and the session is put in stage
    [feedback_question]. *)
Theorem feedback_keyword_opens_feedback_question `{UCD : UnicodeData} :
  forall (text sid : str) (l : language) (w : world),
    detect_ticket_id_or_mobile text = Ok (None, None) ->
    detect_exact_status_question text l = false ->
    stage_of w sid <> waiting_for_ticket_id ->
    contains (u "feedback") (lower text)
    || contains (u "अभिप्राय") (lower text) = true ->
    exists w',
      process_maha_aastha_query text sid l w = (Ok (get_feedback_question l), w')
      /\ stage_of w' sid = feedback_question.
Proof.
  intros text sid l w Hdet Hstatus Hstage Hword.
  unfold process_maha_aastha_query. rewrite Hdet, Hstatus, Hword.
  cbn [bind lift ret truthy found andb].
  destruct (ensure_session_run sid l w) as (w1 & st & Hrun & Hlook & Hst & _).
  rewrite (bind_ok _ _ _ _ _ Hrun).
  read_stage_with Hlook. rewrite Hst.
  rewrite bool_decide_eq_false_2 by exact Hstage. cbv beta iota.
  destruct (set_stage_run sid feedback_question w1) as (w2 & Hset & _ & Hnew).
  rewrite (bind_ok _ _ _ _ _ Hset).
  exists w2. split; [reflexivity |]. apply Hnew. rewrite Hlook. eauto.
Qed.

Lemma feedback_keyword_opens_feedback_question_witness :
  exists w',
    process_maha_aastha_query (u "I have some Feedback") (u "s1") en
      (one_session (constant_store (Ok None)) (u "s1") completed)
    = (Ok (get_feedback_question en), w')
    /\ stage_of w' (u "s1") = feedback_question.
Proof.
  assert (Hdet : detect_ticket_id_or_mobile (u "I have some Feedback")
                 = Ok (None, None)) by (vm_compute; reflexivity).
  assert (Hstatus : detect_exact_status_question (u "I have some Feedback") en
                    = false) by (vm_compute; reflexivity).
  assert (Hstage : stage_of (one_session (constant_store (Ok None)) (u "s1")
                               completed) (u "s1")
                   <> waiting_for_ticket_id) by (vm_compute; discriminate).
  assert (Hword : contains (u "feedback") (lower (u "I have some Feedback"))
                  || contains (u "अभिप्राय") (lower (u "I have some Feedback"))
                  = true) by (vm_compute; reflexivity).
  exact (feedback_keyword_opens_feedback_question (u "I have some Feedback")
           (u "s1") en
           (one_session (constant_store (Ok None)) (u "s1") completed)
           Hdet Hstatus Hstage Hword).
Defined.

(** ** Validated requests *)

Section Strip.
Context `{UCD : UnicodeData}.

Lemma lstrip_shape (s : str) :
  lstrip s = [] \/ exists c t, lstrip s = c :: t /\ isspace c = false.
Proof.
  induction s as [| c s IH]; [left; reflexivity |].
  cbn [lstrip]. destruct (isspace c) eqn:Hc; [exact IH |].
  right. exists c, s. split; [reflexivity | exact Hc].
Qed.

Lemma lstrip_snoc (z : str) c :
  isspace c = false -> lstrip (z ++ [c]) = lstrip z ++ [c].
Proof.
  intros Hc. induction z as [| a z IH]; cbn [app lstrip].
  - rewrite Hc. reflexivity.
  - destruct (isspace a); [exact IH | reflexivity].
Qed.

Lemma lstrip_idem (s : str) : lstrip (lstrip s) = lstrip s.
Proof.
  destruct (lstrip_shape s) as [-> | (c & t & -> & Hc)]; [reflexivity |].
  apply lstrip_head. exact Hc.
Qed.

Lemma rstrip_head c (t : str) :
  isspace c = false -> exists t', rstrip (c :: t) = c :: t'.
Proof.
  intros Hc. unfold rstrip. rewrite reverse_cons, (lstrip_snoc _ _ Hc).
  rewrite reverse_app. eexists. reflexivity.
Qed.

Lemma rstrip_idem (s : str) : rstrip (rstrip s) = rstrip s.
Proof. unfold rstrip. rewrite reverse_involutive, lstrip_idem. reflexivity. Qed.

(** Stripping twice is stripping once. *)
Lemma strip_idem (s : str) : strip (strip s) = strip s.
Proof.
  unfold strip.
  destruct (lstrip_shape s) as [-> | (c & t & -> & Hc)]; [reflexivity |].
  destruct (rstrip_head c t Hc) as [t' Ht'].
  rewrite Ht', (lstrip_head _ _ Hc), <- Ht'. apply rstrip_idem.
Qed.

End Strip.

(** X24: a request that has passed the validators of [QueryRequest] is
    never refused: its text is the stripped text, not empty and at most 500
    characters long, its language is supported, and the /query/ handler
    answers it with status 200 or 500, not 400 (with the character tables of
    CPython). *)
Theorem validated_query_is_never_refused :
  forall (env : environment) (text language : str) (sid : option str)
         (request : QueryRequest) (w : world),
    validate_query_request text sid language = Some request ->
    input_text request = strip text
    /\ (0 < length (input_text request) <= 500)%nat
    /\ language_field request ∈ SUPPORTED_LANGUAGES
    /\ exists response w',
         process_query env request w = (Ok response, w')
         /\ status_code response <> 400.
Proof.
  intros env text language sid request w. unfold validate_query_request.
  cbv zeta. case_bool_decide as Htext; [discriminate |].
  destruct (500 <? length (strip text))%nat eqn:Hlen; [discriminate |].
  destruct (existsb (str_eqb language) SUPPORTED_LANGUAGES) eqn:Hlang;
    [| discriminate].
  cbn [negb]. intros [= <-]. cbn [input_text language_field].
  apply Nat.ltb_ge in Hlen.
  assert (Hsupported : language = u "en" \/ language = u "mr").
  { unfold SUPPORTED_LANGUAGES, str_eqb in Hlang. cbn [existsb] in Hlang.
    repeat case_bool_decide; auto; discriminate. }
  split; [reflexivity |]. split.
  { destruct (strip text); [congruence | cbn [length] in *; lia]. }
  split.
  { unfold SUPPORTED_LANGUAGES. rewrite !elem_of_cons.
    destruct Hsupported; auto. }
  assert (Hparse : is_Some (parse_language (lower language)))
    by (destruct Hsupported as [-> | ->]; vm_compute; eauto).
  destruct (process_query_cases env
              {| input_text := strip text; session_id := sid;
                 language_field := language |} w)
    as [[Hbad [msg Hrun]]
       | [(_ & Hbad & _)
         | [(l & key & _ & _ & _ & Hrun)
           | [(l & key & reply & w1 & _ & _ & _ & _ & Hrun)
             | (l & key & e & w1 & msg & _ & _ & _ & _ & Hrun)]]]];
    cbn [input_text language_field] in *.
  - exfalso. rewrite strip_idem in Hbad. exact (Htext Hbad).
  - exfalso. rewrite Hbad in Hparse. destruct Hparse as [? ?]. discriminate.
  - rewrite Hrun. do 2 eexists. split; [reflexivity | discriminate].
  - rewrite Hrun. do 2 eexists. split; [reflexivity | discriminate].
  - rewrite Hrun. do 2 eexists. split; [reflexivity | discriminate].
Qed.

Lemma validated_query_is_never_refused_witness :
  exists response w',
    process_query sample_environment
      {| input_text := u "hello TKT-ab12cd"; session_id := Some (u "s1");
         language_field := u "en" |}
      (fresh_world (constant_store (Ok None)))
    = (Ok response, w')
    /\ status_code response <> 400.
Proof.
  assert (H : validate_query_request (u "  hello TKT-ab12cd ") (Some (u "s1"))
                (u "en")
              = Some {| input_text := u "hello TKT-ab12cd";
                        session_id := Some (u "s1");
                        language_field := u "en" |})
    by (vm_compute; reflexivity).
  exact (proj2 (proj2 (proj2
           (validated_query_is_never_refused sample_environment _ _ _ _
              (fresh_world (constant_store (Ok None))) H)))).
Defined.

(** ** Rating statistics *)

Lemma count_ratings_total (ratings : list Z) :
  Forall (fun r => validate_rating r = true) ratings ->
  (count_occ Z.eq_dec ratings 1%Z + count_occ Z.eq_dec ratings 2%Z
   + count_occ Z.eq_dec ratings 3%Z + count_occ Z.eq_dec ratings 4%Z
   + count_occ Z.eq_dec ratings 5%Z)%nat
  = length ratings.
Proof.
  induction 1 as [| r ratings Hr _ IH]; [reflexivity |].
  cbn [count_occ length]. rewrite <- IH.
  unfold validate_rating in Hr. cbn [existsb] in Hr.
  rewrite !orb_true_iff, !Z.eqb_eq in Hr.
  repeat destruct (Z.eq_dec r _); lia.
Qed.

(** X25: the rating distribution of the statistics adds up: in every state
    the process can reach, each entry of the ledger has a rating from 1 to
    5, so the counts that [get_rating_stats] reports for the ratings 1 to 5
    sum to the number of entries, [total_ratings]. *)
Theorem rating_distribution_adds_up `{UCD : UnicodeData} :
  forall w : world,
    reachable w ->
    Forall (fun e => validate_rating (r_rating e) = true) (RATINGS_DATA w)
    /\ list_sum (map snd (rating_distribution (RATINGS_DATA w)))
       = length (RATINGS_DATA w).
Proof.
  intros w Hreach.
  assert (Hvalid : Forall (fun e => validate_rating (r_rating e) = true)
                     (RATINGS_DATA w)).
  { eapply Forall_impl; [apply reachable_labelled; exact Hreach |].
    intros e He. unfold labelled in He. cbn beta.
    exact (proj2 (proj1 (RATING_LABELS_domain _ _) (ex_intro _ _ He))). }
  split; [exact Hvalid |].
  unfold rating_distribution.
  destruct (RATINGS_DATA w) as [| e ledger] eqn:E; [reflexivity |].
  rewrite <- E in *. clear E e ledger. cbn [map snd list_sum].
  rewrite <- (length_map r_rating (RATINGS_DATA w)).
  rewrite <- (count_ratings_total (map r_rating (RATINGS_DATA w)))
    by (apply Forall_map; exact Hvalid).
  unfold list_sum. cbn [fold_right]. lia.
Qed.

Lemma rating_distribution_adds_up_witness :
  let w := snd (submit_rating sample_environment five_stars
                  (fresh_world (constant_store (Ok None)))) in
  reachable w
  /\ rating_distribution (RATINGS_DATA w)
     = [(u "1", 0%nat); (u "2", 0%nat); (u "3", 0%nat); (u "4", 0%nat);
        (u "5", 1%nat)]
  /\ list_sum (map snd (rating_distribution (RATINGS_DATA w)))
     = length (RATINGS_DATA w).
Proof.
  cbv zeta.
  assert (H : reachable (snd (submit_rating sample_environment five_stars
                                (fresh_world (constant_store (Ok None))))))
    by (apply reach_rating; [apply reach_start | reflexivity]).
  split; [exact H |]. split; [vm_compute; reflexivity |].
  exact (proj2 (rating_distribution_adds_up _ H)).
Defined.

(** ** Replies of the engine *)

(** X26: a ticket that is found is shown: when the text carries an
    identifier and the store holds a row for it, the reply is the status
    display of that row, which names the row's ticket code and its status;
    this holds in every stage, and the sessions are left as they were. *)
Theorem found_ticket_is_shown `{UCD : UnicodeData} :
  forall (text sid : str) (l : language) (w : world)
         (identifier : str) (ty : identifier_type) (row : TicketRow),
    detect_ticket_id_or_mobile text = Ok (Some identifier, Some ty) ->
    fst (get_ticket_status identifier w) = Ok (Some row) ->
    let reply := status_response row identifier (Some ty) l in
    process_maha_aastha_query text sid l w = (Ok reply, with_lookup identifier w)
    /\ contains (fmt (ticket row)) reply = true
    /\ contains (fmt (status row)) reply = true.
Proof.
  intros text sid l w identifier ty row Hdet Hrow reply.
  assert (Hne : identifier <> []).
  { destruct (detect_shape _ _ _ Hdet) as [Hfound | [Hnone _]]; [| discriminate].
    destruct identifier; [discriminate | congruence]. }
  rewrite (identifier_short_circuit _ sid l w _ _ Hdet Hne).
  unfold get_ticket_status in Hrow.
  destruct (lookup_run identifier w) as [r Hr].
  rewrite Hr in Hrow |- *. cbn [fst] in Hrow. injection Hrow as ->.
  split; [reflexivity |].
  exact (status_response_mentions row identifier (Some ty) l).
Qed.

Lemma found_ticket_is_shown_witness :
  process_maha_aastha_query (u "status of TKT-ab12cd please") (u "s1") en
    (one_session (constant_store (Ok (Some resolved_row))) (u "s1") completed)
  = (Ok (status_response resolved_row (u "TKT-ab12cd") (Some ticket_id_type) en),
     with_lookup (u "TKT-ab12cd")
       (one_session (constant_store (Ok (Some resolved_row))) (u "s1") completed))
  /\ contains (fmt (ticket resolved_row))
       (status_response resolved_row (u "TKT-ab12cd") (Some ticket_id_type) en)
     = true
  /\ contains (fmt (status resolved_row))
       (status_response resolved_row (u "TKT-ab12cd") (Some ticket_id_type) en)
     = true.
Proof.
  assert (Hdet : detect_ticket_id_or_mobile (u "status of TKT-ab12cd please")
                 = Ok (Some (u "TKT-ab12cd"), Some ticket_id_type))
    by (vm_compute; reflexivity).
  assert (Hrow : fst (get_ticket_status (u "TKT-ab12cd")
                        (one_session (constant_store (Ok (Some resolved_row)))
                           (u "s1") completed))
                 = Ok (Some resolved_row)) by (vm_compute; reflexivity).
  exact (found_ticket_is_shown (u "status of TKT-ab12cd please") (u "s1") en
           (one_session (constant_store (Ok (Some resolved_row))) (u "s1")
              completed)
           (u "TKT-ab12cd") ticket_id_type resolved_row Hdet Hrow).
Defined.

(** X27: any other text gets the menu: in a stage other than [initial],
    [waiting_for_ticket_id] and [feedback_question], a text without an
    identifier, a status question, the feedback word or a registration word
    is answered with the welcome menu, and the state, the stage of the
    session included, is left exactly as it was. *)
Theorem other_text_gets_the_menu `{UCD : UnicodeData} :
  forall (text sid : str) (l : language) (w : world),
    detect_ticket_id_or_mobile text = Ok (None, None) ->
    detect_exact_status_question text l = false ->
    contains (u "feedback") (lower text)
    || contains (u "अभिप्राय") (lower text) = false ->
    existsb (fun kw => contains kw (lower text)) registration_keywords = false ->
    stage_of w sid <> initial ->
    stage_of w sid <> waiting_for_ticket_id ->
    stage_of w sid <> feedback_question ->
    process_maha_aastha_query text sid l w
    = (Ok (get_initial_response_with_status_option l), w).
Proof.
  intros text sid l w Hdet Hstatus Hword Hreg Hinit Hwait Hfeed.
  destruct (stage_of_stored w sid _ eq_refl Hinit) as (st & Hlook & Hst).
  unfold process_maha_aastha_query. rewrite Hdet, Hstatus, Hword, Hreg.
  cbn [bind lift ret truthy found andb].
  rewrite (bind_ok _ _ _ _ _ (ensure_session_stored sid l w st Hlook)).
  read_stage_with Hlook. rewrite Hst.
  rewrite bool_decide_eq_false_2 by exact Hwait. cbv beta iota.
  read_stage_with Hlook. rewrite Hst.
  rewrite bool_decide_eq_false_2 by exact Hfeed. cbv beta iota.
  read_stage_with Hlook. rewrite Hst.
  rewrite bool_decide_eq_false_2 by exact Hinit. cbn [orb]. cbv beta iota.
  reflexivity.
Qed.

Lemma other_text_gets_the_menu_witness :
  process_maha_aastha_query (u "5") (u "s1") en
    (one_session (constant_store (Ok None)) (u "s1") rating_request)
  = (Ok (get_initial_response_with_status_option en),
     one_session (constant_store (Ok None)) (u "s1") rating_request).
Proof.
  assert (Hdet : detect_ticket_id_or_mobile (u "5") = Ok (None, None))
    by (vm_compute; reflexivity).
  assert (Hstatus : detect_exact_status_question (u "5") en = false)
    by (vm_compute; reflexivity).
  assert (Hword : contains (u "feedback") (lower (u "5"))
                  || contains (u "अभिप्राय") (lower (u "5")) = false)
    by (vm_compute; reflexivity).
  assert (Hreg : existsb (fun kw => contains kw (lower (u "5")))
                   registration_keywords = false)
    by (vm_compute; reflexivity).
  assert (Hinit : stage_of (one_session (constant_store (Ok None)) (u "s1")
                              rating_request) (u "s1") <> initial)
    by (vm_compute; discriminate).
  assert (Hwait : stage_of (one_session (constant_store (Ok None)) (u "s1")
                              rating_request) (u "s1") <> waiting_for_ticket_id)
    by (vm_compute; discriminate).
  assert (Hfeed : stage_of (one_session (constant_store (Ok None)) (u "s1")
                              rating_request) (u "s1") <> feedback_question)
    by (vm_compute; discriminate).
  exact (other_text_gets_the_menu (u "5") (u "s1") en
           (one_session (constant_store (Ok None)) (u "s1") rating_request)
           Hdet Hstatus Hword Hreg Hinit Hwait Hfeed).
Defined.
